(** * PPT Professional Designer: the questionnaire back end

    A shallow embedding of [webapp/api/index.py]: the response ledger, the
    profile scoring, the template matching, the ranking of recommendations,
    the implementation plan, the progress percentage and the
    response-submission route, followed by the properties stated for them.

    Conventions of the embedding.

    - A Python [str] is a [string]: its UTF-8 bytes, a lone surrogate taking
      three bytes like any other code point of its range.  [str.lower] is
      CPython's: the lowercase mapping of Unicode 14.0 with the rule for the
      final sigma, applied to the code points the bytes stand for.
    - A value of type [Any] (a decoded JSON value) is a [pyval].
    - A Python [float] is an exact rational [Q]: the match scores are whole
      numbers up to 100, on which binary floating point is exact; for profile
      scores and progress the embedding gives the exact value of the formula
      the code evaluates.
    - A Python [dict] keyed by strings is an association list in insertion
      order whose keys are distinct ([dict_wf]).
    - A call that raises is a [Raise]; a call that returns is an [Ok]. *)

From Stdlib Require Import ZArith QArith Qminmax Bool List String Ascii Lia.
From Stdlib Require Import Sorted Permutation.
Import ListNotations.

Open Scope string_scope.
Open Scope list_scope.

(** ** Python values *)

#[local] Set Warnings "-register-all".

Inductive pyval : Type :=
| PNone
| PBool (b : bool)
| PInt (z : Z)
| PFloat (q : Q)
| PStr (s : string)
| PList (l : list pyval)
| PDict (d : list (string * pyval)).

(** [bool(v)]: the truth value Python gives to [v]. *)
Definition truthy (v : pyval) : bool :=
  match v with
  | PNone => false
  | PBool b => b
  | PInt z => negb (Z.eqb z 0)
  | PFloat q => negb (Qeq_bool q 0)
  | PStr s => negb (String.eqb s "")
  | PList l => match l with [] => false | _ => true end
  | PDict d => match d with [] => false | _ => true end
  end.

(** [v is None]. *)
Definition is_None (v : pyval) : bool :=
  match v with PNone => true | _ => false end.

(** Lists and dicts cannot be used as dictionary keys. *)
Definition hashable (v : pyval) : bool :=
  match v with PList _ | PDict _ => false | _ => true end.

(** [v in l] for a list [l] of strings: [==] between a string and a value of
    any other type is [False]. *)
Definition py_in (v : pyval) (l : list string) : bool :=
  match v with
  | PStr s => existsb (String.eqb s) l
  | _ => false
  end.

(** ** Exceptions *)

Inductive PyExn : Type :=
  AttributeError | TypeError | KeyError | IndexError | BadRequest.

Inductive result (A : Type) : Type :=
| Ok (a : A)
| Raise (e : PyExn).
Arguments Ok {A} a.
Arguments Raise {A} e.

Definition bind {A B : Type} (r : result A) (k : A -> result B) : result B :=
  match r with
  | Ok a => k a
  | Raise e => Raise e
  end.

Notation "x <- r ;; k" := (bind r (fun x => k))
  (at level 61, r at next level, right associativity).

(** ** Strings *)

(** *** Code points and UTF-8 *)

Definition byte_val (c : ascii) : Z := Z.of_N (N_of_ascii c).

Definition byte_of (z : Z) : ascii := ascii_of_N (Z.to_N z).

(** A continuation byte. *)
Definition is_cont (b : Z) : bool := (0x80 <=? b)%Z && (b <=? 0xBF)%Z.

(** The code points a byte string stands for; [None] when the bytes do not
    have the shape of UTF-8, which the bytes of a Python string always
    have. *)
Fixpoint decode (s : string) : option (list Z) :=
  match s with
  | EmptyString => Some []
  | String c0 s1 =>
      let b0 := byte_val c0 in
      if (b0 <? 0x80)%Z then option_map (cons b0) (decode s1)
      else if (0xC0 <=? b0)%Z && (b0 <? 0xE0)%Z then
        match s1 with
        | String c1 s2 =>
            if is_cont (byte_val c1)
            then option_map (cons ((b0 - 0xC0) * 64 + (byte_val c1 - 0x80))%Z)
                            (decode s2)
            else None
        | EmptyString => None
        end
      else if (0xE0 <=? b0)%Z && (b0 <? 0xF0)%Z then
        match s1 with
        | String c1 (String c2 s3) =>
            if is_cont (byte_val c1) && is_cont (byte_val c2)
            then option_map
                   (cons (((b0 - 0xE0) * 64 + (byte_val c1 - 0x80)) * 64
                          + (byte_val c2 - 0x80))%Z)
                   (decode s3)
            else None
        | _ => None
        end
      else if (0xF0 <=? b0)%Z && (b0 <? 0xF8)%Z then
        match s1 with
        | String c1 (String c2 (String c3 s4)) =>
            if is_cont (byte_val c1) && is_cont (byte_val c2)
               && is_cont (byte_val c3)
            then option_map
                   (cons ((((b0 - 0xF0) * 64 + (byte_val c1 - 0x80)) * 64
                           + (byte_val c2 - 0x80)) * 64
                          + (byte_val c3 - 0x80))%Z)
                   (decode s4)
            else None
        | _ => None
        end
      else None
  end.

Definition encode_cp (cp : Z) : string :=
  if (cp <? 0x80)%Z then String (byte_of cp) EmptyString
  else if (cp <? 0x800)%Z then
    String (byte_of (0xC0 + cp / 64))
      (String (byte_of (0x80 + cp mod 64)) EmptyString)
  else if (cp <? 0x10000)%Z then
    String (byte_of (0xE0 + cp / 4096))
      (String (byte_of (0x80 + (cp / 64) mod 64))
         (String (byte_of (0x80 + cp mod 64)) EmptyString))
  else
    String (byte_of (0xF0 + cp / 262144))
      (String (byte_of (0x80 + (cp / 4096) mod 64))
         (String (byte_of (0x80 + (cp / 64) mod 64))
            (String (byte_of (0x80 + cp mod 64)) EmptyString))).

Fixpoint encode (cps : list Z) : string :=
  match cps with
  | [] => EmptyString
  | cp :: rest => (encode_cp cp ++ encode rest)%string
  end.

(** A code point of the range four bytes can carry. *)
Definition valid_cp (cp : Z) : Prop := (0 <= cp < 0x200000)%Z.

(** *** The case tables of CPython 3.11 (Unicode 14.0) *)

(** The simple lowercase mapping, as ranges [(first, last, step, delta)]:
    every [step]-th code point from [first] to [last] lowers to itself plus
    [delta].  U+0130 is not here: it lowers to two code points. *)
Definition lower_table : list (Z * Z * Z * Z) :=
  [ (0x41, 0x5a, 1, 32); (0xc0, 0xd6, 1, 32); (0xd8, 0xde, 1, 32);
    (0x100, 0x12e, 2, 1); (0x132, 0x136, 2, 1); (0x139, 0x147, 2, 1);
    (0x14a, 0x176, 2, 1); (0x178, 0x178, 1, (-121)); (0x179, 0x17d, 2, 1);
    (0x181, 0x181, 1, 210); (0x182, 0x184, 2, 1); (0x186, 0x186, 1, 206);
    (0x187, 0x187, 1, 1); (0x189, 0x18a, 1, 205); (0x18b, 0x18b, 1, 1);
    (0x18e, 0x18e, 1, 79); (0x18f, 0x18f, 1, 202); (0x190, 0x190, 1, 203);
    (0x191, 0x191, 1, 1); (0x193, 0x193, 1, 205); (0x194, 0x194, 1, 207);
    (0x196, 0x196, 1, 211); (0x197, 0x197, 1, 209); (0x198, 0x198, 1, 1);
    (0x19c, 0x19c, 1, 211); (0x19d, 0x19d, 1, 213); (0x19f, 0x19f, 1, 214);
    (0x1a0, 0x1a4, 2, 1); (0x1a6, 0x1a6, 1, 218); (0x1a7, 0x1a7, 1, 1);
    (0x1a9, 0x1a9, 1, 218); (0x1ac, 0x1ac, 1, 1); (0x1ae, 0x1ae, 1, 218);
    (0x1af, 0x1af, 1, 1); (0x1b1, 0x1b2, 1, 217); (0x1b3, 0x1b5, 2, 1);
    (0x1b7, 0x1b7, 1, 219); (0x1b8, 0x1b8, 1, 1); (0x1bc, 0x1bc, 1, 1);
    (0x1c4, 0x1c4, 1, 2); (0x1c5, 0x1c5, 1, 1); (0x1c7, 0x1c7, 1, 2);
    (0x1c8, 0x1c8, 1, 1); (0x1ca, 0x1ca, 1, 2); (0x1cb, 0x1db, 2, 1);
    (0x1de, 0x1ee, 2, 1); (0x1f1, 0x1f1, 1, 2); (0x1f2, 0x1f4, 2, 1);
    (0x1f6, 0x1f6, 1, (-97)); (0x1f7, 0x1f7, 1, (-56)); (0x1f8, 0x21e, 2, 1);
    (0x220, 0x220, 1, (-130)); (0x222, 0x232, 2, 1); (0x23a, 0x23a, 1, 10795);
    (0x23b, 0x23b, 1, 1); (0x23d, 0x23d, 1, (-163)); (0x23e, 0x23e, 1, 10792);
    (0x241, 0x241, 1, 1); (0x243, 0x243, 1, (-195)); (0x244, 0x244, 1, 69);
    (0x245, 0x245, 1, 71); (0x246, 0x24e, 2, 1); (0x370, 0x372, 2, 1);
    (0x376, 0x376, 1, 1); (0x37f, 0x37f, 1, 116); (0x386, 0x386, 1, 38);
    (0x388, 0x38a, 1, 37); (0x38c, 0x38c, 1, 64); (0x38e, 0x38f, 1, 63);
    (0x391, 0x3a1, 1, 32); (0x3a3, 0x3ab, 1, 32); (0x3cf, 0x3cf, 1, 8);
    (0x3d8, 0x3ee, 2, 1); (0x3f4, 0x3f4, 1, (-60)); (0x3f7, 0x3f7, 1, 1);
    (0x3f9, 0x3f9, 1, (-7)); (0x3fa, 0x3fa, 1, 1); (0x3fd, 0x3ff, 1, (-130));
    (0x400, 0x40f, 1, 80); (0x410, 0x42f, 1, 32); (0x460, 0x480, 2, 1);
    (0x48a, 0x4be, 2, 1); (0x4c0, 0x4c0, 1, 15); (0x4c1, 0x4cd, 2, 1);
    (0x4d0, 0x52e, 2, 1); (0x531, 0x556, 1, 48); (0x10a0, 0x10c5, 1, 7264);
    (0x10c7, 0x10c7, 1, 7264); (0x10cd, 0x10cd, 1, 7264); (0x13a0, 0x13ef, 1, 38864);
    (0x13f0, 0x13f5, 1, 8); (0x1c90, 0x1cba, 1, (-3008)); (0x1cbd, 0x1cbf, 1, (-3008));
    (0x1e00, 0x1e94, 2, 1); (0x1e9e, 0x1e9e, 1, (-7615)); (0x1ea0, 0x1efe, 2, 1);
    (0x1f08, 0x1f0f, 1, (-8)); (0x1f18, 0x1f1d, 1, (-8)); (0x1f28, 0x1f2f, 1, (-8));
    (0x1f38, 0x1f3f, 1, (-8)); (0x1f48, 0x1f4d, 1, (-8)); (0x1f59, 0x1f5f, 2, (-8));
    (0x1f68, 0x1f6f, 1, (-8)); (0x1f88, 0x1f8f, 1, (-8)); (0x1f98, 0x1f9f, 1, (-8));
    (0x1fa8, 0x1faf, 1, (-8)); (0x1fb8, 0x1fb9, 1, (-8)); (0x1fba, 0x1fbb, 1, (-74));
    (0x1fbc, 0x1fbc, 1, (-9)); (0x1fc8, 0x1fcb, 1, (-86)); (0x1fcc, 0x1fcc, 1, (-9));
    (0x1fd8, 0x1fd9, 1, (-8)); (0x1fda, 0x1fdb, 1, (-100)); (0x1fe8, 0x1fe9, 1, (-8));
    (0x1fea, 0x1feb, 1, (-112)); (0x1fec, 0x1fec, 1, (-7)); (0x1ff8, 0x1ff9, 1, (-128));
    (0x1ffa, 0x1ffb, 1, (-126)); (0x1ffc, 0x1ffc, 1, (-9)); (0x2126, 0x2126, 1, (-7517));
    (0x212a, 0x212a, 1, (-8383)); (0x212b, 0x212b, 1, (-8262)); (0x2132, 0x2132, 1, 28);
    (0x2160, 0x216f, 1, 16); (0x2183, 0x2183, 1, 1); (0x24b6, 0x24cf, 1, 26);
    (0x2c00, 0x2c2f, 1, 48); (0x2c60, 0x2c60, 1, 1); (0x2c62, 0x2c62, 1, (-10743));
    (0x2c63, 0x2c63, 1, (-3814)); (0x2c64, 0x2c64, 1, (-10727)); (0x2c67, 0x2c6b, 2, 1);
    (0x2c6d, 0x2c6d, 1, (-10780)); (0x2c6e, 0x2c6e, 1, (-10749)); (0x2c6f, 0x2c6f, 1, (-10783));
    (0x2c70, 0x2c70, 1, (-10782)); (0x2c72, 0x2c72, 1, 1); (0x2c75, 0x2c75, 1, 1);
    (0x2c7e, 0x2c7f, 1, (-10815)); (0x2c80, 0x2ce2, 2, 1); (0x2ceb, 0x2ced, 2, 1);
    (0x2cf2, 0x2cf2, 1, 1); (0xa640, 0xa66c, 2, 1); (0xa680, 0xa69a, 2, 1);
    (0xa722, 0xa72e, 2, 1); (0xa732, 0xa76e, 2, 1); (0xa779, 0xa77b, 2, 1);
    (0xa77d, 0xa77d, 1, (-35332)); (0xa77e, 0xa786, 2, 1); (0xa78b, 0xa78b, 1, 1);
    (0xa78d, 0xa78d, 1, (-42280)); (0xa790, 0xa792, 2, 1); (0xa796, 0xa7a8, 2, 1);
    (0xa7aa, 0xa7aa, 1, (-42308)); (0xa7ab, 0xa7ab, 1, (-42319)); (0xa7ac, 0xa7ac, 1, (-42315));
    (0xa7ad, 0xa7ad, 1, (-42305)); (0xa7ae, 0xa7ae, 1, (-42308)); (0xa7b0, 0xa7b0, 1, (-42258));
    (0xa7b1, 0xa7b1, 1, (-42282)); (0xa7b2, 0xa7b2, 1, (-42261)); (0xa7b3, 0xa7b3, 1, 928);
    (0xa7b4, 0xa7c2, 2, 1); (0xa7c4, 0xa7c4, 1, (-48)); (0xa7c5, 0xa7c5, 1, (-42307));
    (0xa7c6, 0xa7c6, 1, (-35384)); (0xa7c7, 0xa7c9, 2, 1); (0xa7d0, 0xa7d0, 1, 1);
    (0xa7d6, 0xa7d8, 2, 1); (0xa7f5, 0xa7f5, 1, 1); (0xff21, 0xff3a, 1, 32);
    (0x10400, 0x10427, 1, 40); (0x104b0, 0x104d3, 1, 40); (0x10570, 0x1057a, 1, 39);
    (0x1057c, 0x1058a, 1, 39); (0x1058c, 0x10592, 1, 39); (0x10594, 0x10595, 1, 39);
    (0x10c80, 0x10cb2, 1, 64); (0x118a0, 0x118bf, 1, 32); (0x16e40, 0x16e5f, 1, 32);
    (0x1e900, 0x1e921, 1, 34) ]%Z.

(** The case-ignorable code points, as ranges [(first, last)]. *)
Definition case_ignorable_table : list (Z * Z) :=
  [ (0x27, 0x27); (0x2e, 0x2e); (0x3a, 0x3a); (0x5e, 0x5e);
    (0x60, 0x60); (0xa8, 0xa8); (0xad, 0xad); (0xaf, 0xaf);
    (0xb4, 0xb4); (0xb7, 0xb8); (0x2b0, 0x36f); (0x374, 0x375);
    (0x37a, 0x37a); (0x384, 0x385); (0x387, 0x387); (0x483, 0x489);
    (0x559, 0x559); (0x55f, 0x55f); (0x591, 0x5bd); (0x5bf, 0x5bf);
    (0x5c1, 0x5c2); (0x5c4, 0x5c5); (0x5c7, 0x5c7); (0x5f4, 0x5f4);
    (0x600, 0x605); (0x610, 0x61a); (0x61c, 0x61c); (0x640, 0x640);
    (0x64b, 0x65f); (0x670, 0x670); (0x6d6, 0x6dd); (0x6df, 0x6e8);
    (0x6ea, 0x6ed); (0x70f, 0x70f); (0x711, 0x711); (0x730, 0x74a);
    (0x7a6, 0x7b0); (0x7eb, 0x7f5); (0x7fa, 0x7fa); (0x7fd, 0x7fd);
    (0x816, 0x82d); (0x859, 0x85b); (0x888, 0x888); (0x890, 0x891);
    (0x898, 0x89f); (0x8c9, 0x902); (0x93a, 0x93a); (0x93c, 0x93c);
    (0x941, 0x948); (0x94d, 0x94d); (0x951, 0x957); (0x962, 0x963);
    (0x971, 0x971); (0x981, 0x981); (0x9bc, 0x9bc); (0x9c1, 0x9c4);
    (0x9cd, 0x9cd); (0x9e2, 0x9e3); (0x9fe, 0x9fe); (0xa01, 0xa02);
    (0xa3c, 0xa3c); (0xa41, 0xa42); (0xa47, 0xa48); (0xa4b, 0xa4d);
    (0xa51, 0xa51); (0xa70, 0xa71); (0xa75, 0xa75); (0xa81, 0xa82);
    (0xabc, 0xabc); (0xac1, 0xac5); (0xac7, 0xac8); (0xacd, 0xacd);
    (0xae2, 0xae3); (0xafa, 0xaff); (0xb01, 0xb01); (0xb3c, 0xb3c);
    (0xb3f, 0xb3f); (0xb41, 0xb44); (0xb4d, 0xb4d); (0xb55, 0xb56);
    (0xb62, 0xb63); (0xb82, 0xb82); (0xbc0, 0xbc0); (0xbcd, 0xbcd);
    (0xc00, 0xc00); (0xc04, 0xc04); (0xc3c, 0xc3c); (0xc3e, 0xc40);
    (0xc46, 0xc48); (0xc4a, 0xc4d); (0xc55, 0xc56); (0xc62, 0xc63);
    (0xc81, 0xc81); (0xcbc, 0xcbc); (0xcbf, 0xcbf); (0xcc6, 0xcc6);
    (0xccc, 0xccd); (0xce2, 0xce3); (0xd00, 0xd01); (0xd3b, 0xd3c);
    (0xd41, 0xd44); (0xd4d, 0xd4d); (0xd62, 0xd63); (0xd81, 0xd81);
    (0xdca, 0xdca); (0xdd2, 0xdd4); (0xdd6, 0xdd6); (0xe31, 0xe31);
    (0xe34, 0xe3a); (0xe46, 0xe4e); (0xeb1, 0xeb1); (0xeb4, 0xebc);
    (0xec6, 0xec6); (0xec8, 0xecd); (0xf18, 0xf19); (0xf35, 0xf35);
    (0xf37, 0xf37); (0xf39, 0xf39); (0xf71, 0xf7e); (0xf80, 0xf84);
    (0xf86, 0xf87); (0xf8d, 0xf97); (0xf99, 0xfbc); (0xfc6, 0xfc6);
    (0x102d, 0x1030); (0x1032, 0x1037); (0x1039, 0x103a); (0x103d, 0x103e);
    (0x1058, 0x1059); (0x105e, 0x1060); (0x1071, 0x1074); (0x1082, 0x1082);
    (0x1085, 0x1086); (0x108d, 0x108d); (0x109d, 0x109d); (0x10fc, 0x10fc);
    (0x135d, 0x135f); (0x1712, 0x1714); (0x1732, 0x1733); (0x1752, 0x1753);
    (0x1772, 0x1773); (0x17b4, 0x17b5); (0x17b7, 0x17bd); (0x17c6, 0x17c6);
    (0x17c9, 0x17d3); (0x17d7, 0x17d7); (0x17dd, 0x17dd); (0x180b, 0x180f);
    (0x1843, 0x1843); (0x1885, 0x1886); (0x18a9, 0x18a9); (0x1920, 0x1922);
    (0x1927, 0x1928); (0x1932, 0x1932); (0x1939, 0x193b); (0x1a17, 0x1a18);
    (0x1a1b, 0x1a1b); (0x1a56, 0x1a56); (0x1a58, 0x1a5e); (0x1a60, 0x1a60);
    (0x1a62, 0x1a62); (0x1a65, 0x1a6c); (0x1a73, 0x1a7c); (0x1a7f, 0x1a7f);
    (0x1aa7, 0x1aa7); (0x1ab0, 0x1ace); (0x1b00, 0x1b03); (0x1b34, 0x1b34);
    (0x1b36, 0x1b3a); (0x1b3c, 0x1b3c); (0x1b42, 0x1b42); (0x1b6b, 0x1b73);
    (0x1b80, 0x1b81); (0x1ba2, 0x1ba5); (0x1ba8, 0x1ba9); (0x1bab, 0x1bad);
    (0x1be6, 0x1be6); (0x1be8, 0x1be9); (0x1bed, 0x1bed); (0x1bef, 0x1bf1);
    (0x1c2c, 0x1c33); (0x1c36, 0x1c37); (0x1c78, 0x1c7d); (0x1cd0, 0x1cd2);
    (0x1cd4, 0x1ce0); (0x1ce2, 0x1ce8); (0x1ced, 0x1ced); (0x1cf4, 0x1cf4);
    (0x1cf8, 0x1cf9); (0x1d2c, 0x1d6a); (0x1d78, 0x1d78); (0x1d9b, 0x1dff);
    (0x1fbd, 0x1fbd); (0x1fbf, 0x1fc1); (0x1fcd, 0x1fcf); (0x1fdd, 0x1fdf);
    (0x1fed, 0x1fef); (0x1ffd, 0x1ffe); (0x200b, 0x200f); (0x2018, 0x2019);
    (0x2024, 0x2024); (0x2027, 0x2027); (0x202a, 0x202e); (0x2060, 0x2064);
    (0x2066, 0x206f); (0x2071, 0x2071); (0x207f, 0x207f); (0x2090, 0x209c);
    (0x20d0, 0x20f0); (0x2c7c, 0x2c7d); (0x2cef, 0x2cf1); (0x2d6f, 0x2d6f);
    (0x2d7f, 0x2d7f); (0x2de0, 0x2dff); (0x2e2f, 0x2e2f); (0x3005, 0x3005);
    (0x302a, 0x302d); (0x3031, 0x3035); (0x303b, 0x303b); (0x3099, 0x309e);
    (0x30fc, 0x30fe); (0xa015, 0xa015); (0xa4f8, 0xa4fd); (0xa60c, 0xa60c);
    (0xa66f, 0xa672); (0xa674, 0xa67d); (0xa67f, 0xa67f); (0xa69c, 0xa69f);
    (0xa6f0, 0xa6f1); (0xa700, 0xa721); (0xa770, 0xa770); (0xa788, 0xa78a);
    (0xa7f2, 0xa7f4); (0xa7f8, 0xa7f9); (0xa802, 0xa802); (0xa806, 0xa806);
    (0xa80b, 0xa80b); (0xa825, 0xa826); (0xa82c, 0xa82c); (0xa8c4, 0xa8c5);
    (0xa8e0, 0xa8f1); (0xa8ff, 0xa8ff); (0xa926, 0xa92d); (0xa947, 0xa951);
    (0xa980, 0xa982); (0xa9b3, 0xa9b3); (0xa9b6, 0xa9b9); (0xa9bc, 0xa9bd);
    (0xa9cf, 0xa9cf); (0xa9e5, 0xa9e6); (0xaa29, 0xaa2e); (0xaa31, 0xaa32);
    (0xaa35, 0xaa36); (0xaa43, 0xaa43); (0xaa4c, 0xaa4c); (0xaa70, 0xaa70);
    (0xaa7c, 0xaa7c); (0xaab0, 0xaab0); (0xaab2, 0xaab4); (0xaab7, 0xaab8);
    (0xaabe, 0xaabf); (0xaac1, 0xaac1); (0xaadd, 0xaadd); (0xaaec, 0xaaed);
    (0xaaf3, 0xaaf4); (0xaaf6, 0xaaf6); (0xab5b, 0xab5f); (0xab69, 0xab6b);
    (0xabe5, 0xabe5); (0xabe8, 0xabe8); (0xabed, 0xabed); (0xfb1e, 0xfb1e);
    (0xfbb2, 0xfbc2); (0xfe00, 0xfe0f); (0xfe13, 0xfe13); (0xfe20, 0xfe2f);
    (0xfe52, 0xfe52); (0xfe55, 0xfe55); (0xfeff, 0xfeff); (0xff07, 0xff07);
    (0xff0e, 0xff0e); (0xff1a, 0xff1a); (0xff3e, 0xff3e); (0xff40, 0xff40);
    (0xff70, 0xff70); (0xff9e, 0xff9f); (0xffe3, 0xffe3); (0xfff9, 0xfffb);
    (0x101fd, 0x101fd); (0x102e0, 0x102e0); (0x10376, 0x1037a); (0x10780, 0x10785);
    (0x10787, 0x107b0); (0x107b2, 0x107ba); (0x10a01, 0x10a03); (0x10a05, 0x10a06);
    (0x10a0c, 0x10a0f); (0x10a38, 0x10a3a); (0x10a3f, 0x10a3f); (0x10ae5, 0x10ae6);
    (0x10d24, 0x10d27); (0x10eab, 0x10eac); (0x10f46, 0x10f50); (0x10f82, 0x10f85);
    (0x11001, 0x11001); (0x11038, 0x11046); (0x11070, 0x11070); (0x11073, 0x11074);
    (0x1107f, 0x11081); (0x110b3, 0x110b6); (0x110b9, 0x110ba); (0x110bd, 0x110bd);
    (0x110c2, 0x110c2); (0x110cd, 0x110cd); (0x11100, 0x11102); (0x11127, 0x1112b);
    (0x1112d, 0x11134); (0x11173, 0x11173); (0x11180, 0x11181); (0x111b6, 0x111be);
    (0x111c9, 0x111cc); (0x111cf, 0x111cf); (0x1122f, 0x11231); (0x11234, 0x11234);
    (0x11236, 0x11237); (0x1123e, 0x1123e); (0x112df, 0x112df); (0x112e3, 0x112ea);
    (0x11300, 0x11301); (0x1133b, 0x1133c); (0x11340, 0x11340); (0x11366, 0x1136c);
    (0x11370, 0x11374); (0x11438, 0x1143f); (0x11442, 0x11444); (0x11446, 0x11446);
    (0x1145e, 0x1145e); (0x114b3, 0x114b8); (0x114ba, 0x114ba); (0x114bf, 0x114c0);
    (0x114c2, 0x114c3); (0x115b2, 0x115b5); (0x115bc, 0x115bd); (0x115bf, 0x115c0);
    (0x115dc, 0x115dd); (0x11633, 0x1163a); (0x1163d, 0x1163d); (0x1163f, 0x11640);
    (0x116ab, 0x116ab); (0x116ad, 0x116ad); (0x116b0, 0x116b5); (0x116b7, 0x116b7);
    (0x1171d, 0x1171f); (0x11722, 0x11725); (0x11727, 0x1172b); (0x1182f, 0x11837);
    (0x11839, 0x1183a); (0x1193b, 0x1193c); (0x1193e, 0x1193e); (0x11943, 0x11943);
    (0x119d4, 0x119d7); (0x119da, 0x119db); (0x119e0, 0x119e0); (0x11a01, 0x11a0a);
    (0x11a33, 0x11a38); (0x11a3b, 0x11a3e); (0x11a47, 0x11a47); (0x11a51, 0x11a56);
    (0x11a59, 0x11a5b); (0x11a8a, 0x11a96); (0x11a98, 0x11a99); (0x11c30, 0x11c36);
    (0x11c38, 0x11c3d); (0x11c3f, 0x11c3f); (0x11c92, 0x11ca7); (0x11caa, 0x11cb0);
    (0x11cb2, 0x11cb3); (0x11cb5, 0x11cb6); (0x11d31, 0x11d36); (0x11d3a, 0x11d3a);
    (0x11d3c, 0x11d3d); (0x11d3f, 0x11d45); (0x11d47, 0x11d47); (0x11d90, 0x11d91);
    (0x11d95, 0x11d95); (0x11d97, 0x11d97); (0x11ef3, 0x11ef4); (0x13430, 0x13438);
    (0x16af0, 0x16af4); (0x16b30, 0x16b36); (0x16b40, 0x16b43); (0x16f4f, 0x16f4f);
    (0x16f8f, 0x16f9f); (0x16fe0, 0x16fe1); (0x16fe3, 0x16fe4); (0x1aff0, 0x1aff3);
    (0x1aff5, 0x1affb); (0x1affd, 0x1affe); (0x1bc9d, 0x1bc9e); (0x1bca0, 0x1bca3);
    (0x1cf00, 0x1cf2d); (0x1cf30, 0x1cf46); (0x1d167, 0x1d169); (0x1d173, 0x1d182);
    (0x1d185, 0x1d18b); (0x1d1aa, 0x1d1ad); (0x1d242, 0x1d244); (0x1da00, 0x1da36);
    (0x1da3b, 0x1da6c); (0x1da75, 0x1da75); (0x1da84, 0x1da84); (0x1da9b, 0x1da9f);
    (0x1daa1, 0x1daaf); (0x1e000, 0x1e006); (0x1e008, 0x1e018); (0x1e01b, 0x1e021);
    (0x1e023, 0x1e024); (0x1e026, 0x1e02a); (0x1e130, 0x1e13d); (0x1e2ae, 0x1e2ae);
    (0x1e2ec, 0x1e2ef); (0x1e8d0, 0x1e8d6); (0x1e944, 0x1e94b); (0x1f3fb, 0x1f3ff);
    (0xe0001, 0xe0001); (0xe0020, 0xe007f); (0xe0100, 0xe01ef) ]%Z.

(** The cased code points. *)
Definition cased_table : list (Z * Z) :=
  [ (0x41, 0x5a); (0x61, 0x7a); (0xaa, 0xaa); (0xb5, 0xb5);
    (0xba, 0xba); (0xc0, 0xd6); (0xd8, 0xf6); (0xf8, 0x1ba);
    (0x1bc, 0x1bf); (0x1c4, 0x293); (0x295, 0x2b8); (0x2c0, 0x2c1);
    (0x2e0, 0x2e4); (0x345, 0x345); (0x370, 0x373); (0x376, 0x377);
    (0x37a, 0x37d); (0x37f, 0x37f); (0x386, 0x386); (0x388, 0x38a);
    (0x38c, 0x38c); (0x38e, 0x3a1); (0x3a3, 0x3f5); (0x3f7, 0x481);
    (0x48a, 0x52f); (0x531, 0x556); (0x560, 0x588); (0x10a0, 0x10c5);
    (0x10c7, 0x10c7); (0x10cd, 0x10cd); (0x10d0, 0x10fa); (0x10fd, 0x10ff);
    (0x13a0, 0x13f5); (0x13f8, 0x13fd); (0x1c80, 0x1c88); (0x1c90, 0x1cba);
    (0x1cbd, 0x1cbf); (0x1d00, 0x1dbf); (0x1e00, 0x1f15); (0x1f18, 0x1f1d);
    (0x1f20, 0x1f45); (0x1f48, 0x1f4d); (0x1f50, 0x1f57); (0x1f59, 0x1f59);
    (0x1f5b, 0x1f5b); (0x1f5d, 0x1f5d); (0x1f5f, 0x1f7d); (0x1f80, 0x1fb4);
    (0x1fb6, 0x1fbc); (0x1fbe, 0x1fbe); (0x1fc2, 0x1fc4); (0x1fc6, 0x1fcc);
    (0x1fd0, 0x1fd3); (0x1fd6, 0x1fdb); (0x1fe0, 0x1fec); (0x1ff2, 0x1ff4);
    (0x1ff6, 0x1ffc); (0x2071, 0x2071); (0x207f, 0x207f); (0x2090, 0x209c);
    (0x2102, 0x2102); (0x2107, 0x2107); (0x210a, 0x2113); (0x2115, 0x2115);
    (0x2119, 0x211d); (0x2124, 0x2124); (0x2126, 0x2126); (0x2128, 0x2128);
    (0x212a, 0x212d); (0x212f, 0x2134); (0x2139, 0x2139); (0x213c, 0x213f);
    (0x2145, 0x2149); (0x214e, 0x214e); (0x2160, 0x217f); (0x2183, 0x2184);
    (0x24b6, 0x24e9); (0x2c00, 0x2ce4); (0x2ceb, 0x2cee); (0x2cf2, 0x2cf3);
    (0x2d00, 0x2d25); (0x2d27, 0x2d27); (0x2d2d, 0x2d2d); (0xa640, 0xa66d);
    (0xa680, 0xa69d); (0xa722, 0xa787); (0xa78b, 0xa78e); (0xa790, 0xa7ca);
    (0xa7d0, 0xa7d1); (0xa7d3, 0xa7d3); (0xa7d5, 0xa7d9); (0xa7f5, 0xa7f6);
    (0xa7f8, 0xa7fa); (0xab30, 0xab5a); (0xab5c, 0xab68); (0xab70, 0xabbf);
    (0xfb00, 0xfb06); (0xfb13, 0xfb17); (0xff21, 0xff3a); (0xff41, 0xff5a);
    (0x10400, 0x1044f); (0x104b0, 0x104d3); (0x104d8, 0x104fb); (0x10570, 0x1057a);
    (0x1057c, 0x1058a); (0x1058c, 0x10592); (0x10594, 0x10595); (0x10597, 0x105a1);
    (0x105a3, 0x105b1); (0x105b3, 0x105b9); (0x105bb, 0x105bc); (0x10780, 0x10780);
    (0x10783, 0x10785); (0x10787, 0x107b0); (0x107b2, 0x107ba); (0x10c80, 0x10cb2);
    (0x10cc0, 0x10cf2); (0x118a0, 0x118df); (0x16e40, 0x16e7f); (0x1d400, 0x1d454);
    (0x1d456, 0x1d49c); (0x1d49e, 0x1d49f); (0x1d4a2, 0x1d4a2); (0x1d4a5, 0x1d4a6);
    (0x1d4a9, 0x1d4ac); (0x1d4ae, 0x1d4b9); (0x1d4bb, 0x1d4bb); (0x1d4bd, 0x1d4c3);
    (0x1d4c5, 0x1d505); (0x1d507, 0x1d50a); (0x1d50d, 0x1d514); (0x1d516, 0x1d51c);
    (0x1d51e, 0x1d539); (0x1d53b, 0x1d53e); (0x1d540, 0x1d544); (0x1d546, 0x1d546);
    (0x1d54a, 0x1d550); (0x1d552, 0x1d6a5); (0x1d6a8, 0x1d6c0); (0x1d6c2, 0x1d6da);
    (0x1d6dc, 0x1d6fa); (0x1d6fc, 0x1d714); (0x1d716, 0x1d734); (0x1d736, 0x1d74e);
    (0x1d750, 0x1d76e); (0x1d770, 0x1d788); (0x1d78a, 0x1d7a8); (0x1d7aa, 0x1d7c2);
    (0x1d7c4, 0x1d7cb); (0x1df00, 0x1df09); (0x1df0b, 0x1df1e); (0x1e900, 0x1e943);
    (0x1f130, 0x1f149); (0x1f150, 0x1f169); (0x1f170, 0x1f189) ]%Z.

(** The uppercase code points: those [str.isupper] accepts. *)
Definition uppercase_table : list (Z * Z) :=
  [ (0x41, 0x5a); (0xc0, 0xd6); (0xd8, 0xde); (0x100, 0x100);
    (0x102, 0x102); (0x104, 0x104); (0x106, 0x106); (0x108, 0x108);
    (0x10a, 0x10a); (0x10c, 0x10c); (0x10e, 0x10e); (0x110, 0x110);
    (0x112, 0x112); (0x114, 0x114); (0x116, 0x116); (0x118, 0x118);
    (0x11a, 0x11a); (0x11c, 0x11c); (0x11e, 0x11e); (0x120, 0x120);
    (0x122, 0x122); (0x124, 0x124); (0x126, 0x126); (0x128, 0x128);
    (0x12a, 0x12a); (0x12c, 0x12c); (0x12e, 0x12e); (0x130, 0x130);
    (0x132, 0x132); (0x134, 0x134); (0x136, 0x136); (0x139, 0x139);
    (0x13b, 0x13b); (0x13d, 0x13d); (0x13f, 0x13f); (0x141, 0x141);
    (0x143, 0x143); (0x145, 0x145); (0x147, 0x147); (0x14a, 0x14a);
    (0x14c, 0x14c); (0x14e, 0x14e); (0x150, 0x150); (0x152, 0x152);
    (0x154, 0x154); (0x156, 0x156); (0x158, 0x158); (0x15a, 0x15a);
    (0x15c, 0x15c); (0x15e, 0x15e); (0x160, 0x160); (0x162, 0x162);
    (0x164, 0x164); (0x166, 0x166); (0x168, 0x168); (0x16a, 0x16a);
    (0x16c, 0x16c); (0x16e, 0x16e); (0x170, 0x170); (0x172, 0x172);
    (0x174, 0x174); (0x176, 0x176); (0x178, 0x179); (0x17b, 0x17b);
    (0x17d, 0x17d); (0x181, 0x182); (0x184, 0x184); (0x186, 0x187);
    (0x189, 0x18b); (0x18e, 0x191); (0x193, 0x194); (0x196, 0x198);
    (0x19c, 0x19d); (0x19f, 0x1a0); (0x1a2, 0x1a2); (0x1a4, 0x1a4);
    (0x1a6, 0x1a7); (0x1a9, 0x1a9); (0x1ac, 0x1ac); (0x1ae, 0x1af);
    (0x1b1, 0x1b3); (0x1b5, 0x1b5); (0x1b7, 0x1b8); (0x1bc, 0x1bc);
    (0x1c4, 0x1c4); (0x1c7, 0x1c7); (0x1ca, 0x1ca); (0x1cd, 0x1cd);
    (0x1cf, 0x1cf); (0x1d1, 0x1d1); (0x1d3, 0x1d3); (0x1d5, 0x1d5);
    (0x1d7, 0x1d7); (0x1d9, 0x1d9); (0x1db, 0x1db); (0x1de, 0x1de);
    (0x1e0, 0x1e0); (0x1e2, 0x1e2); (0x1e4, 0x1e4); (0x1e6, 0x1e6);
    (0x1e8, 0x1e8); (0x1ea, 0x1ea); (0x1ec, 0x1ec); (0x1ee, 0x1ee);
    (0x1f1, 0x1f1); (0x1f4, 0x1f4); (0x1f6, 0x1f8); (0x1fa, 0x1fa);
    (0x1fc, 0x1fc); (0x1fe, 0x1fe); (0x200, 0x200); (0x202, 0x202);
    (0x204, 0x204); (0x206, 0x206); (0x208, 0x208); (0x20a, 0x20a);
    (0x20c, 0x20c); (0x20e, 0x20e); (0x210, 0x210); (0x212, 0x212);
    (0x214, 0x214); (0x216, 0x216); (0x218, 0x218); (0x21a, 0x21a);
    (0x21c, 0x21c); (0x21e, 0x21e); (0x220, 0x220); (0x222, 0x222);
    (0x224, 0x224); (0x226, 0x226); (0x228, 0x228); (0x22a, 0x22a);
    (0x22c, 0x22c); (0x22e, 0x22e); (0x230, 0x230); (0x232, 0x232);
    (0x23a, 0x23b); (0x23d, 0x23e); (0x241, 0x241); (0x243, 0x246);
    (0x248, 0x248); (0x24a, 0x24a); (0x24c, 0x24c); (0x24e, 0x24e);
    (0x370, 0x370); (0x372, 0x372); (0x376, 0x376); (0x37f, 0x37f);
    (0x386, 0x386); (0x388, 0x38a); (0x38c, 0x38c); (0x38e, 0x38f);
    (0x391, 0x3a1); (0x3a3, 0x3ab); (0x3cf, 0x3cf); (0x3d2, 0x3d4);
    (0x3d8, 0x3d8); (0x3da, 0x3da); (0x3dc, 0x3dc); (0x3de, 0x3de);
    (0x3e0, 0x3e0); (0x3e2, 0x3e2); (0x3e4, 0x3e4); (0x3e6, 0x3e6);
    (0x3e8, 0x3e8); (0x3ea, 0x3ea); (0x3ec, 0x3ec); (0x3ee, 0x3ee);
    (0x3f4, 0x3f4); (0x3f7, 0x3f7); (0x3f9, 0x3fa); (0x3fd, 0x42f);
    (0x460, 0x460); (0x462, 0x462); (0x464, 0x464); (0x466, 0x466);
    (0x468, 0x468); (0x46a, 0x46a); (0x46c, 0x46c); (0x46e, 0x46e);
    (0x470, 0x470); (0x472, 0x472); (0x474, 0x474); (0x476, 0x476);
    (0x478, 0x478); (0x47a, 0x47a); (0x47c, 0x47c); (0x47e, 0x47e);
    (0x480, 0x480); (0x48a, 0x48a); (0x48c, 0x48c); (0x48e, 0x48e);
    (0x490, 0x490); (0x492, 0x492); (0x494, 0x494); (0x496, 0x496);
    (0x498, 0x498); (0x49a, 0x49a); (0x49c, 0x49c); (0x49e, 0x49e);
    (0x4a0, 0x4a0); (0x4a2, 0x4a2); (0x4a4, 0x4a4); (0x4a6, 0x4a6);
    (0x4a8, 0x4a8); (0x4aa, 0x4aa); (0x4ac, 0x4ac); (0x4ae, 0x4ae);
    (0x4b0, 0x4b0); (0x4b2, 0x4b2); (0x4b4, 0x4b4); (0x4b6, 0x4b6);
    (0x4b8, 0x4b8); (0x4ba, 0x4ba); (0x4bc, 0x4bc); (0x4be, 0x4be);
    (0x4c0, 0x4c1); (0x4c3, 0x4c3); (0x4c5, 0x4c5); (0x4c7, 0x4c7);
    (0x4c9, 0x4c9); (0x4cb, 0x4cb); (0x4cd, 0x4cd); (0x4d0, 0x4d0);
    (0x4d2, 0x4d2); (0x4d4, 0x4d4); (0x4d6, 0x4d6); (0x4d8, 0x4d8);
    (0x4da, 0x4da); (0x4dc, 0x4dc); (0x4de, 0x4de); (0x4e0, 0x4e0);
    (0x4e2, 0x4e2); (0x4e4, 0x4e4); (0x4e6, 0x4e6); (0x4e8, 0x4e8);
    (0x4ea, 0x4ea); (0x4ec, 0x4ec); (0x4ee, 0x4ee); (0x4f0, 0x4f0);
    (0x4f2, 0x4f2); (0x4f4, 0x4f4); (0x4f6, 0x4f6); (0x4f8, 0x4f8);
    (0x4fa, 0x4fa); (0x4fc, 0x4fc); (0x4fe, 0x4fe); (0x500, 0x500);
    (0x502, 0x502); (0x504, 0x504); (0x506, 0x506); (0x508, 0x508);
    (0x50a, 0x50a); (0x50c, 0x50c); (0x50e, 0x50e); (0x510, 0x510);
    (0x512, 0x512); (0x514, 0x514); (0x516, 0x516); (0x518, 0x518);
    (0x51a, 0x51a); (0x51c, 0x51c); (0x51e, 0x51e); (0x520, 0x520);
    (0x522, 0x522); (0x524, 0x524); (0x526, 0x526); (0x528, 0x528);
    (0x52a, 0x52a); (0x52c, 0x52c); (0x52e, 0x52e); (0x531, 0x556);
    (0x10a0, 0x10c5); (0x10c7, 0x10c7); (0x10cd, 0x10cd); (0x13a0, 0x13f5);
    (0x1c90, 0x1cba); (0x1cbd, 0x1cbf); (0x1e00, 0x1e00); (0x1e02, 0x1e02);
    (0x1e04, 0x1e04); (0x1e06, 0x1e06); (0x1e08, 0x1e08); (0x1e0a, 0x1e0a);
    (0x1e0c, 0x1e0c); (0x1e0e, 0x1e0e); (0x1e10, 0x1e10); (0x1e12, 0x1e12);
    (0x1e14, 0x1e14); (0x1e16, 0x1e16); (0x1e18, 0x1e18); (0x1e1a, 0x1e1a);
    (0x1e1c, 0x1e1c); (0x1e1e, 0x1e1e); (0x1e20, 0x1e20); (0x1e22, 0x1e22);
    (0x1e24, 0x1e24); (0x1e26, 0x1e26); (0x1e28, 0x1e28); (0x1e2a, 0x1e2a);
    (0x1e2c, 0x1e2c); (0x1e2e, 0x1e2e); (0x1e30, 0x1e30); (0x1e32, 0x1e32);
    (0x1e34, 0x1e34); (0x1e36, 0x1e36); (0x1e38, 0x1e38); (0x1e3a, 0x1e3a);
    (0x1e3c, 0x1e3c); (0x1e3e, 0x1e3e); (0x1e40, 0x1e40); (0x1e42, 0x1e42);
    (0x1e44, 0x1e44); (0x1e46, 0x1e46); (0x1e48, 0x1e48); (0x1e4a, 0x1e4a);
    (0x1e4c, 0x1e4c); (0x1e4e, 0x1e4e); (0x1e50, 0x1e50); (0x1e52, 0x1e52);
    (0x1e54, 0x1e54); (0x1e56, 0x1e56); (0x1e58, 0x1e58); (0x1e5a, 0x1e5a);
    (0x1e5c, 0x1e5c); (0x1e5e, 0x1e5e); (0x1e60, 0x1e60); (0x1e62, 0x1e62);
    (0x1e64, 0x1e64); (0x1e66, 0x1e66); (0x1e68, 0x1e68); (0x1e6a, 0x1e6a);
    (0x1e6c, 0x1e6c); (0x1e6e, 0x1e6e); (0x1e70, 0x1e70); (0x1e72, 0x1e72);
    (0x1e74, 0x1e74); (0x1e76, 0x1e76); (0x1e78, 0x1e78); (0x1e7a, 0x1e7a);
    (0x1e7c, 0x1e7c); (0x1e7e, 0x1e7e); (0x1e80, 0x1e80); (0x1e82, 0x1e82);
    (0x1e84, 0x1e84); (0x1e86, 0x1e86); (0x1e88, 0x1e88); (0x1e8a, 0x1e8a);
    (0x1e8c, 0x1e8c); (0x1e8e, 0x1e8e); (0x1e90, 0x1e90); (0x1e92, 0x1e92);
    (0x1e94, 0x1e94); (0x1e9e, 0x1e9e); (0x1ea0, 0x1ea0); (0x1ea2, 0x1ea2);
    (0x1ea4, 0x1ea4); (0x1ea6, 0x1ea6); (0x1ea8, 0x1ea8); (0x1eaa, 0x1eaa);
    (0x1eac, 0x1eac); (0x1eae, 0x1eae); (0x1eb0, 0x1eb0); (0x1eb2, 0x1eb2);
    (0x1eb4, 0x1eb4); (0x1eb6, 0x1eb6); (0x1eb8, 0x1eb8); (0x1eba, 0x1eba);
    (0x1ebc, 0x1ebc); (0x1ebe, 0x1ebe); (0x1ec0, 0x1ec0); (0x1ec2, 0x1ec2);
    (0x1ec4, 0x1ec4); (0x1ec6, 0x1ec6); (0x1ec8, 0x1ec8); (0x1eca, 0x1eca);
    (0x1ecc, 0x1ecc); (0x1ece, 0x1ece); (0x1ed0, 0x1ed0); (0x1ed2, 0x1ed2);
    (0x1ed4, 0x1ed4); (0x1ed6, 0x1ed6); (0x1ed8, 0x1ed8); (0x1eda, 0x1eda);
    (0x1edc, 0x1edc); (0x1ede, 0x1ede); (0x1ee0, 0x1ee0); (0x1ee2, 0x1ee2);
    (0x1ee4, 0x1ee4); (0x1ee6, 0x1ee6); (0x1ee8, 0x1ee8); (0x1eea, 0x1eea);
    (0x1eec, 0x1eec); (0x1eee, 0x1eee); (0x1ef0, 0x1ef0); (0x1ef2, 0x1ef2);
    (0x1ef4, 0x1ef4); (0x1ef6, 0x1ef6); (0x1ef8, 0x1ef8); (0x1efa, 0x1efa);
    (0x1efc, 0x1efc); (0x1efe, 0x1efe); (0x1f08, 0x1f0f); (0x1f18, 0x1f1d);
    (0x1f28, 0x1f2f); (0x1f38, 0x1f3f); (0x1f48, 0x1f4d); (0x1f59, 0x1f59);
    (0x1f5b, 0x1f5b); (0x1f5d, 0x1f5d); (0x1f5f, 0x1f5f); (0x1f68, 0x1f6f);
    (0x1fb8, 0x1fbb); (0x1fc8, 0x1fcb); (0x1fd8, 0x1fdb); (0x1fe8, 0x1fec);
    (0x1ff8, 0x1ffb); (0x2102, 0x2102); (0x2107, 0x2107); (0x210b, 0x210d);
    (0x2110, 0x2112); (0x2115, 0x2115); (0x2119, 0x211d); (0x2124, 0x2124);
    (0x2126, 0x2126); (0x2128, 0x2128); (0x212a, 0x212d); (0x2130, 0x2133);
    (0x213e, 0x213f); (0x2145, 0x2145); (0x2160, 0x216f); (0x2183, 0x2183);
    (0x24b6, 0x24cf); (0x2c00, 0x2c2f); (0x2c60, 0x2c60); (0x2c62, 0x2c64);
    (0x2c67, 0x2c67); (0x2c69, 0x2c69); (0x2c6b, 0x2c6b); (0x2c6d, 0x2c70);
    (0x2c72, 0x2c72); (0x2c75, 0x2c75); (0x2c7e, 0x2c80); (0x2c82, 0x2c82);
    (0x2c84, 0x2c84); (0x2c86, 0x2c86); (0x2c88, 0x2c88); (0x2c8a, 0x2c8a);
    (0x2c8c, 0x2c8c); (0x2c8e, 0x2c8e); (0x2c90, 0x2c90); (0x2c92, 0x2c92);
    (0x2c94, 0x2c94); (0x2c96, 0x2c96); (0x2c98, 0x2c98); (0x2c9a, 0x2c9a);
    (0x2c9c, 0x2c9c); (0x2c9e, 0x2c9e); (0x2ca0, 0x2ca0); (0x2ca2, 0x2ca2);
    (0x2ca4, 0x2ca4); (0x2ca6, 0x2ca6); (0x2ca8, 0x2ca8); (0x2caa, 0x2caa);
    (0x2cac, 0x2cac); (0x2cae, 0x2cae); (0x2cb0, 0x2cb0); (0x2cb2, 0x2cb2);
    (0x2cb4, 0x2cb4); (0x2cb6, 0x2cb6); (0x2cb8, 0x2cb8); (0x2cba, 0x2cba);
    (0x2cbc, 0x2cbc); (0x2cbe, 0x2cbe); (0x2cc0, 0x2cc0); (0x2cc2, 0x2cc2);
    (0x2cc4, 0x2cc4); (0x2cc6, 0x2cc6); (0x2cc8, 0x2cc8); (0x2cca, 0x2cca);
    (0x2ccc, 0x2ccc); (0x2cce, 0x2cce); (0x2cd0, 0x2cd0); (0x2cd2, 0x2cd2);
    (0x2cd4, 0x2cd4); (0x2cd6, 0x2cd6); (0x2cd8, 0x2cd8); (0x2cda, 0x2cda);
    (0x2cdc, 0x2cdc); (0x2cde, 0x2cde); (0x2ce0, 0x2ce0); (0x2ce2, 0x2ce2);
    (0x2ceb, 0x2ceb); (0x2ced, 0x2ced); (0x2cf2, 0x2cf2); (0xa640, 0xa640);
    (0xa642, 0xa642); (0xa644, 0xa644); (0xa646, 0xa646); (0xa648, 0xa648);
    (0xa64a, 0xa64a); (0xa64c, 0xa64c); (0xa64e, 0xa64e); (0xa650, 0xa650);
    (0xa652, 0xa652); (0xa654, 0xa654); (0xa656, 0xa656); (0xa658, 0xa658);
    (0xa65a, 0xa65a); (0xa65c, 0xa65c); (0xa65e, 0xa65e); (0xa660, 0xa660);
    (0xa662, 0xa662); (0xa664, 0xa664); (0xa666, 0xa666); (0xa668, 0xa668);
    (0xa66a, 0xa66a); (0xa66c, 0xa66c); (0xa680, 0xa680); (0xa682, 0xa682);
    (0xa684, 0xa684); (0xa686, 0xa686); (0xa688, 0xa688); (0xa68a, 0xa68a);
    (0xa68c, 0xa68c); (0xa68e, 0xa68e); (0xa690, 0xa690); (0xa692, 0xa692);
    (0xa694, 0xa694); (0xa696, 0xa696); (0xa698, 0xa698); (0xa69a, 0xa69a);
    (0xa722, 0xa722); (0xa724, 0xa724); (0xa726, 0xa726); (0xa728, 0xa728);
    (0xa72a, 0xa72a); (0xa72c, 0xa72c); (0xa72e, 0xa72e); (0xa732, 0xa732);
    (0xa734, 0xa734); (0xa736, 0xa736); (0xa738, 0xa738); (0xa73a, 0xa73a);
    (0xa73c, 0xa73c); (0xa73e, 0xa73e); (0xa740, 0xa740); (0xa742, 0xa742);
    (0xa744, 0xa744); (0xa746, 0xa746); (0xa748, 0xa748); (0xa74a, 0xa74a);
    (0xa74c, 0xa74c); (0xa74e, 0xa74e); (0xa750, 0xa750); (0xa752, 0xa752);
    (0xa754, 0xa754); (0xa756, 0xa756); (0xa758, 0xa758); (0xa75a, 0xa75a);
    (0xa75c, 0xa75c); (0xa75e, 0xa75e); (0xa760, 0xa760); (0xa762, 0xa762);
    (0xa764, 0xa764); (0xa766, 0xa766); (0xa768, 0xa768); (0xa76a, 0xa76a);
    (0xa76c, 0xa76c); (0xa76e, 0xa76e); (0xa779, 0xa779); (0xa77b, 0xa77b);
    (0xa77d, 0xa77e); (0xa780, 0xa780); (0xa782, 0xa782); (0xa784, 0xa784);
    (0xa786, 0xa786); (0xa78b, 0xa78b); (0xa78d, 0xa78d); (0xa790, 0xa790);
    (0xa792, 0xa792); (0xa796, 0xa796); (0xa798, 0xa798); (0xa79a, 0xa79a);
    (0xa79c, 0xa79c); (0xa79e, 0xa79e); (0xa7a0, 0xa7a0); (0xa7a2, 0xa7a2);
    (0xa7a4, 0xa7a4); (0xa7a6, 0xa7a6); (0xa7a8, 0xa7a8); (0xa7aa, 0xa7ae);
    (0xa7b0, 0xa7b4); (0xa7b6, 0xa7b6); (0xa7b8, 0xa7b8); (0xa7ba, 0xa7ba);
    (0xa7bc, 0xa7bc); (0xa7be, 0xa7be); (0xa7c0, 0xa7c0); (0xa7c2, 0xa7c2);
    (0xa7c4, 0xa7c7); (0xa7c9, 0xa7c9); (0xa7d0, 0xa7d0); (0xa7d6, 0xa7d6);
    (0xa7d8, 0xa7d8); (0xa7f5, 0xa7f5); (0xff21, 0xff3a); (0x10400, 0x10427);
    (0x104b0, 0x104d3); (0x10570, 0x1057a); (0x1057c, 0x1058a); (0x1058c, 0x10592);
    (0x10594, 0x10595); (0x10c80, 0x10cb2); (0x118a0, 0x118bf); (0x16e40, 0x16e5f);
    (0x1d400, 0x1d419); (0x1d434, 0x1d44d); (0x1d468, 0x1d481); (0x1d49c, 0x1d49c);
    (0x1d49e, 0x1d49f); (0x1d4a2, 0x1d4a2); (0x1d4a5, 0x1d4a6); (0x1d4a9, 0x1d4ac);
    (0x1d4ae, 0x1d4b5); (0x1d4d0, 0x1d4e9); (0x1d504, 0x1d505); (0x1d507, 0x1d50a);
    (0x1d50d, 0x1d514); (0x1d516, 0x1d51c); (0x1d538, 0x1d539); (0x1d53b, 0x1d53e);
    (0x1d540, 0x1d544); (0x1d546, 0x1d546); (0x1d54a, 0x1d550); (0x1d56c, 0x1d585);
    (0x1d5a0, 0x1d5b9); (0x1d5d4, 0x1d5ed); (0x1d608, 0x1d621); (0x1d63c, 0x1d655);
    (0x1d670, 0x1d689); (0x1d6a8, 0x1d6c0); (0x1d6e2, 0x1d6fa); (0x1d71c, 0x1d734);
    (0x1d756, 0x1d76e); (0x1d790, 0x1d7a8); (0x1d7ca, 0x1d7ca); (0x1e900, 0x1e921);
    (0x1f130, 0x1f149); (0x1f150, 0x1f169); (0x1f170, 0x1f189) ]%Z.

Definition in_ranges (ranges : list (Z * Z)) (cp : Z) : bool :=
  existsb (fun r => (fst r <=? cp)%Z && (cp <=? snd r)%Z) ranges.

Definition case_ignorable (cp : Z) : bool := in_ranges case_ignorable_table cp.

Definition cased (cp : Z) : bool := in_ranges cased_table cp.

Definition is_uppercase (cp : Z) : bool := in_ranges uppercase_table cp.

Fixpoint lookup_lower (table : list (Z * Z * Z * Z)) (cp : Z) : option Z :=
  match table with
  | [] => None
  | (lo, hi, step, delta) :: rest =>
      if (lo <=? cp)%Z && (cp <=? hi)%Z && ((cp - lo) mod step =? 0)%Z
      then Some (cp + delta)%Z
      else lookup_lower rest cp
  end.

(** *** [str.lower] *)

Fixpoint skip_ignorable (cps : list Z) : list Z :=
  match cps with
  | [] => []
  | c :: rest => if case_ignorable c then skip_ignorable rest else cps
  end.

(** A capital sigma is final when a cased character stands before it and
    none after it, case-ignorable characters not counting; [before] is read
    from the sigma backwards. *)
Definition final_sigma (before after : list Z) : bool :=
  match skip_ignorable before with
  | [] => false
  | c :: _ =>
      cased c
      && match skip_ignorable after with
         | [] => true
         | c' :: _ => negb (cased c')
         end
  end.

(** The lowercase form of one code point in its place. *)
Definition lower_cp (before : list Z) (cp : Z) (after : list Z) : list Z :=
  if (cp =? 0x3A3)%Z then
    [if final_sigma before after then 0x3C2%Z else 0x3C3%Z]
  else if (cp =? 0x130)%Z then [0x69%Z; 0x307%Z]
  else match lookup_lower lower_table cp with
       | Some low => [low]
       | None => [cp]
       end.

Fixpoint lower_cps (before : list Z) (cps : list Z) : list Z :=
  match cps with
  | [] => []
  | cp :: after => lower_cp before cp after ++ lower_cps (cp :: before) after
  end.

(** [s.lower()] *)
Definition lower (s : string) : string :=
  match decode s with
  | Some cps => encode (lower_cps [] cps)
  | None => s
  end.

(** A code point that lowercasing replaces. *)
Definition has_lower_form (cp : Z) : bool :=
  (cp =? 0x3A3)%Z || (cp =? 0x130)%Z
  || match lookup_lower lower_table cp with Some _ => true | None => false end.

(** What is checked of one range of the table: its images are code points,
    none of which has a lowercase form of its own. *)
Definition range_ok (r : Z * Z * Z * Z) : bool :=
  let '(lo, hi, step, delta) := r in
  (0 <? step)%Z && (0 <=? lo + delta)%Z && (hi + delta <? 0x200000)%Z
  && forallb (fun k => negb (has_lower_form (lo + step * Z.of_nat k + delta)))
             (seq 0 (S (Z.to_nat ((hi - lo) / step)))).

(** [s.split(sep)] for a one-character separator. *)
Fixpoint split (sep : ascii) (s : string) : list string :=
  match s with
  | EmptyString => [EmptyString]
  | String c s' =>
      if Ascii.eqb c sep then EmptyString :: split sep s'
      else match split sep s' with
           | [] => [String c EmptyString]
           | h :: t => String c h :: t
           end
  end.

(** [sep.join(l)] *)
Fixpoint join (sep : string) (l : list string) : string :=
  match l with
  | [] => EmptyString
  | x :: t => match t with
              | [] => x
              | _ => (x ++ sep ++ join sep t)%string
              end
  end.

(** ** Dictionaries keyed by strings *)

Definition dict (V : Type) : Type := list (string * V).

(** [d.get(k)] *)
Fixpoint dict_get {V : Type} (d : dict V) (k : string) : option V :=
  match d with
  | [] => None
  | (k', v) :: d' => if String.eqb k' k then Some v else dict_get d' k
  end.

(** [k in d] *)
Definition dict_mem {V : Type} (d : dict V) (k : string) : bool :=
  match dict_get d k with Some _ => true | None => false end.

(** [d[k] = v]: an existing key keeps its place, a new key goes last. *)
Fixpoint dict_set {V : Type} (d : dict V) (k : string) (v : V) : dict V :=
  match d with
  | [] => [(k, v)]
  | (k', v') :: d' =>
      if String.eqb k' k then (k', v) :: d' else (k', v') :: dict_set d' k v
  end.

Definition dict_keys {V : Type} (d : dict V) : list string := map fst d.

(** A dictionary holds each key once. *)
Definition dict_wf {V : Type} (d : dict V) : Prop := NoDup (dict_keys d).

(** ** The data model *)

Module Question.
(** A question record of the configuration, with the fields and types the
    dataclass [Question] declares. *)
Record t : Type := mk {
  question_id : string;
  question_text : string;
  question_type : string;
  required : bool;
  weight : Z
}.
End Question.

Module UserResponse.
(** An entry of the ledger: the dictionary [submit_response] builds. *)
Record t : Type := mk {
  question_id : string;
  response : pyval;
  additional_details : pyval;
  timestamp : string
}.
End UserResponse.

Module Template.
(** A catalog entry.  [name] and [url] are read with [template[...]], the
    other keys with [template.get(...)], so they may be missing. *)
Record t : Type := mk {
  name : string;
  url : string;
  style_tags : option (list string);
  color_schemes : option (list string);
  suitable_for : option (list string);
  compatible_versions : option (list string);
  pros : option (list string);
  cons : option (list string);
  difficulty : option string;
  preview_image : option string
}.
End Template.

Module Recommendation.
Record t : Type := mk {
  template_name : string;
  template_url : string;
  match_score : Q;
  style_tags : list string;
  pros : list string;
  cons : list string;
  customization_difficulty : string;
  preview_image : option string
}.
End Recommendation.

Module Roadmap.
(** An entry of [implementation_roadmaps]; every key is read with [get]. *)
Record t : Type := mk {
  steps : option pyval;
  resources : option pyval;
  customization_level : option pyval
}.
(** The default [{}] of the lookup. *)
Definition empty : t := mk None None None.
End Roadmap.

Module Plan.
Record t : Type := mk {
  timeline : pyval;
  experience_level : pyval;
  phases : pyval;
  resources_needed : list pyval;
  estimated_hours : Z;
  customization_level : option pyval
}.
End Plan.

(** The six keys of the score dictionary. *)
Inductive Category : Type :=
| content_goals
| audience_context
| design_preferences
| technical_requirements
| timeline_resources
| scalability.

Definition Category_eqb (a b : Category) : bool :=
  match a, b with
  | content_goals, content_goals
  | audience_context, audience_context
  | design_preferences, design_preferences
  | technical_requirements, technical_requirements
  | timeline_resources, timeline_resources
  | scalability, scalability => true
  | _, _ => false
  end.

(** The configuration document [ppt_designer_system.json]: phases, their
    sections, the questions of a section, the roadmap table a section may
    carry, and [scoring_system.weight_distribution]. *)
Module Section_.
Record t : Type := mk {
  strategic_questions : list Question.t;
  implementation_roadmaps : option (dict Roadmap.t)
}.
End Section_.

Module Phase.
Record t : Type := mk { sections : list Section_.t }.
End Phase.

Module Config.
Record t : Type := mk {
  workflow_phases : list Phase.t;
  weight_distribution : Category -> Q
}.
End Config.

Record PPTDesignerSystem : Type := mkSystem {
  config : Config.t;
  user_responses : dict UserResponse.t;
  recommendations : list Recommendation.t
}.

(** [PPTDesignerSystem.__init__] once the configuration is loaded. *)
Definition init (cfg : Config.t) : PPTDesignerSystem := mkSystem cfg [] [].

(** ** The operations of [PPTDesignerSystem] *)

(** [get_all_questions]: the questions of every section of every phase, in
    document order. *)
Definition get_all_questions (cfg : Config.t) : list Question.t :=
  flat_map (fun phase =>
    flat_map (fun section => Section_.strategic_questions section)
             (Phase.sections phase))
    (Config.workflow_phases cfg).

(** [_find_question]: the first question carrying the identifier. *)
Definition _find_question (cfg : Config.t) (question_id : string)
  : option Question.t :=
  find (fun q_data => String.eqb (Question.question_id q_data) question_id)
       (get_all_questions cfg).

(** [submit_response]; [now] is [datetime.now().isoformat()]. *)
Definition submit_response (now : string) (self : PPTDesignerSystem)
    (question_id : string) (response : pyval)
    (additional_details : pyval) : PPTDesignerSystem * bool :=
  let user_response :=
    UserResponse.mk question_id response additional_details now in
  (mkSystem (config self)
            (dict_set (user_responses self) question_id user_response)
            (recommendations self),
   true).

(** *** Profile scoring *)

Definition scores_t : Type := Category -> Q.

Definition scores_init : scores_t := fun _ => 0%Q.

(** [scores[category] += x] *)
Definition scores_add (scores : scores_t) (category : Category) (x : Q)
  : scores_t :=
  fun c => if Category_eqb c category then (scores c + x)%Q else scores c.

Definition category_mapping : dict Category :=
  [("q1.1", content_goals);
   ("q1.2", audience_context);
   ("q1.3", design_preferences);
   ("q2.1", design_preferences);
   ("q2.2", technical_requirements);
   ("q3.1", content_goals);
   ("q3.2", audience_context);
   ("q4.1", technical_requirements);
   ("q4.2", technical_requirements);
   ("q5.1", timeline_resources);
   ("q5.2", scalability)].

(** ['.'.join(question_id.split('.')[:2])] *)
Definition prefix_of (question_id : string) : string :=
  join "." (firstn 2 (split "."%char question_id)).

(** [min(a, b)]: Python returns [b] only when [b < a]. *)
Definition py_min (a b : Q) : Q := if Qle_bool a b then a else b.

(** One turn of the loop over [self.user_responses.items()]. *)
Definition profile_step (cfg : Config.t) (scores : scores_t)
    (item : string * UserResponse.t) : scores_t :=
  let '(question_id, response) := item in
  let prefix := prefix_of question_id in
  match dict_get category_mapping prefix with
  | Some category =>
      if truthy (UserResponse.response response) then
        match _find_question cfg question_id with
        | Some question =>
            let score_contribution := (inject_Z (Question.weight question) / 10)%Q in
            scores_add scores category score_contribution
        | None => scores
        end
      else scores
  | None => scores
  end.

Definition calculate_profile_score (self : PPTDesignerSystem) : scores_t :=
  let max_scores := Config.weight_distribution (config self) in
  let scores := fold_left (profile_step (config self)) (user_responses self)
                          scores_init in
  fun category => py_min (scores category * 2)%Q (max_scores category).

(** *** Template matching *)

Definition get_or {A : Type} (o : option A) (d : A) : A :=
  match o with Some a => a | None => d end.

(** The style test: [user_style and user_style['response'].lower() in
    template_data.get('style_tags', [])].  [lower] exists on strings only. *)
Definition style_test (user_style : option UserResponse.t)
    (template_data : Template.t) : result bool :=
  match user_style with
  | None => Ok false
  | Some r =>
      match UserResponse.response r with
      | PStr s => Ok (existsb (String.eqb (lower s))
                              (get_or (Template.style_tags template_data) []))
      | _ => Raise AttributeError
      end
  end.

(** The three membership tests: [user_x and user_x['response'] in
    template_data.get(key, [])]. *)
Definition member_test (user_x : option UserResponse.t)
    (tags : option (list string)) : bool :=
  match user_x with
  | None => false
  | Some r => py_in (UserResponse.response r) (get_or tags [])
  end.

Definition calculate_template_match_score (self : PPTDesignerSystem)
    (template_data : Template.t) : result Q :=
  let user_style := dict_get (user_responses self) "q2.1.1" in
  style <- style_test user_style template_data ;;
  let style_match := if style then 25%Q else 0%Q in
  let user_color := dict_get (user_responses self) "q1.3.2" in
  let color_match :=
    if member_test user_color (Template.color_schemes template_data)
    then 20%Q else 0%Q in
  let user_goal := dict_get (user_responses self) "q1.1.1" in
  let functionality_match :=
    if member_test user_goal (Template.suitable_for template_data)
    then 30%Q else 0%Q in
  let user_version := dict_get (user_responses self) "q2.2.1" in
  let technical_compatibility :=
    if member_test user_version (Template.compatible_versions template_data)
    then 25%Q else 0%Q in
  let final_score :=
    (0 + style_match + color_match + functionality_match
       + technical_compatibility)%Q in
  Ok (py_min final_score 100%Q).

(** *** Recommendations *)

Definition make_recommendation (template : Template.t) (match_score : Q)
  : Recommendation.t :=
  Recommendation.mk
    (Template.name template)
    (Template.url template)
    match_score
    (get_or (Template.style_tags template) [])
    (get_or (Template.pros template) [])
    (get_or (Template.cons template) [])
    (get_or (Template.difficulty template) "medium")
    (Template.preview_image template).

(** The loop over [templates_database]: it stops at the first template whose
    scoring raises. *)
Fixpoint score_templates (self : PPTDesignerSystem)
    (templates_database : list Template.t) : result (list Recommendation.t) :=
  match templates_database with
  | [] => Ok []
  | template :: rest =>
      match_score <- calculate_template_match_score self template ;;
      recommendations <- score_templates self rest ;;
      Ok (make_recommendation template match_score :: recommendations)
  end.

(** [list.sort(key=lambda x: x['match_score'], reverse=True)].  Python's sort
    is stable, also with [reverse=True]; the result of a stable sort is
    determined by the input ([stable_sort_unique] below), so an insertion
    sort stands for it. *)
Fixpoint insert_desc (x : Recommendation.t) (l : list Recommendation.t)
  : list Recommendation.t :=
  match l with
  | [] => [x]
  | y :: l' =>
      if Qle_bool (Recommendation.match_score y) (Recommendation.match_score x)
      then x :: y :: l'
      else y :: insert_desc x l'
  end.

Definition sort_desc (l : list Recommendation.t) : list Recommendation.t :=
  fold_right insert_desc [] l.

Definition generate_recommendations (self : PPTDesignerSystem)
    (templates_database : list Template.t)
  : result (PPTDesignerSystem * list Recommendation.t) :=
  scored <- score_templates self templates_database ;;
  let recommendations := sort_desc scored in
  Ok (mkSystem (config self) (user_responses self) recommendations,
      firstn 10 recommendations).

(** *** The implementation plan *)

Definition timeline_table : dict string :=
  [("1일", "tight_timeline_1day");
   ("1주", "standard_timeline_1week");
   ("1개월", "extended_timeline_1month")].

(** [{...}.get(v, 'standard_timeline_1week')]: the key is hashed first. *)
Definition timeline_key_of (v : pyval) : result string :=
  if hashable v then
    match v with
    | PStr s => Ok (get_or (dict_get timeline_table s) "standard_timeline_1week")
    | _ => Ok "standard_timeline_1week"
    end
  else Raise TypeError.

(** [self.config['workflow_phases'][4]['sections'][0]['implementation_roadmaps']] *)
Definition roadmaps_of (cfg : Config.t) : result (dict Roadmap.t) :=
  match nth_error (Config.workflow_phases cfg) 4 with
  | None => Raise IndexError
  | Some phase =>
      match nth_error (Phase.sections phase) 0 with
      | None => Raise IndexError
      | Some section =>
          match Section_.implementation_roadmaps section with
          | None => Raise KeyError
          | Some roadmaps => Ok roadmaps
          end
      end
  end.

Definition generate_implementation_plan (self : PPTDesignerSystem)
  : result Plan.t :=
  let timeline := dict_get (user_responses self) "q5.1.1" in
  let experience := dict_get (user_responses self) "q5.1.2" in
  let plan_timeline :=
    match timeline with
    | Some r => UserResponse.response r
    | None => PStr "1주"
    end in
  let plan_experience :=
    match experience with
    | Some r => UserResponse.response r
    | None => PStr "중급자"
    end in
  match timeline with
  | Some r =>
      timeline_key <- timeline_key_of (UserResponse.response r) ;;
      roadmaps <- roadmaps_of (config self) ;;
      let roadmap := get_or (dict_get roadmaps timeline_key) Roadmap.empty in
      Ok (Plan.mk plan_timeline plan_experience
            (get_or (Roadmap.steps roadmap) (PList []))
            [get_or (Roadmap.resources roadmap) (PStr "")]
            0
            (Some (get_or (Roadmap.customization_level roadmap)
                          (PStr "moderate"))))
  | None =>
      Ok (Plan.mk plan_timeline plan_experience (PList []) [] 0 None)
  end.

(** *** Progress *)

(** [sum(1 for q in required_questions if q['question_id'] in
    self.user_responses)] *)
Definition count_answered (ledger : dict UserResponse.t)
    (required_questions : list Question.t) : Z :=
  fold_left
    (fun acc q =>
       if dict_mem ledger (Question.question_id q) then (acc + 1)%Z else acc)
    required_questions 0%Z.

Definition get_progress_percentage (self : PPTDesignerSystem) : Q :=
  let all_questions := get_all_questions (config self) in
  let required_questions := filter Question.required all_questions in
  let answered_required :=
    count_answered (user_responses self) required_questions in
  match required_questions with
  | [] => 100%Q
  | _ => (inject_Z answered_required
          / inject_Z (Z.of_nat (List.length required_questions)) * 100)%Q
  end.

(** ** The catalog *)

Definition MOCK_TEMPLATES : list Template.t :=
  [ Template.mk "Minimal Beige Professional" "https://example.com/template1"
      (Some ["minimal"; "modern"; "professional"])
      (Some ["beige_orange"])
      (Some ["교육"; "정보 전달"])
      (Some ["2019"; "2021"; "Microsoft 365"])
      (Some ["깔끔한 디자인"; "쉬운 편집"; "다양한 레이아웃"])
      (Some ["애니메이션 제한적"])
      (Some "easy")
      (Some "https://example.com/preview1.jpg");
    Template.mk "Modern Education Template" "https://example.com/template2"
      (Some ["modern"; "creative"; "educational"])
      (Some ["beige_orange"; "blue_gray"])
      (Some ["교육"; "발표"])
      (Some ["2016"; "2019"; "2021"; "Microsoft 365"])
      (Some ["학생 친화적"; "시각적 요소 풍부"; "접근성 우수"])
      (Some ["파일 크기 큼"])
      (Some "medium")
      (Some "https://example.com/preview2.jpg") ].

(** ** The route [POST /api/responses] *)

Module Reply.
(** The reply of the route: its status, the [success] flag, the text of
    [message] or [error], and the exception behind a 500 reply, whose text is
    the message of the exception and is left empty here. *)
Record t : Type := mk {
  status : nat;
  success : bool;
  text : string;
  raised : option PyExn
}.
End Reply.

Module StrayResponse.
(** An entry the dictionary takes under a key that is no string, when an
    identifier such as [5], [2.5] or [true] reaches [submit_response]:
    [Dict[str, Dict]] has no place for such a key. *)
Record t : Type := mk {
  key : pyval;
  response : pyval;
  additional_details : pyval;
  timestamp : string
}.
End StrayResponse.

Module Submitted.
(** What a call of the route leaves: the system, the entry stored beside the
    ledger if there is one, and the reply. *)
Record t : Type := mk {
  system_after : PPTDesignerSystem;
  stray : option StrayResponse.t;
  reply : Reply.t
}.
End Submitted.

(** [data.get(key)]: only a JSON object has [get]; a missing key gives
    [None]. *)
Definition json_get (data : pyval) (key : string) : result pyval :=
  match data with
  | PDict d => Ok (get_or (dict_get d key) PNone)
  | _ => Raise AttributeError
  end.

(** [system.submit_response(question_id, response, additional_details)] with
    whatever identifier the body holds: a list or an object cannot be a key
    of the dictionary. *)
Definition submit_response_any (now : string) (system : PPTDesignerSystem)
    (question_id response additional_details : pyval)
  : result (PPTDesignerSystem * option StrayResponse.t * bool) :=
  match question_id with
  | PStr qid =>
      let '(system', success) :=
        submit_response now system qid response additional_details in
      Ok (system', None, success)
  | PList _ | PDict _ => Raise TypeError
  | _ =>
      Ok (system,
          Some (StrayResponse.mk question_id response additional_details now),
          true)
  end.

(** The route; [body] is the outcome of [request.get_json()].  Whatever is
    raised inside the [try] is answered with 500. *)
Definition route_submit_response (now : string) (system : PPTDesignerSystem)
    (body : result pyval) : Submitted.t :=
  let attempt :=
    data <- body ;;
    question_id <- json_get data "question_id" ;;
    response <- json_get data "response" ;;
    additional_details <- json_get data "additional_details" ;;
    if negb (truthy question_id) || is_None response then
      Ok (Submitted.mk system None
            (Reply.mk 400 false "question_id and response are required" None))
    else
      stored <- submit_response_any now system question_id response
                  additional_details ;;
      let '(system', stray, success) := stored in
      Ok (Submitted.mk system' stray
            (Reply.mk 200 success "Response submitted successfully" None)) in
  match attempt with
  | Ok out => out
  | Raise e => Submitted.mk system None (Reply.mk 500 false "" (Some e))
  end.

(** The body [{question_id, response, additional_details}]. *)
Definition submission (question_id response additional_details : pyval)
  : result pyval :=
  Ok (PDict [("question_id", question_id); ("response", response);
             ("additional_details", additional_details)]).

(** ** The stated properties, in the words of the specification *)

(** The answer recorded for a question, if any. *)
Definition answer (ledger : dict UserResponse.t) (qid : string)
  : option pyval :=
  option_map UserResponse.response (dict_get ledger qid).

(** *** Profile scores *)

Definition sum_Q (l : list Q) : Q := fold_left Qplus l 0%Q.

(** A recorded response whose answer is truthy and whose two-segment prefix
    is mapped to [c] by the eleven-entry table. *)
Definition qualifies (c : Category) (item : string * UserResponse.t) : bool :=
  truthy (UserResponse.response (snd item))
  && match dict_get category_mapping (prefix_of (fst item)) with
     | Some c' => Category_eqb c' c
     | None => false
     end.

(** The running total of [c] when every qualifying response adds
    [question.weight / 10]: there is no such number for a response whose
    identifier is not that of a configured question. *)
Fixpoint total_as_stated (cfg : Config.t) (c : Category)
    (ledger : dict UserResponse.t) (acc : Q) : option Q :=
  match ledger with
  | [] => Some acc
  | item :: rest =>
      if qualifies c item then
        match _find_question cfg (fst item) with
        | Some question =>
            total_as_stated cfg c rest
              (acc + inject_Z (Question.weight question) / 10)%Q
        | None => None
        end
      else total_as_stated cfg c rest acc
  end.

Definition profile_score_as_stated (self : PPTDesignerSystem) (c : Category)
  : option Q :=
  option_map
    (fun total => Qmin (total * 2) (Config.weight_distribution (config self) c))
    (total_as_stated (config self) c (user_responses self) 0%Q).

(** The same with the third condition: the identifier is that of a
    configured question. *)
Definition is_configured (cfg : Config.t) (qid : string) : bool :=
  match _find_question cfg qid with Some _ => true | None => false end.

Definition contributes (cfg : Config.t) (c : Category)
    (item : string * UserResponse.t) : bool :=
  qualifies c item && is_configured cfg (fst item).

Definition contribution (cfg : Config.t) (item : string * UserResponse.t) : Q :=
  match _find_question cfg (fst item) with
  | Some question => (inject_Z (Question.weight question) / 10)%Q
  | None => 0%Q
  end.

Definition profile_score_spec (self : PPTDesignerSystem) (c : Category) : Q :=
  Qmin (sum_Q (map (contribution (config self))
                   (filter (contributes (config self) c)
                           (user_responses self))) * 2)
       (Config.weight_distribution (config self) c).

(** *** Match scores *)

(** The recorded style answer, lowercased, is one of the style tags. *)
Definition style_matches (ledger : dict UserResponse.t) (t : Template.t)
  : bool :=
  match answer ledger "q2.1.1" with
  | Some (PStr s) => existsb (String.eqb (lower s))
                             (get_or (Template.style_tags t) [])
  | _ => false
  end.

(** The recorded answer to [qid] is among [tags]. *)
Definition among (ledger : dict UserResponse.t) (qid : string)
    (tags : option (list string)) : bool :=
  match answer ledger qid with
  | Some (PStr s) => existsb (String.eqb s) (get_or tags [])
  | _ => false
  end.

Definition points (satisfied : bool) (p : Q) : Q :=
  if satisfied then p else 0%Q.

Definition match_score_spec (self : PPTDesignerSystem) (t : Template.t) : Q :=
  let l := user_responses self in
  Qmin (points (style_matches l t) 25
        + points (among l "q1.3.2" (Template.color_schemes t)) 20
        + points (among l "q1.1.1" (Template.suitable_for t)) 30
        + points (among l "q2.2.1" (Template.compatible_versions t)) 25)%Q
       100%Q.

(** The style answer is missing or is a string. *)
Definition style_answer_is_text (ledger : dict UserResponse.t) : bool :=
  match answer ledger "q2.1.1" with
  | None | Some (PStr _) => true
  | Some _ => false
  end.

(** The four identifiers template matching reads. *)
Definition match_questions : list string :=
  ["q2.1.1"; "q1.3.2"; "q1.1.1"; "q2.2.1"].

(** *** Ranking *)

Definition score_is (v : Q) (r : Recommendation.t) : bool :=
  Qeq_bool (Recommendation.match_score r) v.

(** [a] may stand before [b] in a descending list. *)
Definition desc (a b : Recommendation.t) : Prop :=
  (Recommendation.match_score b <= Recommendation.match_score a)%Q.

(** [sorted] keeps the elements of every score in the order [original] has
    them. *)
Definition stable_with (sorted original : list Recommendation.t) : Prop :=
  forall v, filter (score_is v) sorted = filter (score_is v) original.

(** Every template of the catalog with its score, in catalog order. *)
Definition scored_catalog (self : PPTDesignerSystem)
    (templates : list Template.t) : list Recommendation.t :=
  map (fun t => make_recommendation t (match_score_spec self t)) templates.

(** *** The plan *)

Definition roadmap_key_spec (timeline : option pyval) : string :=
  match timeline with
  | Some (PStr s) =>
      if String.eqb s "1일" then "tight_timeline_1day"
      else if String.eqb s "1주" then "standard_timeline_1week"
      else if String.eqb s "1개월" then "extended_timeline_1month"
      else "standard_timeline_1week"
  | _ => "standard_timeline_1week"
  end.

(** The plan carries the steps of [r], one resource entry and a level. *)
Definition plan_follows (plan : Plan.t) (r : Roadmap.t) : Prop :=
  Plan.phases plan = get_or (Roadmap.steps r) (PList [])
  /\ Plan.resources_needed plan = [get_or (Roadmap.resources r) (PStr "")]
  /\ Plan.customization_level plan
     = Some (get_or (Roadmap.customization_level r) (PStr "moderate")).

(** The statement for one system: the plan follows the roadmap the timeline
    answer selects, the standard one when the answer is unrecognized or
    missing. *)
Definition plan_as_stated (self : PPTDesignerSystem) : Prop :=
  exists roadmaps plan,
    roadmaps_of (config self) = Ok roadmaps
    /\ generate_implementation_plan self = Ok plan
    /\ plan_follows plan
         (get_or (dict_get roadmaps
                    (roadmap_key_spec (answer (user_responses self) "q5.1.1")))
                 Roadmap.empty).

(** *** Progress *)

Definition required_total (cfg : Config.t) : nat :=
  List.length (filter Question.required (get_all_questions cfg)).

Definition required_answered (self : PPTDesignerSystem) : nat :=
  List.length
    (filter (fun q => Question.required q
                      && dict_mem (user_responses self) (Question.question_id q))
            (get_all_questions (config self))).

(** ** Sample data *)

Definition demo_question (qid : string) (required : bool) (weight : Z)
  : Question.t :=
  Question.mk qid "" "single_choice" required weight.

Definition demo_roadmaps : dict Roadmap.t :=
  [("tight_timeline_1day",
    Roadmap.mk (Some (PList [PStr "pick"; PStr "fill"]))
               (Some (PStr "template only")) (Some (PStr "minimal")));
   ("standard_timeline_1week",
    Roadmap.mk (Some (PList [PStr "plan"; PStr "design"; PStr "review"]))
               (Some (PStr "template and icons")) (Some (PStr "moderate")));
   ("extended_timeline_1month",
    Roadmap.mk (Some (PList [PStr "research"; PStr "plan"; PStr "design";
                             PStr "review"]))
               (Some (PStr "custom assets")) (Some (PStr "extensive")))].

Definition demo_config : Config.t :=
  Config.mk
    [ Phase.mk [Section_.mk [demo_question "q1.1.1" true 10;
                            demo_question "q1.3.2" false 8] None];
      Phase.mk [Section_.mk [demo_question "q2.1.1" true 9;
                            demo_question "q2.2.1" false 7] None];
      Phase.mk [];
      Phase.mk [];
      Phase.mk [Section_.mk [demo_question "q5.1.1" true 6]
                            (Some demo_roadmaps)] ]
    (fun c => match c with
              | content_goals => 25
              | audience_context => 20
              | design_preferences => 20
              | technical_requirements => 15
              | timeline_resources => 10
              | scalability => 10
              end%Q).

(** Submissions in a row, starting from the empty ledger. *)
Definition submit_all (cfg : Config.t)
    (submissions : list (string * pyval)) : PPTDesignerSystem :=
  fold_left
    (fun system s => fst (submit_response "2024-01-01T00:00:00" system
                                          (fst s) (snd s) PNone))
    submissions (init cfg).

(** A truthy answer under an identifier no question carries. *)
Definition unknown_question_system : PPTDesignerSystem :=
  submit_all demo_config [("q1.1.9", PStr "yes")].

(** The style question answered with [False]: the route records it. *)
Definition false_style_system : PPTDesignerSystem :=
  Submitted.system_after
    (route_submit_response "2024-01-01T00:00:00" (init demo_config)
       (submission (PStr "q2.1.1") (PBool false) PNone)).

(** All four answers agree with the first template of the catalog. *)
Definition full_match_system : PPTDesignerSystem :=
  submit_all demo_config
    [("q2.1.1", PStr "minimal"); ("q2.2.1", PStr "2019");
     ("q1.1.1", PStr "교육"); ("q1.3.2", PStr "beige_orange")].

Definition no_template : Template.t :=
  Template.mk "" "" None None None None None None None None.

Definition template1 : Template.t := nth 0 MOCK_TEMPLATES no_template.
Definition template2 : Template.t := nth 1 MOCK_TEMPLATES no_template.

(** The template with its style tags replaced. *)
Definition with_style_tags (t : Template.t) (tags : option (list string))
  : Template.t :=
  Template.mk (Template.name t) (Template.url t) tags
    (Template.color_schemes t) (Template.suitable_for t)
    (Template.compatible_versions t) (Template.pros t) (Template.cons t)
    (Template.difficulty t) (Template.preview_image t).


(** The timeline question answered with a list. *)
Definition list_timeline_system : PPTDesignerSystem :=
  submit_all demo_config [("q5.1.1", PList [PStr "1일"])].

(** ** The other operations and routes *)

(** [get_questions_by_phase]: phases are numbered from 1. *)
Definition get_questions_by_phase (cfg : Config.t) (phase_id : Z)
  : list Question.t :=
  let phases := Config.workflow_phases cfg in
  if (0 <? phase_id)%Z && (phase_id <=? Z.of_nat (List.length phases))%Z then
    match nth_error phases (Z.to_nat (phase_id - 1)) with
    | Some phase =>
        flat_map (fun section => Section_.strategic_questions section)
                 (Phase.sections phase)
    | None => []
    end
  else [].

Module JsonReply.
(** The reply of a [GET] route: the status, the [success] flag, the payload
    of a successful call, the exception of a failed one. *)
Record t (A : Type) : Type := mk {
  status : nat;
  success : bool;
  payload : option A;
  error : option PyExn
}.
Arguments mk {A} _ _ _ _.
Arguments status {A} _.
Arguments success {A} _.
Arguments payload {A} _.
Arguments error {A} _.
End JsonReply.

(** The route [GET /api/recommendations]: the catch-all handler turns an
    exception into a 500 reply; the global system keeps what the call
    stored. *)
Definition route_get_recommendations (system : PPTDesignerSystem)
  : PPTDesignerSystem * JsonReply.t (list Recommendation.t) :=
  match generate_recommendations system MOCK_TEMPLATES with
  | Ok (system', recommendations) =>
      (system', JsonReply.mk 200 true (Some recommendations) None)
  | Raise e => (system, JsonReply.mk 500 false None (Some e))
  end.

(** The route [GET /api/implementation-plan]. *)
Definition route_get_implementation_plan (system : PPTDesignerSystem)
  : JsonReply.t Plan.t :=
  match generate_implementation_plan system with
  | Ok plan => JsonReply.mk 200 true (Some plan) None
  | Raise e => JsonReply.mk 500 false None (Some e)
  end.

(** ** Notions used by the further properties *)

(** Every entry sits under its own identifier. *)
Definition entries_keyed (ledger : dict UserResponse.t) : Prop :=
  Forall (fun kv => UserResponse.question_id (snd kv) = fst kv) ledger.

Fixpoint has_dot (s : string) : bool :=
  match s with
  | EmptyString => false
  | String c s' => Ascii.eqb c "."%char || has_dot s'
  end.

(** The plan with another experience label. *)
Definition with_experience_level (plan : Plan.t) (v : pyval) : Plan.t :=
  Plan.mk (Plan.timeline plan) v (Plan.phases plan)
    (Plan.resources_needed plan) (Plan.estimated_hours plan)
    (Plan.customization_level plan).

Definition map_result {A B : Type} (f : A -> B) (r : result A) : result B :=
  match r with
  | Ok a => Ok (f a)
  | Raise e => Raise e
  end.

(** The questions of a phase, by position in the document. *)
Definition phase_questions (phase : Phase.t) : list Question.t :=
  flat_map (fun section => Section_.strategic_questions section)
           (Phase.sections phase).

(** What a response adds to the total of [c]. *)
Definition value_for (cfg : Config.t) (c : Category)
    (item : string * UserResponse.t) : Q :=
  if contributes cfg c item then contribution cfg item else 0%Q.

(** Two ledgers with the same identifiers in the same order whose answers
    have the same truth values. *)
Definition same_truth (l1 l2 : dict UserResponse.t) : Prop :=
  Forall2 (fun a b =>
             fst a = fst b
             /\ truthy (UserResponse.response (snd a))
                = truthy (UserResponse.response (snd b)))
          l1 l2.

(** *** The submission route, in the words of the specification *)

(** What the body holds under a key: [None] when the key is missing or
    [null], or when the body is no JSON object. *)
Definition field_value (body : result pyval) (key : string) : pyval :=
  match body with
  | Ok (PDict d) => get_or (dict_get d key) PNone
  | _ => PNone
  end.






(** *** Letter case *)

(** The tag holds a letter that has a lowercase form. *)
Definition unmatchable (tag : string) : bool :=
  match decode tag with
  | Some cps => existsb has_lower_form cps
  | None => false
  end.

(** The tag holds an uppercase letter. *)
Definition holds_uppercase (tag : string) : bool :=
  match decode tag with
  | Some cps => existsb is_uppercase cps
  | None => false
  end.

(** The style tags without those that hold a letter with a lowercase
    form. *)
Definition matchable_tags (t : Template.t) : option (list string) :=
  option_map (filter (fun tag => negb (unmatchable tag)))
             (Template.style_tags t).

(** A template with style tags only. *)
Definition style_template (tags : list string) : Template.t :=
  Template.mk "" "" (Some tags) None None None None None None None.

(** ** Proof steps *)

Ltac div_mod_lia := Z.to_euclidean_division_equations; lia.

Ltac decide_test :=
  match goal with
  | |- context [(?a <? ?b)%Z] => destruct (Z.ltb_spec a b); try div_mod_lia
  | |- context [(?a <=? ?b)%Z] => destruct (Z.leb_spec a b); try div_mod_lia
  end.

(** ** Facts about dictionaries *)

Section DictFacts.
Context {V : Type}.
Implicit Types (d : dict V) (k : string) (v : V).

Lemma dict_get_set_same d k v : dict_get (dict_set d k v) k = Some v.
Proof.
  induction d as [|[k' v'] d IH]; simpl.
  - now rewrite String.eqb_refl.
  - destruct (String.eqb k' k) eqn:E; simpl; rewrite E; auto.
Qed.

Lemma dict_get_set_other d k k' v :
  k <> k' -> dict_get (dict_set d k v) k' = dict_get d k'.
Proof.
  intros Hne. induction d as [|[k0 v0] d IH]; simpl.
  - destruct (String.eqb_spec k k'); congruence.
  - destruct (String.eqb_spec k0 k) as [->|Hk]; simpl.
    + destruct (String.eqb_spec k k'); congruence.
    + now rewrite IH.
Qed.

Lemma dict_mem_In d k : dict_mem d k = true <-> In k (dict_keys d).
Proof.
  unfold dict_mem. induction d as [|[k' v'] d IH]; simpl.
  - split; [discriminate | tauto].
  - destruct (String.eqb_spec k' k) as [->|Hk].
    + split; auto.
    + rewrite IH. split; [auto | intros [?|?]; congruence].
Qed.

Lemma dict_keys_set d k v :
  dict_keys (dict_set d k v)
  = if dict_mem d k then dict_keys d else dict_keys d ++ [k].
Proof.
  unfold dict_mem. induction d as [|[k' v'] d IH]; simpl; auto.
  destruct (String.eqb_spec k' k) as [->|Hk]; simpl; auto.
  rewrite IH. now destruct (dict_get d k).
Qed.

Lemma dict_set_length_mem d k v :
  dict_mem d k = true -> List.length (dict_set d k v) = List.length d.
Proof.
  intros H. rewrite <- (length_map fst (dict_set d k v)).
  fold (dict_keys (dict_set d k v)). rewrite dict_keys_set, H.
  apply length_map.
Qed.

Lemma dict_set_wf d k v : dict_wf d -> dict_wf (dict_set d k v).
Proof.
  unfold dict_wf. intros H. rewrite dict_keys_set.
  destruct (dict_mem d k) eqn:E; auto.
  apply NoDup_app; auto.
  - constructor; [intros [] | constructor].
  - intros x Hx [<-|[]]. apply dict_mem_In in Hx. congruence.
Qed.

Lemma filter_key_absent d k :
  ~ In k (dict_keys d) ->
  filter (fun kv => String.eqb (fst kv) k) d = [].
Proof.
  induction d as [|[k' v'] d IH]; simpl; auto.
  intros H. destruct (String.eqb_spec k' k) as [->|Hk]; [tauto|].
  apply IH. tauto.
Qed.

Lemma filter_key_set d k v :
  dict_wf d ->
  filter (fun kv => String.eqb (fst kv) k) (dict_set d k v) = [(k, v)].
Proof.
  unfold dict_wf.
  induction d as [|[k' v'] d IH]; simpl; intros Hwf.
  - now rewrite String.eqb_refl.
  - inversion Hwf as [|? ? Hnot Hwf']; subst.
    destruct (String.eqb_spec k' k) as [->|Hk]; simpl.
    + rewrite String.eqb_refl. f_equal. now apply filter_key_absent.
    + destruct (String.eqb_spec k' k); [congruence|]. now apply IH.
Qed.
End DictFacts.

Lemma init_wf cfg : dict_wf (user_responses (init cfg)).
Proof. constructor. Qed.

(** [submit_response] keeps the keys of the ledger distinct. *)
Lemma submit_response_wf now self qid v det :
  dict_wf (user_responses self) ->
  dict_wf (user_responses (fst (submit_response now self qid v det))).
Proof. intros H. simpl. now apply dict_set_wf. Qed.

Lemma py_min_Qmin a b : py_min a b = Qmin a b.
Proof.
  unfold py_min, Qmin, GenericMinMax.gmin, Qle_bool, Qcompare, Z.leb.
  now destruct (Z.compare (Qnum a * QDen b) (Qnum b * QDen a)).
Qed.

(** ** The response ledger *)

(** C6. [submit_response] always returns [True]; after two submissions for
    one identifier the ledger holds the later value, detail and timestamp
    under that identifier, holds nothing else under it, and has as many
    entries as after the first submission. *)
Theorem submit_response_overwrites :
  forall now1 now2 self qid v1 d1 v2 d2,
    dict_wf (user_responses self) ->
    let r1 := submit_response now1 self qid v1 d1 in
    let r2 := submit_response now2 (fst r1) qid v2 d2 in
    let later := UserResponse.mk qid v2 d2 now2 in
    snd r1 = true
    /\ snd r2 = true
    /\ dict_get (user_responses (fst r2)) qid = Some later
    /\ filter (fun kv => String.eqb (fst kv) qid) (user_responses (fst r2))
       = [(qid, later)]
    /\ List.length (user_responses (fst r2))
       = List.length (user_responses (fst r1)).
Proof.
  intros now1 now2 self qid v1 d1 v2 d2 Hwf. simpl.
  repeat split.
  - apply dict_get_set_same.
  - apply filter_key_set. now apply dict_set_wf.
  - apply dict_set_length_mem. unfold dict_mem.
    now rewrite dict_get_set_same.
Qed.

Lemma submit_response_overwrites_witness :
  let r1 := submit_response "t1" (init demo_config) "q1.1.1" (PStr "교육") PNone in
  let r2 := submit_response "t2" (fst r1) "q1.1.1" (PStr "발표") (PStr "memo") in
  dict_get (user_responses (fst r2)) "q1.1.1"
  = Some (UserResponse.mk "q1.1.1" (PStr "발표") (PStr "memo") "t2")
  /\ List.length (user_responses (fst r2)) = 1%nat.
Proof.
  pose proof (submit_response_overwrites "t1" "t2" (init demo_config) "q1.1.1"
                (PStr "교육") PNone (PStr "발표") (PStr "memo")
                (init_wf demo_config)) as H.
  cbv zeta in H. destruct H as (_ & _ & Hget & _ & Hlen).
  split; [exact Hget | rewrite Hlen; reflexivity].
Defined.

(** A first submission adds one entry; answers to other questions stay. *)
Lemma submit_response_other now self qid v det k :
  qid <> k ->
  dict_get (user_responses (fst (submit_response now self qid v det))) k
  = dict_get (user_responses self) k.
Proof. intros H. simpl. now apply dict_get_set_other. Qed.

(** ** Template matching *)

(** C8. Two ledgers with the same entries (or the same absence of an entry)
    under [q2.1.1], [q1.3.2], [q1.1.1] and [q2.2.1] give the same outcome for
    every template; a submission under any other identifier leaves the
    outcome as it was. *)
Theorem match_score_reads_four_answers :
  (forall t s1 s2,
      (forall k, In k match_questions ->
                 dict_get (user_responses s1) k = dict_get (user_responses s2) k) ->
      calculate_template_match_score s1 t = calculate_template_match_score s2 t)
  /\ (forall now self k v det t,
         ~ In k match_questions ->
         calculate_template_match_score
           (fst (submit_response now self k v det)) t
         = calculate_template_match_score self t).
Proof.
  assert (Hagree : forall t s1 s2,
      (forall k, In k match_questions ->
                 dict_get (user_responses s1) k = dict_get (user_responses s2) k) ->
      calculate_template_match_score s1 t = calculate_template_match_score s2 t).
  { intros t s1 s2 H. unfold calculate_template_match_score.
    rewrite (H "q2.1.1"), (H "q1.3.2"), (H "q1.1.1"), (H "q2.2.1");
      simpl; auto 6. }
  split; [exact Hagree|].
  intros now self k v det t Hk. apply Hagree. intros k' Hk'.
  apply submit_response_other. intros ->. contradiction.
Qed.

Lemma match_score_reads_four_answers_witness :
  calculate_template_match_score
    (submit_all demo_config [("q2.1.1", PStr "Minimal"); ("q5.1.1", PStr "1일")])
    (hd (Template.mk "" "" None None None None None None None None)
        MOCK_TEMPLATES)
  = calculate_template_match_score
      (submit_all demo_config [("q9.9.9", PInt 3); ("q2.1.1", PStr "Minimal")])
      (hd (Template.mk "" "" None None None None None None None None)
          MOCK_TEMPLATES).
Proof.
  apply (proj1 match_score_reads_four_answers).
  intros k Hk. simpl in Hk.
  destruct Hk as [<-|[<-|[<-|[<-|[]]]]]; reflexivity.
Defined.

(** ** The submission route *)

Lemma route_submit_response_object now system d :
  route_submit_response now system (Ok (PDict d))
  = let body := Ok (PDict d) in
    let question_id := field_value body "question_id" in
    let response := field_value body "response" in
    let additional_details := field_value body "additional_details" in
    if negb (truthy question_id) || is_None response then
      Submitted.mk system None
        (Reply.mk 400 false "question_id and response are required" None)
    else
      match submit_response_any now system question_id response
              additional_details with
      | Ok (system', stray, success) =>
          Submitted.mk system' stray
            (Reply.mk 200 success "Response submitted successfully" None)
      | Raise e => Submitted.mk system None (Reply.mk 500 false "" (Some e))
      end.
Proof.
  unfold route_submit_response, json_get, field_value. cbn [bind].
  destruct (negb (truthy (get_or (dict_get d "question_id") PNone))
            || is_None (get_or (dict_get d "response") PNone));
    [reflexivity|].
  destruct (submit_response_any _ _ _ _ _) as [[[system' stray] success]|e];
    reflexivity.
Qed.



(** A request whose body cannot be read as JSON is answered 500 as well. *)
Example route_submit_response_unreadable :
  route_submit_response "t" (init demo_config) (Raise BadRequest)
  = Submitted.mk (init demo_config) None
      (Reply.mk 500 false "" (Some BadRequest)).
Proof. reflexivity. Qed.



(** ** Profile scoring *)

Lemma Category_eqb_sym a b : Category_eqb a b = Category_eqb b a.
Proof. now destruct a, b. Qed.

(** What one turn of the loop does to the total of one category. *)
Lemma profile_step_at cfg scores item c :
  profile_step cfg scores item c
  = if contributes cfg c item
    then (scores c + contribution cfg item)%Q
    else scores c.
Proof.
  destruct item as [qid r].
  unfold profile_step, contributes, qualifies, contribution, is_configured.
  simpl fst; simpl snd.
  destruct (dict_get category_mapping (prefix_of qid)) as [c'|].
  2: now rewrite andb_false_r.
  destruct (truthy (UserResponse.response r)); simpl; auto.
  destruct (_find_question cfg qid) as [q|].
  - unfold scores_add. rewrite (Category_eqb_sym c' c).
    now destruct (Category_eqb c c').
  - now rewrite andb_false_r.
Qed.

(** The loop, category by category. *)
Lemma profile_fold cfg c ledger :
  forall scores,
    fold_left (profile_step cfg) ledger scores c
    = fold_left Qplus
        (map (contribution cfg) (filter (contributes cfg c) ledger))
        (scores c).
Proof.
  induction ledger as [|item ledger IH]; intros scores; simpl; auto.
  rewrite IH, profile_step_at.
  now destruct (contributes cfg c item).
Qed.

Lemma calculate_profile_score_eq self c :
  calculate_profile_score self c = profile_score_spec self c.
Proof.
  unfold calculate_profile_score, profile_score_spec, sum_Q.
  now rewrite py_min_Qmin, profile_fold.
Qed.

Lemma total_as_stated_eq cfg c ledger :
  forall acc total,
    total_as_stated cfg c ledger acc = Some total ->
    total = fold_left Qplus
              (map (contribution cfg) (filter (contributes cfg c) ledger)) acc.
Proof.
  induction ledger as [|item ledger IH]; intros acc total; simpl.
  - congruence.
  - unfold contributes, is_configured.
    destruct (qualifies c item); simpl; [|apply IH].
    destruct (_find_question cfg (fst item)) as [q|] eqn:E; [|discriminate].
    simpl. intros H. apply IH in H. subst total.
    unfold contribution at 3. rewrite E. reflexivity.
Qed.

(** C1, as amended. For every system and category, the score is the sum of
    [weight / 10] over the recorded responses whose answer is truthy, whose
    two-segment prefix the eleven-entry table maps to that category, and
    whose identifier is that of a configured question, doubled and clamped at
    the configured maximum; a response failing one of the three conditions
    adds nothing; and where every qualifying response is that of a configured
    question, this is the mapping of the statement. *)
Theorem calculate_profile_score_spec :
  (forall self c, calculate_profile_score self c = profile_score_spec self c)
  /\ (forall cfg ledger recs item c,
         contributes cfg c item = false ->
         calculate_profile_score (mkSystem cfg (ledger ++ [item]) recs) c
         = calculate_profile_score (mkSystem cfg ledger recs) c)
  /\ (forall self c x,
         profile_score_as_stated self c = Some x ->
         calculate_profile_score self c = x).
Proof.
  split; [exact calculate_profile_score_eq|]. split.
  - intros cfg ledger recs item c H.
    rewrite !calculate_profile_score_eq. unfold profile_score_spec. simpl.
    now rewrite filter_app; simpl; rewrite H, app_nil_r.
  - intros self c x H. rewrite calculate_profile_score_eq.
    unfold profile_score_as_stated in H. unfold profile_score_spec, sum_Q.
    destruct (total_as_stated _ _ _ _) as [total|] eqn:E; [|discriminate].
    apply total_as_stated_eq in E. simpl in H. congruence.
Qed.

(** C1, a response the statement has no value for: its answer is truthy and
    its prefix [q1.1] is in the table, yet no question [q1.1.9] is
    configured; the code adds nothing for it. *)
Lemma profile_score_unknown_question :
  qualifies content_goals ("q1.1.9", UserResponse.mk "q1.1.9" (PStr "yes") PNone
                                       "2024-01-01T00:00:00") = true
  /\ _find_question demo_config "q1.1.9" = None
  /\ profile_score_as_stated unknown_question_system content_goals = None
  /\ calculate_profile_score unknown_question_system content_goals = 0%Q
  /\ profile_score_as_stated unknown_question_system content_goals
     <> Some (calculate_profile_score unknown_question_system content_goals).
Proof. repeat split; try reflexivity. discriminate. Qed.

Lemma calculate_profile_score_spec_witness :
  calculate_profile_score
    (submit_all demo_config [("q1.1.1", PStr "교육"); ("q2.1.1", PStr "")]) content_goals
  = calculate_profile_score
      (submit_all demo_config [("q1.1.1", PStr "교육")]) content_goals.
Proof.
  apply (proj1 (proj2 calculate_profile_score_spec)
           demo_config
           (user_responses (submit_all demo_config [("q1.1.1", PStr "교육")]))
           [] ("q2.1.1", UserResponse.mk "q2.1.1" (PStr "") PNone
                           "2024-01-01T00:00:00") content_goals).
  reflexivity.
Defined.

Lemma sum_nonneg (l : list Q) :
  forall acc, (0 <= acc)%Q -> (forall x, In x l -> (0 <= x)%Q) ->
              (0 <= fold_left Qplus l acc)%Q.
Proof.
  induction l as [|x l IH]; intros acc Hacc Hl; simpl; auto.
  apply IH.
  - rewrite <- (Qplus_0_l 0). apply Qplus_le_compat; auto. apply Hl. now left.
  - intros y Hy. apply Hl. now right.
Qed.

Lemma find_question_In cfg qid q :
  _find_question cfg qid = Some q -> In q (get_all_questions cfg).
Proof. unfold _find_question. intros H. now apply find_some in H. Qed.

Lemma contribution_nonneg cfg item :
  (forall q, In q (get_all_questions cfg) -> (0 <= Question.weight q)%Z) ->
  (0 <= contribution cfg item)%Q.
Proof.
  intros Hw. unfold contribution.
  destruct (_find_question cfg (fst item)) as [q|] eqn:E; [|apply Qle_refl].
  apply find_question_In, Hw in E.
  unfold Qdiv. apply Qmult_le_0_compat.
  - unfold Qle. simpl. lia.
  - discriminate.
Qed.

(** C5. With non-negative question weights and non-negative category
    maxima, every category score lies between 0 and the maximum of its
    category. *)
Theorem profile_score_bounds :
  forall self,
    (forall q, In q (get_all_questions (config self)) ->
               (0 <= Question.weight q)%Z) ->
    (forall c, (0 <= Config.weight_distribution (config self) c)%Q) ->
    forall c,
      (0 <= calculate_profile_score self c)%Q
      /\ (calculate_profile_score self c
          <= Config.weight_distribution (config self) c)%Q.
Proof.
  intros self Hw Hmax c. rewrite calculate_profile_score_eq.
  unfold profile_score_spec. split.
  - apply Q.min_glb; [|apply Hmax].
    apply Qmult_le_0_compat; [|discriminate].
    apply sum_nonneg; [apply Qle_refl|].
    intros x Hx. apply in_map_iff in Hx. destruct Hx as (item & <- & _).
    now apply contribution_nonneg.
  - apply Q.le_min_r.
Qed.

Lemma profile_score_bounds_witness :
  let self := submit_all demo_config
                [("q1.1.1", PStr "교육"); ("q2.1.1", PStr "minimal");
                 ("q5.1.1", PStr "1주")] in
  (0 <= calculate_profile_score self design_preferences)%Q
  /\ (calculate_profile_score self design_preferences <= 20)%Q.
Proof.
  apply (profile_score_bounds
           (submit_all demo_config
              [("q1.1.1", PStr "교육"); ("q2.1.1", PStr "minimal");
               ("q5.1.1", PStr "1주")])).
  - simpl. intros q [<-|[<-|[<-|[<-|[<-|[]]]]]]; simpl; lia.
  - intros c; destruct c; simpl; discriminate.
Defined.

(** ** Progress *)

Lemma count_answered_fold (ledger : dict UserResponse.t) qs :
  forall acc,
    fold_left
      (fun acc q =>
         if dict_mem ledger (Question.question_id q) then (acc + 1)%Z else acc)
      qs acc
    = (acc + Z.of_nat
               (List.length
                  (filter (fun q => dict_mem ledger (Question.question_id q))
                          qs)))%Z.
Proof.
  induction qs as [|q qs IH]; intros acc; simpl.
  - lia.
  - rewrite IH. destruct (dict_mem ledger (Question.question_id q)); simpl; lia.
Qed.

Lemma filter_filter {A : Type} (p r : A -> bool) (l : list A) :
  filter p (filter r l) = filter (fun x => r x && p x) l.
Proof.
  induction l as [|x l IH]; simpl; auto.
  destruct (r x); simpl; [destruct (p x)|]; now rewrite IH.
Qed.

Lemma count_answered_eq self :
  count_answered (user_responses self)
    (filter Question.required (get_all_questions (config self)))
  = Z.of_nat (required_answered self).
Proof.
  unfold count_answered, required_answered.
  now rewrite count_answered_fold, filter_filter.
Qed.

Lemma progress_unfold self :
  get_progress_percentage self
  = match required_total (config self) with
    | O => 100%Q
    | S _ => (inject_Z (Z.of_nat (required_answered self))
              / inject_Z (Z.of_nat (required_total (config self))) * 100)%Q
    end.
Proof.
  unfold get_progress_percentage, required_total.
  rewrite count_answered_eq.
  now destruct (filter Question.required (get_all_questions (config self))).
Qed.

Lemma filter_ext_in_true {A : Type} (p r : A -> bool) (l : list A) :
  (forall x, In x l -> r x = true -> p x = true) ->
  filter (fun x => r x && p x) l = filter r l.
Proof.
  intros H. apply filter_ext_in. intros x Hx.
  destruct (r x) eqn:E; simpl; auto.
Qed.

(** C7. The progress is the number of required questions with an entry in
    the ledger, divided by the number of required questions, times 100; it is
    100 when every required question has an entry, and 100 when the
    configuration has no required question. *)
Theorem get_progress_percentage_spec :
  forall self,
    (required_total (config self) <> 0%nat ->
     get_progress_percentage self
     = (inject_Z (Z.of_nat (required_answered self))
        / inject_Z (Z.of_nat (required_total (config self))) * 100)%Q)
    /\ ((forall q, In q (get_all_questions (config self)) ->
                   Question.required q = true ->
                   dict_mem (user_responses self) (Question.question_id q) = true) ->
        (get_progress_percentage self == 100)%Q)
    /\ (required_total (config self) = 0%nat ->
        get_progress_percentage self = 100%Q).
Proof.
  intros self. rewrite progress_unfold. repeat split.
  - destruct (required_total (config self)); congruence.
  - intros Hall.
    assert (Heq : required_answered self = required_total (config self)).
    { unfold required_answered, required_total. f_equal.
      now apply filter_ext_in_true. }
    rewrite Heq. destruct (required_total (config self)) as [|n] eqn:E.
    + reflexivity.
    + unfold Qdiv. rewrite Qmult_inv_r; [reflexivity|].
      unfold Qeq. simpl. lia.
  - now intros ->.
Qed.

Lemma get_progress_percentage_spec_witness :
  (get_progress_percentage
     (submit_all demo_config
        [("q1.1.1", PStr "교육"); ("q2.1.1", PStr "minimal");
         ("q5.1.1", PBool false)]) == 100)%Q
  /\ get_progress_percentage
       (submit_all demo_config [("q1.1.1", PStr "교육")])
     = (inject_Z 1 / inject_Z 3 * 100)%Q
  /\ get_progress_percentage
       (init (Config.mk [] (fun _ => 0%Q))) = 100%Q.
Proof.
  split; [|split].
  - apply (proj1 (proj2 (get_progress_percentage_spec
             (submit_all demo_config
                [("q1.1.1", PStr "교육"); ("q2.1.1", PStr "minimal");
                 ("q5.1.1", PBool false)])))).
    simpl. intros q [<-|[<-|[<-|[<-|[<-|[]]]]]] H;
      try discriminate H; reflexivity.
  - apply (proj1 (get_progress_percentage_spec
             (submit_all demo_config [("q1.1.1", PStr "교육")]))).
    simpl. discriminate.
  - apply (proj2 (proj2 (get_progress_percentage_spec
             (init (Config.mk [] (fun _ => 0%Q)))))).
    reflexivity.
Defined.

(** ** Match scores *)

Lemma member_test_among ledger qid tags :
  member_test (dict_get ledger qid) tags = among ledger qid tags.
Proof.
  unfold member_test, among, answer.
  now destruct (dict_get ledger qid) as [r|].
Qed.

Lemma style_test_text ledger t :
  style_answer_is_text ledger = true ->
  style_test (dict_get ledger "q2.1.1") t = Ok (style_matches ledger t).
Proof.
  unfold style_answer_is_text, style_test, style_matches, answer.
  destruct (dict_get ledger "q2.1.1") as [r|]; simpl; auto.
  destruct (UserResponse.response r); simpl; auto; discriminate.
Qed.

Lemma style_test_not_text ledger t :
  style_answer_is_text ledger = false ->
  style_test (dict_get ledger "q2.1.1") t = Raise AttributeError.
Proof.
  unfold style_answer_is_text, style_test, answer.
  destruct (dict_get ledger "q2.1.1") as [r|]; simpl; [|discriminate].
  destruct (UserResponse.response r); simpl; auto; discriminate.
Qed.

Lemma match_score_ok self t :
  style_answer_is_text (user_responses self) = true ->
  calculate_template_match_score self t = Ok (match_score_spec self t).
Proof.
  intros H. unfold calculate_template_match_score, match_score_spec.
  rewrite (style_test_text _ _ H), !member_test_among. simpl. f_equal.
  rewrite py_min_Qmin.
  destruct (style_matches _ _), (among _ "q1.3.2" _), (among _ "q1.1.1" _),
    (among _ "q2.2.1" _); reflexivity.
Qed.

Lemma match_score_raises self t :
  style_answer_is_text (user_responses self) = false ->
  calculate_template_match_score self t = Raise AttributeError.
Proof.
  intros H. unfold calculate_template_match_score.
  now rewrite (style_test_not_text _ _ H).
Qed.

Lemma match_score_spec_range self t :
  (0 <= match_score_spec self t)%Q /\ (match_score_spec self t <= 100)%Q.
Proof.
  unfold match_score_spec.
  destruct (style_matches _ _), (among _ "q1.3.2" _), (among _ "q1.1.1" _),
    (among _ "q2.2.1" _); split; discriminate.
Qed.

(** C2, as amended. Where the style answer is missing or is a string, the
    score is 25 for a matching style, 20 for a color among the color schemes,
    30 for a goal among the suitable uses and 25 for a version among the
    compatible versions, summed and clamped at 100, and it is 100 when the
    four hold; where a style answer that is no string is recorded, the call
    raises. *)
Theorem calculate_template_match_score_spec :
  forall self t,
    let l := user_responses self in
    (style_answer_is_text l = true ->
     calculate_template_match_score self t = Ok (match_score_spec self t)
     /\ (style_matches l t = true ->
         among l "q1.3.2" (Template.color_schemes t) = true ->
         among l "q1.1.1" (Template.suitable_for t) = true ->
         among l "q2.2.1" (Template.compatible_versions t) = true ->
         calculate_template_match_score self t = Ok 100%Q))
    /\ (style_answer_is_text l = false ->
        calculate_template_match_score self t = Raise AttributeError).
Proof.
  intros self t l. split.
  - intros H. split; [now apply match_score_ok|].
    intros Hs Hc Hg Hv. rewrite (match_score_ok _ _ H).
    unfold match_score_spec. fold l. now rewrite Hs, Hc, Hg, Hv.
  - apply match_score_raises.
Qed.

Lemma calculate_template_match_score_spec_witness :
  calculate_template_match_score full_match_system template1 = Ok 100%Q
  /\ calculate_template_match_score full_match_system template2 = Ok 75%Q.
Proof.
  destruct (proj1 (calculate_template_match_score_spec full_match_system template1)
              eq_refl) as [_ H1].
  destruct (proj1 (calculate_template_match_score_spec full_match_system template2)
              eq_refl) as [H2 _].
  split; [apply H1; reflexivity | exact H2].
Defined.

(** C2, a ledger on which no score is returned: the style question answered
    with [False], as the route accepts it. *)
Lemma match_score_false_style :
  answer (user_responses false_style_system) "q2.1.1" = Some (PBool false)
  /\ calculate_template_match_score false_style_system template1
     = Raise AttributeError
  /\ calculate_template_match_score false_style_system template1
     <> Ok (match_score_spec false_style_system template1).
Proof. repeat split; try reflexivity. discriminate. Qed.

(** ** Letter case in the four tests *)

Lemma byte_val_range c : (0 <= byte_val c < 256)%Z.
Proof.
  unfold byte_val. pose proof (N_ascii_bounded c) as H. lia.
Qed.

Lemma byte_val_of z : (0 <= z < 256)%Z -> byte_val (byte_of z) = z.
Proof.
  intros H. unfold byte_val, byte_of.
  rewrite N_ascii_embedding by lia. lia.
Qed.

Lemma decode_encode_cp cp rest :
  valid_cp cp ->
  decode (encode_cp cp ++ rest) = option_map (cons cp) (decode rest).
Proof.
  unfold valid_cp, encode_cp. intros H.
  destruct (Z.ltb_spec cp 0x80).
  { cbn [append decode]. rewrite byte_val_of by lia.
    destruct (Z.ltb_spec cp 0x80); [reflexivity | lia]. }
  destruct (Z.ltb_spec cp 0x800).
  { cbn [append decode]. unfold is_cont.
    rewrite !byte_val_of by div_mod_lia.
    repeat decide_test. cbn [andb]. do 2 f_equal. div_mod_lia. }
  destruct (Z.ltb_spec cp 0x10000).
  { cbn [append decode]. unfold is_cont.
    rewrite !byte_val_of by div_mod_lia.
    repeat decide_test. cbn [andb]. do 2 f_equal. div_mod_lia. }
  cbn [append decode]. unfold is_cont.
  rewrite !byte_val_of by div_mod_lia.
  repeat decide_test. cbn [andb]. do 2 f_equal. div_mod_lia.
Qed.

Lemma decode_encode cps :
  Forall valid_cp cps -> decode (encode cps) = Some cps.
Proof.
  induction 1 as [|cp cps Hcp _ IH]; [reflexivity|].
  cbn [encode]. now rewrite decode_encode_cp, IH.
Qed.

Lemma is_cont_range b : is_cont b = true -> (0x80 <= b <= 0xBF)%Z.
Proof. unfold is_cont. intros H. apply andb_true_iff in H. lia. Qed.

Lemma decode_valid_len n :
  forall s cps,
    (String.length s <= n)%nat -> decode s = Some cps -> Forall valid_cp cps.
Proof.
  induction n as [|n IH]; intros s cps Hlen.
  - destruct s; [|simpl in Hlen; lia]. intros [= <-]. constructor.
  - destruct s as [|c0 s1]; [intros [= <-]; constructor|].
    cbn [decode]. cbv zeta. simpl in Hlen.
    pose proof (byte_val_range c0) as H0.
    destruct (Z.ltb_spec (byte_val c0) 0x80),
      (Z.leb_spec 0xC0 (byte_val c0)), (Z.ltb_spec (byte_val c0) 0xE0),
      (Z.leb_spec 0xE0 (byte_val c0)), (Z.ltb_spec (byte_val c0) 0xF0),
      (Z.leb_spec 0xF0 (byte_val c0)), (Z.ltb_spec (byte_val c0) 0xF8);
      cbn [andb]; try lia; try discriminate;
      repeat match goal with
             | |- context [match ?s with EmptyString => _ | String _ _ => _ end] =>
                 destruct s; try discriminate
             end;
      repeat match goal with
             | |- context [is_cont ?b] =>
                 let E := fresh "E" in
                 destruct (is_cont b) eqn:E;
                 [apply is_cont_range in E | discriminate]
             end;
      cbn [andb];
      match goal with
      | |- option_map _ (decode ?r) = _ -> _ =>
          let E := fresh "E" in
          destruct (decode r) as [tail|] eqn:E; [|discriminate];
          intros [= <-]; constructor; [unfold valid_cp; lia|];
          apply (IH r); auto; simpl in Hlen; lia
      end.
Qed.

Lemma decode_valid s cps : decode s = Some cps -> Forall valid_cp cps.
Proof. apply (decode_valid_len (String.length s)). lia. Qed.

Lemma lookup_lower_In table cp low :
  lookup_lower table cp = Some low ->
  exists lo hi step delta,
    In (lo, hi, step, delta) table
    /\ (lo <= cp <= hi)%Z /\ ((cp - lo) mod step = 0)%Z
    /\ low = (cp + delta)%Z.
Proof.
  induction table as [|[[[lo hi] step] delta] table IH]; [discriminate|].
  cbn [lookup_lower].
  destruct ((lo <=? cp)%Z && (cp <=? hi)%Z && ((cp - lo) mod step =? 0)%Z)
    eqn:E.
  - intros [= <-]. exists lo, hi, step, delta.
    apply andb_true_iff in E. destruct E as [E E3].
    apply andb_true_iff in E. destruct E as [E1 E2].
    repeat split; try lia. now left.
  - intros H. destruct (IH H) as (lo' & hi' & step' & delta' & Hin & Hrest).
    exists lo', hi', step', delta'. split; [now right | exact Hrest].
Qed.

Lemma lower_table_ok : forallb range_ok lower_table = true.
Proof. vm_compute. reflexivity. Qed.

Lemma lookup_lower_image cp low :
  lookup_lower lower_table cp = Some low ->
  has_lower_form low = false /\ valid_cp low.
Proof.
  intros H. apply lookup_lower_In in H.
  destruct H as (lo & hi & step & delta & Hin & Hr & Hm & ->).
  pose proof lower_table_ok as Hok. rewrite forallb_forall in Hok.
  specialize (Hok _ Hin). cbn [range_ok] in Hok.
  apply andb_true_iff in Hok. destruct Hok as [Hok Hall].
  apply andb_true_iff in Hok. destruct Hok as [Hok H3].
  apply andb_true_iff in Hok. destruct Hok as [H1 H2].
  apply Z.ltb_lt in H1, H3. apply Z.leb_le in H2.
  split; [|unfold valid_cp; lia].
  rewrite forallb_forall in Hall.
  assert (Hk : (cp - lo = step * ((cp - lo) / step))%Z).
  { rewrite (Z.div_mod (cp - lo) step) at 1 by lia. lia. }
  assert (Hk0 : (0 <= (cp - lo) / step <= (hi - lo) / step)%Z).
  { split; [apply Z.div_pos; lia | apply Z.div_le_mono; lia]. }
  specialize (Hall (Z.to_nat ((cp - lo) / step))).
  rewrite Z2Nat.id in Hall by lia.
  replace (lo + step * ((cp - lo) / step) + delta)%Z with (cp + delta)%Z
    in Hall by lia.
  apply negb_true_iff, Hall, in_seq. lia.
Qed.

Lemma lower_cp_image before cp after c :
  valid_cp cp -> In c (lower_cp before cp after) ->
  has_lower_form c = false /\ valid_cp c.
Proof.
  intros Hcp. unfold lower_cp.
  destruct (Z.eqb_spec cp 0x3A3).
  { destruct (final_sigma before after); intros [<-|[]];
      split; try reflexivity; unfold valid_cp; lia. }
  destruct (Z.eqb_spec cp 0x130).
  { intros [<-|[<-|[]]]; split; try reflexivity; unfold valid_cp; lia. }
  destruct (lookup_lower lower_table cp) as [low|] eqn:E.
  - intros [<-|[]]. now apply lookup_lower_image in E.
  - intros [<-|[]]. split; auto. unfold has_lower_form. rewrite E.
    destruct (Z.eqb_spec cp 0x3A3), (Z.eqb_spec cp 0x130); auto; contradiction.
Qed.

Lemma lower_cps_image cps :
  Forall valid_cp cps ->
  forall before c,
    In c (lower_cps before cps) -> has_lower_form c = false /\ valid_cp c.
Proof.
  induction 1 as [|cp cps Hcp _ IH]; intros before c; [intros []|].
  cbn [lower_cps]. rewrite in_app_iff. intros [H|H].
  - now apply (lower_cp_image before cp cps).
  - now apply (IH (cp :: before)).
Qed.

Lemma decode_lower s cps :
  decode s = Some cps -> decode (lower s) = Some (lower_cps [] cps).
Proof.
  intros H. unfold lower. rewrite H. apply decode_encode.
  apply Forall_forall. intros c Hc.
  now apply (lower_cps_image cps (decode_valid _ _ H) [] c).
Qed.

(** No string lowers to a text holding a code point that has a lowercase
    form. *)
Lemma lower_never_gives tag cps s :
  decode tag = Some cps ->
  existsb has_lower_form cps = true ->
  lower s <> tag.
Proof.
  intros Htag Hex Heq. apply existsb_exists in Hex.
  destruct Hex as (c & Hc & Hlow).
  destruct (decode s) as [cps_s|] eqn:Es.
  - pose proof (decode_lower _ _ Es) as Hd. rewrite Heq, Htag in Hd.
    injection Hd as ->.
    apply (lower_cps_image cps_s (decode_valid _ _ Es) []) in Hc.
    destruct Hc as [Hc _]. congruence.
  - unfold lower in Heq. rewrite Es in Heq. subst tag. congruence.
Qed.

Lemma unmatchable_never tag s : unmatchable tag = true -> lower s <> tag.
Proof.
  unfold unmatchable. destruct (decode tag) as [cps|] eqn:E; [|discriminate].
  intros H. now apply (lower_never_gives tag cps).
Qed.

Lemma existsb_matchable_tags s tags :
  existsb (String.eqb (lower s))
    (filter (fun tag => negb (unmatchable tag)) tags)
  = existsb (String.eqb (lower s)) tags.
Proof.
  induction tags as [|tag tags IH]; [reflexivity|].
  cbn [filter existsb]. destruct (unmatchable tag) eqn:E; cbn [negb existsb].
  - rewrite IH. destruct (String.eqb_spec (lower s) tag) as [Heq|]; auto.
    now apply unmatchable_never in Heq.
  - now rewrite IH.
Qed.

Lemma style_test_matchable_tags user_style t :
  style_test user_style (with_style_tags t (matchable_tags t))
  = style_test user_style t.
Proof.
  unfold style_test, with_style_tags, matchable_tags.
  cbn [Template.style_tags].
  destruct user_style as [r|]; auto.
  destruct (UserResponse.response r); auto.
  destruct (Template.style_tags t) as [tags|]; cbn [option_map get_or]; auto.
  now rewrite existsb_matchable_tags.
Qed.

Lemma existsb_In_string (s : string) (l : list string) :
  existsb (String.eqb s) l = true <-> In s l.
Proof.
  rewrite existsb_exists. split.
  - intros (x & Hx & E). apply String.eqb_eq in E. now subst.
  - intros H. exists s. split; auto. apply String.eqb_refl.
Qed.

Lemma style_matches_iff ledger t :
  style_matches ledger t = true
  <-> exists s, answer ledger "q2.1.1" = Some (PStr s)
                /\ In (lower s) (get_or (Template.style_tags t) []).
Proof.
  unfold style_matches.
  destruct (answer ledger "q2.1.1") as [[| | | |s| |]|];
    try (split; [discriminate | intros (s' & E & _); discriminate E]).
  rewrite existsb_In_string. split.
  - intros H. now exists s.
  - intros (s' & [= <-] & H). exact H.
Qed.

Lemma among_iff ledger qid tags :
  among ledger qid tags = true
  <-> exists s, answer ledger qid = Some (PStr s) /\ In s (get_or tags []).
Proof.
  unfold among.
  destruct (answer ledger qid) as [[| | | |s| |]|];
    try (split; [discriminate | intros (s' & E & _); discriminate E]).
  rewrite existsb_In_string. split.
  - intros H. now exists s.
  - intros (s' & [= <-] & H). exact H.
Qed.

(** C10, as amended. With a string as answer to q2.1.1 the call returns; a
    returned score is 25 for the style test, 20, 30 and 25 for the color,
    goal and version tests, and nothing else.  The style
    test holds exactly when the answer to q2.1.1 is a string whose lowercase
    form is, as it stands, one of the style tags; the three others hold
    exactly when the answer is a string that is, as it stands, in the list.
    No answer has a lowercase form equal to a tag that holds a letter with a
    lowercase form of its own, as every letter from A to Z has, so that the
    outcome is the same without such tags. *)
Theorem match_score_letter_case :
  forall self t,
    let l := user_responses self in
    (forall s, answer l "q2.1.1" = Some (PStr s) ->
               exists v, calculate_template_match_score self t = Ok v)
    /\ (forall v,
           calculate_template_match_score self t = Ok v ->
           exists style color goal version : bool,
             v = (points style 25 + points color 20 + points goal 30
                  + points version 25)%Q
             /\ (style = true
                 <-> exists s, answer l "q2.1.1" = Some (PStr s)
                               /\ In (lower s) (get_or (Template.style_tags t) []))
             /\ (color = true
                 <-> exists s, answer l "q1.3.2" = Some (PStr s)
                               /\ In s (get_or (Template.color_schemes t) []))
             /\ (goal = true
                 <-> exists s, answer l "q1.1.1" = Some (PStr s)
                               /\ In s (get_or (Template.suitable_for t) []))
             /\ (version = true
                 <-> exists s, answer l "q2.2.1" = Some (PStr s)
                               /\ In s (get_or (Template.compatible_versions t)
                                           [])))
    /\ (forall tag, unmatchable tag = true -> forall s, lower s <> tag)
    /\ calculate_template_match_score self
         (with_style_tags t (matchable_tags t))
       = calculate_template_match_score self t
    /\ (forall cp, (0x41 <= cp <= 0x5A)%Z -> has_lower_form cp = true).
Proof.
  intros self t l. split; [|split; [|split; [|split]]].
  - intros s Hs. exists (match_score_spec self t). apply match_score_ok.
    fold l. unfold style_answer_is_text. now rewrite Hs.
  - intros v H.
    assert (Ht : style_answer_is_text l = true).
    { destruct (style_answer_is_text l) eqn:E; auto.
      rewrite (match_score_raises _ _ E) in H. discriminate. }
    rewrite (match_score_ok _ _ Ht) in H. injection H as <-.
    exists (style_matches l t), (among l "q1.3.2" (Template.color_schemes t)),
      (among l "q1.1.1" (Template.suitable_for t)),
      (among l "q2.2.1" (Template.compatible_versions t)).
    split; [|split; [apply style_matches_iff | repeat split; apply among_iff]].
    unfold match_score_spec. fold l.
    destruct (style_matches _ _), (among _ "q1.3.2" _), (among _ "q1.1.1" _),
      (among _ "q2.2.1" _); reflexivity.
  - intros tag H s. now apply unmatchable_never.
  - unfold calculate_template_match_score.
    now rewrite style_test_matchable_tags.
  - intros cp H. unfold has_lower_form.
    destruct (Z.eqb_spec cp 0x3A3); [lia|]. destruct (Z.eqb_spec cp 0x130); [lia|].
    cbn [orb]. unfold lower_table. cbn [lookup_lower].
    destruct (Z.leb_spec 0x41 cp); [|lia]. destruct (Z.leb_spec cp 0x5a); [|lia].
    rewrite Z.mod_1_r. reflexivity.
Qed.

Lemma match_score_letter_case_witness :
  lower "minimal" <> "Minimal"
  /\ lower "café" <> "CAFÉ"
  /\ calculate_template_match_score
       (submit_all demo_config [("q2.1.1", PStr "CAFÉ")])
       (style_template ["café"])
     = Ok 25%Q.
Proof.
  destruct (match_score_letter_case
              (submit_all demo_config [("q2.1.1", PStr "CAFÉ")])
              (style_template ["café"])) as (_ & H1 & H2 & _ & _).
  split; [|split].
  - apply H2. vm_compute. reflexivity.
  - apply H2. vm_compute. reflexivity.
  - vm_compute. reflexivity.
Defined.

(** C10, a tag with an uppercase letter that an answer matches: U+03D2, the
    Greek upsilon with hook, is uppercase and has no lowercase form, so it is
    its own lowercase form. *)
Lemma uppercase_tag_matched :
  holds_uppercase "ϒ" = true
  /\ lower "ϒ" = "ϒ"
  /\ calculate_template_match_score
       (submit_all demo_config [("q2.1.1", PStr "ϒ")])
       (style_template ["ϒ"])
     = Ok 25%Q
  /\ ~ (forall tag, holds_uppercase tag = true ->
                    forall s, lower s <> tag).
Proof.
  split; [vm_compute; reflexivity|].
  split; [vm_compute; reflexivity|].
  split; [vm_compute; reflexivity|].
  intros H. refine (H "ϒ" _ "ϒ" _); vm_compute; reflexivity.
Qed.

(** ** Ranking *)

Section SortFacts.
#[local] Abbreviation score := Recommendation.match_score.
Implicit Types (x y : Recommendation.t) (l : list Recommendation.t).

Lemma desc_trans : Relations_1.Transitive desc.
Proof. intros a b c Hab Hbc. unfold desc in *. eapply Qle_trans; eauto. Qed.

Lemma insert_desc_perm x l : Permutation (insert_desc x l) (x :: l).
Proof.
  induction l as [|y l IH]; simpl; auto.
  destruct (Qle_bool (score y) (score x)); auto.
  rewrite IH. apply perm_swap.
Qed.

Lemma sort_desc_perm l : Permutation (sort_desc l) l.
Proof.
  induction l as [|x l IH]; simpl; auto.
  rewrite insert_desc_perm. now constructor.
Qed.

Lemma insert_desc_hd z x l :
  desc z x -> HdRel desc z l -> HdRel desc z (insert_desc x l).
Proof.
  intros Hzx Hl. destruct l as [|y l]; simpl.
  - now constructor.
  - destruct (Qle_bool (score y) (score x)); constructor; auto.
    now inversion Hl.
Qed.

Lemma insert_desc_sorted x l :
  Sorted desc l -> Sorted desc (insert_desc x l).
Proof.
  induction l as [|y l IH]; simpl; intros Hs.
  - repeat constructor.
  - destruct (Qle_bool (score y) (score x)) eqn:E.
    + constructor; auto. constructor. now apply Qle_bool_iff.
    + inversion Hs as [|? ? Hs' Hhd]; subst.
      constructor; auto. apply insert_desc_hd; auto.
      unfold desc. apply Qlt_le_weak, Qnot_le_lt.
      intros H. apply Qle_bool_iff in H. congruence.
Qed.

Lemma sort_desc_sorted l : StronglySorted desc (sort_desc l).
Proof.
  apply Sorted_StronglySorted; [exact desc_trans|].
  induction l as [|x l IH]; simpl.
  - constructor.
  - now apply insert_desc_sorted.
Qed.

(** Insertion goes past strictly higher scores only. *)
Lemma insert_desc_filter v x l :
  filter (score_is v) (insert_desc x l) = filter (score_is v) (x :: l).
Proof.
  induction l as [|y l IH]; auto.
  simpl insert_desc.
  destruct (Qle_bool (score y) (score x)) eqn:E; auto.
  change (filter (score_is v) (y :: insert_desc x l))
    with (if score_is v y then y :: filter (score_is v) (insert_desc x l)
          else filter (score_is v) (insert_desc x l)).
  rewrite IH. simpl.
  destruct (score_is v y) eqn:Ey; auto.
  destruct (score_is v x) eqn:Ex; auto.
  exfalso. unfold score_is in *.
  apply Qeq_bool_iff in Ey, Ex.
  assert (H : (score y <= score x)%Q) by (rewrite Ey, Ex; apply Qle_refl).
  apply Qle_bool_iff in H. congruence.
Qed.

Lemma sort_desc_stable l : stable_with (sort_desc l) l.
Proof.
  intros v. induction l as [|x l IH]; auto.
  simpl sort_desc. rewrite insert_desc_filter. simpl. now rewrite IH.
Qed.

Lemma StronglySorted_firstn n l :
  StronglySorted desc l -> StronglySorted desc (firstn n l).
Proof.
  revert l. induction n as [|n IH]; intros l Hs; simpl.
  - constructor.
  - destruct l as [|x l]; [constructor|].
    inversion Hs as [|? ? Hs' Hall]; subst.
    constructor; auto.
    rewrite Forall_forall in *. intros y Hy. apply Hall.
    rewrite <- (firstn_skipn n l). apply in_or_app. now left.
Qed.

Lemma score_is_refl x : score_is (score x) x = true.
Proof. unfold score_is. apply Qeq_bool_iff. reflexivity. Qed.

Lemma filter_In_score v x l :
  In x (filter (score_is v) l) -> In x l /\ (score x == v)%Q.
Proof.
  intros H. apply filter_In in H. destruct H as [H1 H2]. split; auto.
  now apply Qeq_bool_iff.
Qed.

(** Two descending lists that list the elements of each score in the same
    order are the same list: a stable sort has one possible result. *)
Lemma stable_sort_unique l1 :
  forall l2,
    StronglySorted desc l1 -> StronglySorted desc l2 ->
    stable_with l1 l2 -> l1 = l2.
Proof.
  induction l1 as [|x l1 IH]; intros l2 Hs1 Hs2 Hst.
  - destruct l2 as [|y l2]; auto.
    specialize (Hst (score y)). simpl in Hst.
    rewrite score_is_refl in Hst. discriminate.
  - destruct l2 as [|y l2].
    { specialize (Hst (score x)). simpl in Hst.
      rewrite score_is_refl in Hst. discriminate. }
    inversion Hs1 as [|? ? Hs1' Hall1]; subst.
    inversion Hs2 as [|? ? Hs2' Hall2]; subst.
    rewrite Forall_forall in Hall1, Hall2.
    assert (Hxy : (score x == score y)%Q).
    { apply Qle_antisym.
      - pose proof (Hst (score x)) as H. simpl in H.
        rewrite score_is_refl in H.
        assert (Hin : In x (filter (score_is (score x)) (y :: l2)))
          by (simpl; rewrite <- H; now left).
        apply filter_In_score in Hin. destruct Hin as [[<-|Hin] _].
        + apply Qle_refl.
        + now apply Hall2.
      - pose proof (Hst (score y)) as H. simpl in H.
        rewrite score_is_refl in H.
        assert (Hin : In y (filter (score_is (score y)) (x :: l1)))
          by (simpl; rewrite H; now left).
        apply filter_In_score in Hin. destruct Hin as [[<-|Hin] _].
        + apply Qle_refl.
        + now apply Hall1. }
    assert (Heq : x = y).
    { pose proof (Hst (score x)) as H. simpl in H.
      rewrite score_is_refl in H.
      assert (Ey : score_is (score x) y = true).
      { apply Qeq_bool_iff. now symmetry. }
      rewrite Ey in H. congruence. }
    subst y. f_equal. apply IH; auto.
    intros v. specialize (Hst v). simpl in Hst.
    destruct (score_is v x); congruence.
Qed.
End SortFacts.


Lemma score_templates_ok self templates :
  style_answer_is_text (user_responses self) = true \/ templates = [] ->
  score_templates self templates = Ok (scored_catalog self templates).
Proof.
  intros [H| ->]; [|reflexivity].
  induction templates as [|t ts IH]; simpl; auto.
  now rewrite (match_score_ok _ _ H), IH.
Qed.

Lemma scored_catalog_range self templates r :
  In r (scored_catalog self templates) ->
  (0 <= Recommendation.match_score r)%Q
  /\ (Recommendation.match_score r <= 100)%Q.
Proof.
  unfold scored_catalog. rewrite in_map_iff. intros (t & <- & _).
  apply match_score_spec_range.
Qed.

(** C4, as amended. Where the style answer is missing or is a string, or
    the catalog is empty, [generate_recommendations] stores the whole ranked
    list (every template of the catalog with its score) and returns its first
    ten elements; the ranked list is in descending order of score and keeps
    templates of equal score in catalog order, hence so does the returned
    list; the returned list has at most ten elements and every score is
    between 0 and 100. *)
Theorem generate_recommendations_ranked :
  forall self templates,
    style_answer_is_text (user_responses self) = true \/ templates = [] ->
    exists ranked,
      generate_recommendations self templates
      = Ok (mkSystem (config self) (user_responses self) ranked,
            firstn 10 ranked)
      /\ Permutation ranked (scored_catalog self templates)
      /\ List.length ranked = List.length templates
      /\ StronglySorted desc ranked
      /\ stable_with ranked (scored_catalog self templates)
      /\ StronglySorted desc (firstn 10 ranked)
      /\ (List.length (firstn 10 ranked) <= 10)%nat
      /\ (forall r, In r ranked ->
                    (0 <= Recommendation.match_score r)%Q
                    /\ (Recommendation.match_score r <= 100)%Q)
      /\ (forall r, In r (firstn 10 ranked) ->
                    (0 <= Recommendation.match_score r)%Q
                    /\ (Recommendation.match_score r <= 100)%Q).
Proof.
  intros self templates H.
  exists (sort_desc (scored_catalog self templates)).
  assert (Hrange : forall r,
             In r (sort_desc (scored_catalog self templates)) ->
             (0 <= Recommendation.match_score r)%Q
             /\ (Recommendation.match_score r <= 100)%Q).
  { intros r Hr. apply (scored_catalog_range self templates).
    eapply Permutation_in; [apply sort_desc_perm | exact Hr]. }
  split; [|split; [|split; [|split; [|split; [|split; [|split; [|split]]]]]]].
  - unfold generate_recommendations.
    now rewrite (score_templates_ok _ _ H).
  - apply sort_desc_perm.
  - rewrite (Permutation_length (sort_desc_perm _)).
    unfold scored_catalog. apply length_map.
  - apply sort_desc_sorted.
  - apply sort_desc_stable.
  - apply StronglySorted_firstn, sort_desc_sorted.
  - apply firstn_le_length.
  - exact Hrange.
  - intros r Hr. apply Hrange.
    rewrite <- (firstn_skipn 10 (sort_desc _)). apply in_or_app. now left.
Qed.

Lemma generate_recommendations_ranked_witness :
  exists ranked,
    generate_recommendations
      (submit_all demo_config [("q2.1.1", PStr "Creative")]) MOCK_TEMPLATES
    = Ok (mkSystem demo_config
            (user_responses (submit_all demo_config [("q2.1.1", PStr "Creative")]))
            ranked,
          firstn 10 ranked)
    /\ map Recommendation.template_name ranked
       = ["Modern Education Template"; "Minimal Beige Professional"].
Proof.
  destruct (generate_recommendations_ranked
              (submit_all demo_config [("q2.1.1", PStr "Creative")])
              MOCK_TEMPLATES (or_introl eq_refl)) as (ranked & Hgen & _).
  exists ranked. split; [exact Hgen|].
  vm_compute in Hgen. injection Hgen as Hr _. subst ranked. reflexivity.
Defined.

(** C4, a ledger and a catalog for which nothing is returned: the style
    question answered with [False]. *)
Lemma generate_recommendations_false_style :
  generate_recommendations false_style_system MOCK_TEMPLATES
  = Raise AttributeError
  /\ ~ exists out, generate_recommendations false_style_system MOCK_TEMPLATES
                   = Ok out.
Proof.
  split; [reflexivity|]. intros (out & H). discriminate H.
Qed.

(** Equal scores keep the catalog order; the higher score comes first. *)
Example ranking_of_the_catalog :
  option_map (map Recommendation.template_name)
    (match generate_recommendations (init demo_config) MOCK_TEMPLATES with
     | Ok out => Some (snd out)
     | Raise _ => None
     end)
  = Some ["Minimal Beige Professional"; "Modern Education Template"].
Proof. reflexivity. Qed.

(** ** The implementation plan *)

Lemma timeline_key_of_spec v :
  hashable v = true -> timeline_key_of v = Ok (roadmap_key_spec (Some v)).
Proof.
  unfold timeline_key_of, roadmap_key_spec. intros ->.
  destruct v; auto.
  cbv beta iota zeta delta [hashable dict_get timeline_table get_or].
  rewrite (String.eqb_sym "1일" s), (String.eqb_sym "1주" s),
    (String.eqb_sym "1개월" s).
  now destruct (String.eqb s "1일"), (String.eqb s "1주"),
    (String.eqb s "1개월").
Qed.

(** C3, as amended. Where a timeline answer is recorded, is hashable, and
    the configuration carries the roadmap table, the plan follows the roadmap
    the three-entry table names for the answer, the standard one-week roadmap
    for every other value: its steps, one resource entry and a level label.
    Where no timeline answer is recorded the plan has no steps, no resource
    entry and no level label; only its timeline label is that of one week. *)
Theorem generate_implementation_plan_spec :
  forall self,
    (forall r roadmaps,
        dict_get (user_responses self) "q5.1.1" = Some r ->
        hashable (UserResponse.response r) = true ->
        roadmaps_of (config self) = Ok roadmaps ->
        exists plan,
          generate_implementation_plan self = Ok plan
          /\ Plan.timeline plan = UserResponse.response r
          /\ plan_follows plan
               (get_or (dict_get roadmaps
                          (roadmap_key_spec (Some (UserResponse.response r))))
                       Roadmap.empty))
    /\ (dict_get (user_responses self) "q5.1.1" = None ->
        exists plan,
          generate_implementation_plan self = Ok plan
          /\ Plan.timeline plan = PStr "1주"
          /\ Plan.phases plan = PList []
          /\ Plan.resources_needed plan = []
          /\ Plan.customization_level plan = None).
Proof.
  intros self. unfold generate_implementation_plan. split.
  - intros r roadmaps Hr Hh Hc. rewrite Hr.
    rewrite (timeline_key_of_spec _ Hh), Hc. simpl.
    eexists. split; [reflexivity|]. simpl. repeat split.
  - intros ->. eexists. split; [reflexivity|]. simpl. auto.
Qed.

Lemma generate_implementation_plan_spec_witness :
  (exists plan,
      generate_implementation_plan
        (submit_all demo_config [("q5.1.1", PStr "1일")]) = Ok plan
      /\ Plan.phases plan = PList [PStr "pick"; PStr "fill"])
  /\ (exists plan,
         generate_implementation_plan
           (submit_all demo_config [("q5.1.1", PInt 3)]) = Ok plan
         /\ Plan.phases plan = PList [PStr "plan"; PStr "design"; PStr "review"])
  /\ (exists plan,
         generate_implementation_plan (init demo_config) = Ok plan
         /\ Plan.resources_needed plan = []).
Proof.
  split; [|split].
  - destruct (proj1 (generate_implementation_plan_spec
                       (submit_all demo_config [("q5.1.1", PStr "1일")]))
                _ demo_roadmaps eq_refl eq_refl eq_refl)
      as (plan & Hp & _ & Hf & _).
    exists plan. split; [exact Hp | exact Hf].
  - destruct (proj1 (generate_implementation_plan_spec
                       (submit_all demo_config [("q5.1.1", PInt 3)]))
                _ demo_roadmaps eq_refl eq_refl eq_refl)
      as (plan & Hp & _ & Hf & _).
    exists plan. split; [exact Hp | exact Hf].
  - destruct (proj2 (generate_implementation_plan_spec (init demo_config))
                eq_refl) as (plan & Hp & _ & _ & Hres & _).
    exists plan. split; [exact Hp | exact Hres].
Defined.

(** C3, no timeline answer recorded: the plan is not that of the standard
    roadmap, it has no resource entry and no level label. *)
Lemma plan_without_timeline :
  generate_implementation_plan (init demo_config)
  = Ok (Plan.mk (PStr "1주") (PStr "중급자") (PList []) [] 0 None)
  /\ ~ plan_as_stated (init demo_config).
Proof.
  split; [reflexivity|].
  intros (roadmaps & plan & _ & Hgen & _ & Hres & _).
  injection Hgen as <-. discriminate Hres.
Qed.

(** A timeline answer that is a list cannot be looked up in the table. *)
Example plan_with_list_timeline :
  generate_implementation_plan list_timeline_system = Raise TypeError.
Proof. reflexivity. Qed.

(** ** The empty ledger *)

(** With no response recorded every category score and every match score of
    the catalog is 0, and nothing is complete. *)
Example nothing_recorded :
  (forall c, calculate_profile_score (init demo_config) c = 0%Q)
  /\ map (calculate_template_match_score (init demo_config)) MOCK_TEMPLATES
     = [Ok 0%Q; Ok 0%Q]
  /\ get_progress_percentage (init demo_config) = (0 / 3 * 100)%Q.
Proof.
  split; [intros c; now destruct c | split; reflexivity].
Qed.

(** ** Questions by phase *)

(** X1. A phase number that is not between 1 and the number of phases gives
    the empty list. *)
Theorem get_questions_by_phase_out_of_range :
  forall cfg phase_id,
    (phase_id <= 0 \/ Z.of_nat (List.length (Config.workflow_phases cfg)) < phase_id)%Z ->
    get_questions_by_phase cfg phase_id = [].
Proof.
  intros cfg phase_id H. unfold get_questions_by_phase.
  destruct (Z.ltb_spec 0 phase_id); simpl; auto.
  destruct (Z.leb_spec phase_id
              (Z.of_nat (List.length (Config.workflow_phases cfg)))); auto.
  lia.
Qed.

Lemma get_questions_by_phase_out_of_range_witness :
  get_questions_by_phase demo_config 0 = []
  /\ get_questions_by_phase demo_config 6 = []
  /\ get_questions_by_phase demo_config (-1) = [].
Proof.
  split; [|split]; apply get_questions_by_phase_out_of_range; simpl; lia.
Defined.

Lemma get_questions_by_phase_nth cfg (i : nat) phase :
  nth_error (Config.workflow_phases cfg) i = Some phase ->
  get_questions_by_phase cfg (Z.of_nat (S i)) = phase_questions phase.
Proof.
  intros H. unfold get_questions_by_phase.
  assert (Hlt : (i < List.length (Config.workflow_phases cfg))%nat).
  { apply nth_error_Some. congruence. }
  destruct (Z.ltb_spec 0 (Z.of_nat (S i))); [|lia].
  destruct (Z.leb_spec (Z.of_nat (S i))
              (Z.of_nat (List.length (Config.workflow_phases cfg)))); [|lia].
  simpl andb. cbv iota.
  replace (Z.to_nat (Z.of_nat (S i) - 1)) with i by lia.
  now rewrite H.
Qed.

Lemma flat_map_phases (phases : list Phase.t) :
  forall (f : nat -> list Question.t) (k : nat),
    (forall i phase, nth_error phases i = Some phase ->
                     f (k + i)%nat = phase_questions phase) ->
    flat_map phase_questions phases
    = flat_map f (seq k (List.length phases)).
Proof.
  induction phases as [|phase phases IH]; intros f k Hf; simpl; auto.
  rewrite <- (Hf 0%nat phase eq_refl), Nat.add_0_r. f_equal.
  apply IH. intros i ph Hi. rewrite <- (Hf (S i) ph Hi). f_equal. lia.
Qed.

(** X2. The questions of phase [i] (from 1 to the number of phases) are
    those of the sections of the [i]-th phase, and the list of all questions
    is the lists of phases 1, 2, ... one after the other. *)
Theorem get_all_questions_by_phase :
  forall cfg,
    (forall i phase,
        nth_error (Config.workflow_phases cfg) i = Some phase ->
        get_questions_by_phase cfg (Z.of_nat (S i)) = phase_questions phase)
    /\ get_all_questions cfg
       = flat_map (fun i => get_questions_by_phase cfg (Z.of_nat i))
                  (seq 1 (List.length (Config.workflow_phases cfg))).
Proof.
  intros cfg. split; [apply get_questions_by_phase_nth|].
  unfold get_all_questions. fold phase_questions.
  change (flat_map (fun phase => phase_questions phase)
            (Config.workflow_phases cfg))
    with (flat_map phase_questions (Config.workflow_phases cfg)).
  apply flat_map_phases. intros i phase H.
  now apply get_questions_by_phase_nth.
Qed.

Lemma get_all_questions_by_phase_witness :
  map Question.question_id (get_questions_by_phase demo_config 2)
  = ["q2.1.1"; "q2.2.1"].
Proof.
  exact (f_equal (map Question.question_id)
           (proj1 (get_all_questions_by_phase demo_config) 1%nat
              (Phase.mk [Section_.mk [demo_question "q2.1.1" true 9;
                                      demo_question "q2.2.1" false 7] None])
              eq_refl)).
Defined.

(** ** Looking a question up *)

(** X3. [_find_question] returns a question carrying the identifier, taken
    from the list of all questions; it returns nothing exactly when no
    question carries the identifier; of several questions with one
    identifier it returns the first in document order. *)
Theorem find_question_first :
  forall cfg qid,
    (forall q, _find_question cfg qid = Some q ->
               Question.question_id q = qid /\ In q (get_all_questions cfg))
    /\ (_find_question cfg qid = None
        <-> forall q, In q (get_all_questions cfg) ->
                      Question.question_id q <> qid)
    /\ (forall before q after,
           get_all_questions cfg = before ++ q :: after ->
           Question.question_id q = qid ->
           (forall q', In q' before -> Question.question_id q' <> qid) ->
           _find_question cfg qid = Some q).
Proof.
  intros cfg qid. unfold _find_question. split; [|split].
  - intros q H. apply find_some in H. destruct H as [Hin Heq].
    split; auto. now apply String.eqb_eq.
  - split.
    + intros H q Hq Heq. apply (find_none _ _ H) in Hq.
      apply String.eqb_neq in Hq. contradiction.
    + intros H. destruct (find _ _) as [q|] eqn:E; auto.
      apply find_some in E. destruct E as [Hin Heq].
      apply String.eqb_eq in Heq. now apply H in Hin.
  - intros before q after -> Hq Hbefore.
    induction before as [|q' before IH]; simpl.
    + apply String.eqb_eq in Hq. now rewrite Hq.
    + destruct (String.eqb_spec (Question.question_id q') qid) as [E|_].
      * exfalso. apply (Hbefore q'); simpl; auto.
      * apply IH. intros q0 H0. apply Hbefore. now right.
Qed.

Lemma find_question_first_witness :
  _find_question
    (Config.mk [Phase.mk [Section_.mk [demo_question "q1.1.1" true 3] None;
                          Section_.mk [demo_question "q1.1.1" false 8] None]]
               (fun _ => 0%Q))
    "q1.1.1"
  = Some (demo_question "q1.1.1" true 3).
Proof.
  apply (proj2 (proj2 (find_question_first _ "q1.1.1")) []
           (demo_question "q1.1.1" true 3) [demo_question "q1.1.1" false 8]).
  - reflexivity.
  - reflexivity.
  - intros q' [].
Defined.

(** ** More on the ledger *)

(** X4. [submit_response] touches neither the configuration nor the stored
    recommendations nor the entry of any other identifier; an identifier
    already in the ledger keeps its place among the keys, a new one goes
    last. *)
Theorem submit_response_frame :
  forall now self qid v det,
    let self' := fst (submit_response now self qid v det) in
    config self' = config self
    /\ recommendations self' = recommendations self
    /\ (forall k, k <> qid ->
                  dict_get (user_responses self') k
                  = dict_get (user_responses self) k)
    /\ dict_keys (user_responses self')
       = if dict_mem (user_responses self) qid
         then dict_keys (user_responses self)
         else dict_keys (user_responses self) ++ [qid].
Proof.
  intros now self qid v det. simpl. repeat split.
  - intros k Hk. apply dict_get_set_other. congruence.
  - apply dict_keys_set.
Qed.

Lemma submit_response_frame_witness :
  dict_keys (user_responses
               (fst (submit_response "t" full_match_system "q2.2.1"
                       (PStr "2021") PNone)))
  = ["q2.1.1"; "q2.2.1"; "q1.1.1"; "q1.3.2"]
  /\ answer (user_responses
               (fst (submit_response "t" full_match_system "q2.2.1"
                       (PStr "2021") PNone))) "q1.1.1"
     = Some (PStr "교육").
Proof.
  destruct (submit_response_frame "t" full_match_system "q2.2.1"
              (PStr "2021") PNone) as (_ & _ & Hother & Hkeys).
  split.
  - rewrite Hkeys. reflexivity.
  - unfold answer. rewrite Hother; [reflexivity | discriminate].
Defined.

Lemma entries_keyed_set ledger qid (r : UserResponse.t) :
  UserResponse.question_id r = qid ->
  entries_keyed ledger -> entries_keyed (dict_set ledger qid r).
Proof.
  unfold entries_keyed. intros Hr.
  induction ledger as [|[k r'] ledger IH]; simpl; intros H.
  - constructor; auto.
  - inversion H as [|? ? Hk Hrest]; subst.
    destruct (String.eqb_spec k (UserResponse.question_id r)) as [->|_].
    + constructor; auto.
    + constructor; auto.
Qed.

Lemma submissions_fold cfg (subs : list (string * pyval)) :
  forall system,
    config system = cfg ->
    let system' :=
      fold_left
        (fun system s => fst (submit_response "2024-01-01T00:00:00" system
                                              (fst s) (snd s) PNone))
        subs system in
    (dict_wf (user_responses system) -> dict_wf (user_responses system'))
    /\ (entries_keyed (user_responses system) ->
        entries_keyed (user_responses system'))
    /\ (forall k, In k (dict_keys (user_responses system'))
                  <-> In k (dict_keys (user_responses system))
                      \/ In k (map fst subs)).
Proof.
  induction subs as [|[k v] subs IH]; intros system Hcfg; simpl.
  - repeat split; auto. intros [H|[]]; auto.
  - destruct (IH (fst (submit_response "2024-01-01T00:00:00" system k v PNone))
                Hcfg) as (Hwf & Hkeyed & Hkeys).
    simpl in Hwf, Hkeyed, Hkeys. split; [|split].
    + intros H. apply Hwf. now apply dict_set_wf.
    + intros H. apply Hkeyed. now apply entries_keyed_set.
    + intros k'. rewrite Hkeys, dict_keys_set.
      destruct (dict_mem (user_responses system) k) eqn:E.
      * apply dict_mem_In in E. intuition (subst; auto).
      * rewrite in_app_iff. simpl. intuition (subst; auto).
Qed.

(** X5. After any sequence of submissions to a fresh system the ledger has
    distinct keys, every entry sits under its own identifier, the keys are
    the identifiers submitted, and there is one entry per distinct
    identifier, so at most one per submission. *)
Theorem ledger_of_submissions :
  forall cfg subs,
    let ledger := user_responses (submit_all cfg subs) in
    dict_wf ledger
    /\ entries_keyed ledger
    /\ (forall k, In k (dict_keys ledger) <-> In k (map fst subs))
    /\ List.length ledger
       = List.length (nodup String.string_dec (map fst subs))
    /\ (List.length ledger <= List.length subs)%nat.
Proof.
  intros cfg subs.
  destruct (submissions_fold cfg subs (init cfg) eq_refl)
    as (Hwf & Hkeyed & Hkeys).
  fold (submit_all cfg subs) in Hwf, Hkeyed, Hkeys. simpl.
  assert (Hwf' := Hwf (init_wf cfg)).
  assert (Hk : forall k, In k (dict_keys (user_responses (submit_all cfg subs)))
                         <-> In k (map fst subs)).
  { intros k. rewrite Hkeys. simpl. tauto. }
  assert (Hlen : List.length (user_responses (submit_all cfg subs))
                 = List.length (nodup String.string_dec (map fst subs))).
  { rewrite <- (length_map fst (user_responses _)).
    apply Permutation_length, NoDup_Permutation; auto.
    - apply NoDup_nodup.
    - intros k. rewrite nodup_In. apply Hk. }
  repeat split; auto.
  - apply Hkeyed. constructor.
  - apply Hk.
  - apply Hk.
  - rewrite Hlen, <- (length_map fst subs).
    apply NoDup_incl_length; [apply NoDup_nodup|].
    intros k. now rewrite nodup_In.
Qed.

Lemma submit_all_app cfg subs1 subs2 :
  submit_all cfg (subs1 ++ subs2)
  = fold_left
      (fun system s => fst (submit_response "2024-01-01T00:00:00" system
                                            (fst s) (snd s) PNone))
      subs2 (submit_all cfg subs1).
Proof. unfold submit_all. apply fold_left_app. Qed.

Lemma submissions_keep_answer (subs : list (string * pyval)) k :
  ~ In k (map fst subs) ->
  forall system,
    dict_get (user_responses
                (fold_left
                   (fun system s =>
                      fst (submit_response "2024-01-01T00:00:00" system
                             (fst s) (snd s) PNone))
                   subs system)) k
    = dict_get (user_responses system) k.
Proof.
  induction subs as [|[k' v'] subs IH]; intros Hk system; simpl; auto.
  simpl in Hk. rewrite IH by tauto. simpl.
  apply dict_get_set_other. tauto.
Qed.

(** X6. The ledger answers with the value of the last submission made for an
    identifier, whatever was submitted before and whatever is submitted for
    other identifiers afterwards. *)
Theorem last_submission_wins :
  forall cfg earlier k v later,
    ~ In k (map fst later) ->
    answer (user_responses (submit_all cfg (earlier ++ (k, v) :: later))) k
    = Some v.
Proof.
  intros cfg earlier k v later Hk. unfold answer.
  rewrite submit_all_app. simpl.
  rewrite submissions_keep_answer by assumption. simpl.
  now rewrite dict_get_set_same.
Qed.

Lemma last_submission_wins_witness :
  answer (user_responses
            (submit_all demo_config
               [("q1.1.1", PStr "교육"); ("q2.1.1", PStr "modern");
                ("q1.1.1", PStr "발표"); ("q5.1.1", PStr "1일")])) "q1.1.1"
  = Some (PStr "발표").
Proof.
  apply (last_submission_wins demo_config
           [("q1.1.1", PStr "교육"); ("q2.1.1", PStr "modern")]
           "q1.1.1" (PStr "발표") [("q5.1.1", PStr "1일")]).
  simpl. intros [H|[]]. discriminate H.
Defined.

(** ** More on profile scores *)

Lemma contributes_same_truth cfg c (a b : string * UserResponse.t) :
  fst a = fst b ->
  truthy (UserResponse.response (snd a))
  = truthy (UserResponse.response (snd b)) ->
  contributes cfg c a = contributes cfg c b.
Proof.
  intros Hk Ht. unfold contributes, qualifies. now rewrite Hk, Ht.
Qed.

Lemma contribution_same_key cfg (a b : string * UserResponse.t) :
  fst a = fst b -> contribution cfg a = contribution cfg b.
Proof. intros Hk. unfold contribution. now rewrite Hk. Qed.

Lemma same_truth_contributions cfg c l1 l2 :
  same_truth l1 l2 ->
  map (contribution cfg) (filter (contributes cfg c) l1)
  = map (contribution cfg) (filter (contributes cfg c) l2).
Proof.
  induction 1 as [|a b l1 l2 [Hk Ht] _ IH]; auto.
  cbn [filter]. rewrite (contributes_same_truth cfg c a b Hk Ht).
  destruct (contributes cfg c b); auto.
  cbn [map]. now rewrite IH, (contribution_same_key cfg a b Hk).
Qed.

Lemma same_truth_refl l : same_truth l l.
Proof. induction l; constructor; auto. Qed.

Lemma same_truth_set l k r1 r2 :
  truthy (UserResponse.response r1) = truthy (UserResponse.response r2) ->
  same_truth (dict_set l k r1) (dict_set l k r2).
Proof.
  intros H. induction l as [|[k' r'] l IH]; simpl.
  - repeat constructor; auto.
  - destruct (String.eqb k' k).
    + constructor; [auto | apply same_truth_refl].
    + constructor; auto.
Qed.

(** X7. The profile score does not read what an answer says, only whether
    it is truthy: two submissions for one identifier whose values have the
    same truth value lead to the same score in every category. *)
Theorem profile_score_reads_truth_only :
  forall now1 now2 self qid v1 v2 det1 det2 c,
    truthy v1 = truthy v2 ->
    calculate_profile_score (fst (submit_response now1 self qid v1 det1)) c
    = calculate_profile_score (fst (submit_response now2 self qid v2 det2)) c.
Proof.
  intros now1 now2 self qid v1 v2 det1 det2 c H.
  rewrite !calculate_profile_score_eq. unfold profile_score_spec. simpl.
  rewrite (same_truth_contributions (config self) c _ _
             (same_truth_set (user_responses self) qid
                (UserResponse.mk qid v1 det1 now1)
                (UserResponse.mk qid v2 det2 now2) H)).
  reflexivity.
Qed.

Lemma profile_score_reads_truth_only_witness :
  calculate_profile_score
    (fst (submit_response "t1" (init demo_config) "q1.1.1" (PStr "교육") PNone))
    content_goals
  = calculate_profile_score
      (fst (submit_response "t2" (init demo_config) "q1.1.1" (PInt 7)
              (PStr "memo")))
      content_goals.
Proof.
  apply profile_score_reads_truth_only. reflexivity.
Defined.

Lemma filter_set_silent cfg c l k (r : UserResponse.t) :
  (forall r', contributes cfg c (k, r') = false) ->
  filter (contributes cfg c) (dict_set l k r) = filter (contributes cfg c) l.
Proof.
  intros H. induction l as [|[k' r'] l IH]; cbn [dict_set filter].
  - now rewrite H.
  - destruct (String.eqb_spec k' k) as [->|_]; cbn [filter].
    + now rewrite !H.
    + now rewrite IH.
Qed.

(** X8. An answer can move the score of one category only, the one the
    table gives for the prefix of its identifier: a submission leaves the
    score of every other category as it was, and leaves all six as they were
    when its identifier is not that of a configured question. *)
Theorem profile_score_other_categories :
  forall now self qid v det c,
    dict_get category_mapping (prefix_of qid) <> Some c
    \/ _find_question (config self) qid = None ->
    calculate_profile_score (fst (submit_response now self qid v det)) c
    = calculate_profile_score self c.
Proof.
  intros now self qid v det c H.
  rewrite !calculate_profile_score_eq. unfold profile_score_spec. simpl.
  rewrite filter_set_silent; auto.
  intros r'. unfold contributes, qualifies, is_configured. cbn [fst snd].
  destruct H as [H|H].
  - destruct (dict_get category_mapping (prefix_of qid)) as [c'|].
    + destruct (Category_eqb c' c) eqn:E.
      * exfalso. apply H. f_equal. now destruct c', c.
      * now rewrite andb_false_r.
    + now rewrite andb_false_r.
  - rewrite H. apply andb_false_r.
Qed.

Lemma profile_score_other_categories_witness :
  calculate_profile_score
    (fst (submit_response "t" full_match_system "q5.1.1" (PStr "1주") PNone))
    content_goals
  = calculate_profile_score full_match_system content_goals.
Proof.
  apply profile_score_other_categories. left. discriminate.
Defined.

Lemma fold_Qplus_acc (l : list Q) :
  forall a b, (a <= b)%Q -> (fold_left Qplus l a <= fold_left Qplus l b)%Q.
Proof.
  induction l as [|x l IH]; intros a b H; simpl; auto.
  apply IH. apply Qplus_le_compat; [exact H | apply Qle_refl].
Qed.

Lemma fold_value_for cfg c l :
  forall a,
    (fold_left Qplus (map (contribution cfg) (filter (contributes cfg c) l)) a
     == fold_left Qplus (map (value_for cfg c) l) a)%Q.
Proof.
  induction l as [|item l IH]; intros a; cbn [filter map fold_left];
    [reflexivity|].
  unfold value_for at 2.
  destruct (contributes cfg c item); cbn [map fold_left]; [apply IH|].
  rewrite IH. apply Qle_antisym; apply fold_Qplus_acc;
    rewrite Qplus_0_r; apply Qle_refl.
Qed.

Lemma value_for_nonneg cfg c item :
  (forall q, In q (get_all_questions cfg) -> (0 <= Question.weight q)%Z) ->
  (0 <= value_for cfg c item)%Q.
Proof.
  intros Hw. unfold value_for.
  destruct (contributes cfg c item); [|apply Qle_refl].
  now apply contribution_nonneg.
Qed.

Lemma value_for_truthy cfg c k (r r' : UserResponse.t) :
  (forall q, In q (get_all_questions cfg) -> (0 <= Question.weight q)%Z) ->
  truthy (UserResponse.response r) = true ->
  (value_for cfg c (k, r') <= value_for cfg c (k, r))%Q.
Proof.
  intros Hw Ht. unfold value_for, contributes, qualifies. cbn [fst snd].
  rewrite Ht. rewrite (contribution_same_key cfg (k, r') (k, r) eq_refl).
  destruct (truthy (UserResponse.response r')); cbn [andb].
  - apply Qle_refl.
  - destruct (_ && _); [|apply Qle_refl].
    now apply (contribution_nonneg cfg (k, r)).
Qed.

Lemma fold_value_for_set cfg c l k (r : UserResponse.t) :
  (forall q, In q (get_all_questions cfg) -> (0 <= Question.weight q)%Z) ->
  truthy (UserResponse.response r) = true ->
  forall a b,
    (a <= b)%Q ->
    (fold_left Qplus (map (value_for cfg c) l) a
     <= fold_left Qplus (map (value_for cfg c) (dict_set l k r)) b)%Q.
Proof.
  intros Hw Ht. induction l as [|[k' r'] l IH]; intros a b Hab;
    cbn [dict_set map fold_left].
  - rewrite <- (Qplus_0_r a). apply Qplus_le_compat; auto.
    now apply value_for_nonneg.
  - destruct (String.eqb_spec k' k) as [->|_]; cbn [map fold_left].
    + apply fold_Qplus_acc. apply Qplus_le_compat; auto.
      now apply value_for_truthy.
    + apply IH. apply Qplus_le_compat; [exact Hab | apply Qle_refl].
Qed.

(** X9. With non-negative question weights, recording a truthy answer never
    lowers the score of any category, whether the identifier is new or
    already answered. *)
Theorem profile_score_monotone :
  forall now self qid v det c,
    (forall q, In q (get_all_questions (config self)) ->
               (0 <= Question.weight q)%Z) ->
    truthy v = true ->
    (calculate_profile_score self c
     <= calculate_profile_score (fst (submit_response now self qid v det)) c)%Q.
Proof.
  intros now self qid v det c Hw Ht.
  rewrite !calculate_profile_score_eq. unfold profile_score_spec, sum_Q. simpl.
  apply Q.min_le_compat_r.
  apply Qmult_le_compat_r; [|discriminate].
  rewrite !fold_value_for.
  apply fold_value_for_set; auto. apply Qle_refl.
Qed.

Lemma profile_score_monotone_witness :
  (calculate_profile_score (init demo_config) design_preferences
   <= calculate_profile_score
        (fst (submit_response "t" (init demo_config) "q2.1.1"
                (PStr "minimal") PNone))
        design_preferences)%Q.
Proof.
  apply profile_score_monotone.
  - simpl. intros q [<-|[<-|[<-|[<-|[<-|[]]]]]]; simpl; lia.
  - reflexivity.
Defined.

(** ** More on match scores *)

Lemma match_score_Ok_text self t v :
  calculate_template_match_score self t = Ok v ->
  style_answer_is_text (user_responses self) = true.
Proof.
  intros H. destruct (style_answer_is_text (user_responses self)) eqn:E; auto.
  rewrite (match_score_raises _ _ E) in H. discriminate.
Qed.

(** X10. A returned match score is the plain sum of the points of the
    satisfied tests, the cap at 100 never cutting anything; it is 100 exactly
    when the four tests are satisfied and 0 exactly when none is. *)
Theorem match_score_values :
  forall self t v,
    calculate_template_match_score self t = Ok v ->
    let l := user_responses self in
    let s := style_matches l t in
    let c := among l "q1.3.2" (Template.color_schemes t) in
    let g := among l "q1.1.1" (Template.suitable_for t) in
    let ver := among l "q2.2.1" (Template.compatible_versions t) in
    v = (points s 25 + points c 20 + points g 30 + points ver 25)%Q
    /\ ((v == 100)%Q <-> s = true /\ c = true /\ g = true /\ ver = true)
    /\ ((v == 0)%Q <-> s = false /\ c = false /\ g = false /\ ver = false).
Proof.
  intros self t v H. pose proof (match_score_Ok_text _ _ _ H) as Ht.
  rewrite (match_score_ok _ _ Ht) in H. injection H as <-.
  unfold match_score_spec. cbv zeta.
  destruct (style_matches _ _), (among _ "q1.3.2" _), (among _ "q1.1.1" _),
    (among _ "q2.2.1" _);
    (split; [reflexivity|]);
    split; split; try (intros; reflexivity); try (intros E; discriminate E);
    try (intros (E1 & E2 & E3 & E4); discriminate);
    try (intros; repeat split; reflexivity).
Qed.

Lemma match_score_values_witness :
  (75 == 100)%Q
  <-> style_matches (user_responses full_match_system) template2 = true
      /\ among (user_responses full_match_system) "q1.3.2"
           (Template.color_schemes template2) = true
      /\ among (user_responses full_match_system) "q1.1.1"
           (Template.suitable_for template2) = true
      /\ among (user_responses full_match_system) "q2.2.1"
           (Template.compatible_versions template2) = true.
Proof.
  exact (proj1 (proj2 (match_score_values full_match_system template2 75%Q
                         eq_refl))).
Defined.

(** X12. While none of the four questions is answered, every template
    scores 0, whatever else the ledger holds. *)
Theorem match_score_unanswered :
  forall self,
    (forall k, In k match_questions -> dict_get (user_responses self) k = None) ->
    forall t, calculate_template_match_score self t = Ok 0%Q.
Proof.
  intros self H t. unfold calculate_template_match_score.
  rewrite (H "q2.1.1"), (H "q1.3.2"), (H "q1.1.1"), (H "q2.2.1");
    simpl; auto 6.
Qed.

Lemma match_score_unanswered_witness :
  calculate_template_match_score
    (submit_all demo_config [("q5.1.1", PStr "1주"); ("q1.2.1", PBool true)])
    template1
  = Ok 0%Q.
Proof.
  apply match_score_unanswered.
  intros k [<-|[<-|[<-|[<-|[]]]]]; reflexivity.
Defined.

(** ** More on recommendations *)

Lemma match_score_ledger_only s1 s2 t :
  user_responses s1 = user_responses s2 ->
  calculate_template_match_score s1 t = calculate_template_match_score s2 t.
Proof.
  intros H. unfold calculate_template_match_score. now rewrite H.
Qed.

Lemma score_templates_ledger_only s1 s2 templates :
  user_responses s1 = user_responses s2 ->
  score_templates s1 templates = score_templates s2 templates.
Proof.
  intros H. induction templates as [|t ts IH]; cbn [score_templates]; auto.
  now rewrite (match_score_ledger_only s1 s2 t H), IH.
Qed.

Lemma score_templates_Ok self templates :
  forall scored,
    score_templates self templates = Ok scored ->
    List.length scored = List.length templates
    /\ forall t, In t templates ->
                 exists v, calculate_template_match_score self t = Ok v
                           /\ In (make_recommendation t v) scored.
Proof.
  induction templates as [|t ts IH]; cbn [score_templates]; intros scored H.
  - injection H as <-. split; [reflexivity | intros t []].
  - destruct (calculate_template_match_score self t) as [v|e] eqn:Ev;
      [|discriminate].
    cbn [bind] in H.
    destruct (score_templates self ts) as [rest|e] eqn:Er; [|discriminate].
    cbn [bind] in H. injection H as <-.
    destruct (IH rest eq_refl) as [Hlen Hin]. split.
    + simpl. now rewrite Hlen.
    + intros t' [<-|Ht'].
      * exists v. split; [exact Ev | now left].
      * destruct (Hin t' Ht') as (v' & Hv' & Hin').
        exists v'. split; [exact Hv' | now right].
Qed.

Lemma generate_recommendations_Ok self templates out :
  generate_recommendations self templates = Ok out ->
  exists scored,
    score_templates self templates = Ok scored
    /\ fst out = mkSystem (config self) (user_responses self) (sort_desc scored)
    /\ snd out = firstn 10 (sort_desc scored).
Proof.
  unfold generate_recommendations.
  destruct (score_templates self templates) as [scored|e]; [|discriminate].
  cbn [bind]. intros H. exists scored.
  assert (E : out = (mkSystem (config self) (user_responses self)
                       (sort_desc scored), firstn 10 (sort_desc scored)))
    by congruence.
  now rewrite E.
Qed.

(** X13. A call that returns gives the first [min 10 n] elements of the list
    it stores, for a catalog of [n] templates. *)
Theorem generate_recommendations_length :
  forall self templates self' returned,
    generate_recommendations self templates = Ok (self', returned) ->
    returned = firstn 10 (recommendations self')
    /\ List.length returned = Nat.min 10 (List.length templates).
Proof.
  intros self templates self' returned H.
  apply generate_recommendations_Ok in H.
  destruct H as (scored & Hs & Hfst & Hsnd). cbn [fst snd] in Hfst, Hsnd.
  subst self' returned. cbn [recommendations].
  split; [reflexivity|].
  rewrite length_firstn, (Permutation_length (sort_desc_perm scored)).
  now rewrite (proj1 (score_templates_Ok _ _ _ Hs)).
Qed.

Lemma generate_recommendations_length_witness :
  List.length
    (firstn 10 (sort_desc (scored_catalog full_match_system MOCK_TEMPLATES)))
  = 2%nat.
Proof.
  exact (proj2 (generate_recommendations_length full_match_system
                  MOCK_TEMPLATES
                  (mkSystem demo_config (user_responses full_match_system)
                     (sort_desc (scored_catalog full_match_system
                                   MOCK_TEMPLATES)))
                  (firstn 10 (sort_desc (scored_catalog full_match_system
                                           MOCK_TEMPLATES)))
                  eq_refl)).
Defined.

(** X14. The stored list of an earlier call has no influence: calling again
    on the system the call left, with the same catalog, returns the same list
    and leaves the system as it is. *)
Theorem generate_recommendations_again :
  forall self templates self' returned,
    generate_recommendations self templates = Ok (self', returned) ->
    generate_recommendations self' templates = Ok (self', returned).
Proof.
  intros self templates self' returned H.
  apply generate_recommendations_Ok in H.
  destruct H as (scored & Hs & Hfst & Hsnd). cbn [fst snd] in Hfst, Hsnd.
  subst self' returned.
  unfold generate_recommendations.
  rewrite (score_templates_ledger_only
             (mkSystem (config self) (user_responses self) (sort_desc scored))
             self templates eq_refl), Hs.
  reflexivity.
Qed.

Lemma generate_recommendations_again_witness :
  let ranked := sort_desc (scored_catalog full_match_system MOCK_TEMPLATES) in
  generate_recommendations
    (mkSystem demo_config (user_responses full_match_system) ranked)
    MOCK_TEMPLATES
  = Ok (mkSystem demo_config (user_responses full_match_system) ranked,
        firstn 10 ranked).
Proof.
  exact (generate_recommendations_again full_match_system MOCK_TEMPLATES
           (mkSystem demo_config (user_responses full_match_system)
              (sort_desc (scored_catalog full_match_system MOCK_TEMPLATES)))
           (firstn 10 (sort_desc (scored_catalog full_match_system
                                    MOCK_TEMPLATES)))
           eq_refl).
Defined.

(** X15. The first returned recommendation has a score no template of the
    catalog exceeds. *)
Theorem generate_recommendations_best_first :
  forall self templates self' best others,
    generate_recommendations self templates = Ok (self', best :: others) ->
    forall t v,
      In t templates ->
      calculate_template_match_score self t = Ok v ->
      (v <= Recommendation.match_score best)%Q.
Proof.
  intros self templates self' best others H t v Ht Hv.
  apply generate_recommendations_Ok in H.
  destruct H as (scored & Hs & _ & Hfirst). cbn [fst snd] in Hfirst.
  destruct (proj2 (score_templates_Ok _ _ _ Hs) t Ht) as (v' & Hv' & Hin).
  rewrite Hv in Hv'. injection Hv' as <-.
  apply (Permutation_in _ (Permutation_sym (sort_desc_perm scored))) in Hin.
  pose proof (sort_desc_sorted scored) as Hsorted.
  destruct (sort_desc scored) as [|x rest]; [discriminate|].
  cbn [firstn] in Hfirst. injection Hfirst as -> _.
  inversion Hsorted as [|? ? _ Hall]; subst.
  destruct Hin as [E|Hin].
  - rewrite E. apply Qle_refl.
  - rewrite Forall_forall in Hall. exact (Hall _ Hin).
Qed.

Lemma generate_recommendations_best_first_witness :
  (75 <= Recommendation.match_score (make_recommendation template1 100))%Q.
Proof.
  apply (generate_recommendations_best_first full_match_system MOCK_TEMPLATES
           (mkSystem demo_config (user_responses full_match_system)
              (sort_desc (scored_catalog full_match_system MOCK_TEMPLATES)))
           (make_recommendation template1 100)
           [make_recommendation template2 75]
           eq_refl template2 75).
  - simpl. auto.
  - reflexivity.
Defined.

Lemma sort_desc_sorted_id l : StronglySorted desc l -> sort_desc l = l.
Proof.
  intros H. apply stable_sort_unique; auto.
  - apply sort_desc_sorted.
  - apply sort_desc_stable.
Qed.

(** X16. A catalog whose scores already descend is ranked in catalog
    order. *)
Theorem generate_recommendations_ranked_catalog :
  forall self templates,
    style_answer_is_text (user_responses self) = true ->
    StronglySorted desc (scored_catalog self templates) ->
    generate_recommendations self templates
    = Ok (mkSystem (config self) (user_responses self)
            (scored_catalog self templates),
          firstn 10 (scored_catalog self templates)).
Proof.
  intros self templates Ht Hs. unfold generate_recommendations.
  rewrite (score_templates_ok _ _ (or_introl Ht)). cbn [bind].
  now rewrite (sort_desc_sorted_id _ Hs).
Qed.

Lemma generate_recommendations_ranked_catalog_witness :
  generate_recommendations full_match_system MOCK_TEMPLATES
  = Ok (mkSystem demo_config (user_responses full_match_system)
          (scored_catalog full_match_system MOCK_TEMPLATES),
        firstn 10 (scored_catalog full_match_system MOCK_TEMPLATES)).
Proof.
  apply (generate_recommendations_ranked_catalog full_match_system
           MOCK_TEMPLATES eq_refl).
  repeat constructor. vm_compute. discriminate.
Defined.

(** ** More on the plan *)

Lemma plan_unhashable self r :
  dict_get (user_responses self) "q5.1.1" = Some r ->
  hashable (UserResponse.response r) = false ->
  generate_implementation_plan self = Raise TypeError.
Proof.
  intros Hr Hh. unfold generate_implementation_plan.
  rewrite Hr. unfold timeline_key_of. now rewrite Hh.
Qed.

Lemma plan_config_error self r e :
  dict_get (user_responses self) "q5.1.1" = Some r ->
  hashable (UserResponse.response r) = true ->
  roadmaps_of (config self) = Raise e ->
  generate_implementation_plan self = Raise e.
Proof.
  intros Hr Hh He. unfold generate_implementation_plan.
  rewrite Hr, (timeline_key_of_spec _ Hh), He. reflexivity.
Qed.

Lemma plan_raise_inv self e :
  generate_implementation_plan self = Raise e ->
  exists r,
    dict_get (user_responses self) "q5.1.1" = Some r
    /\ (hashable (UserResponse.response r) = false /\ e = TypeError
        \/ hashable (UserResponse.response r) = true
           /\ roadmaps_of (config self) = Raise e).
Proof.
  unfold generate_implementation_plan. intros H.
  destruct (dict_get (user_responses self) "q5.1.1") as [r|];
    [|discriminate].
  exists r. split; auto.
  destruct (hashable (UserResponse.response r)) eqn:Hh.
  - right. split; auto.
    rewrite (timeline_key_of_spec _ Hh) in H. cbn [bind] in H.
    destruct (roadmaps_of (config self)) as [roadmaps|e']; [discriminate|].
    cbn [bind] in H. congruence.
  - left. split; auto.
    unfold timeline_key_of in H. rewrite Hh in H. cbn [bind] in H.
    congruence.
Qed.

(** X17. The plan call fails only with a timeline answer recorded: with
    [TypeError] when the answer is a list or an object, whatever the
    configuration, and otherwise with the error of the configuration lookup
    when the configuration does not carry the roadmap table. *)
Theorem generate_implementation_plan_errors :
  forall self,
    (forall r,
        dict_get (user_responses self) "q5.1.1" = Some r ->
        hashable (UserResponse.response r) = false ->
        generate_implementation_plan self = Raise TypeError)
    /\ (forall r e,
           dict_get (user_responses self) "q5.1.1" = Some r ->
           hashable (UserResponse.response r) = true ->
           roadmaps_of (config self) = Raise e ->
           generate_implementation_plan self = Raise e)
    /\ (forall e,
           generate_implementation_plan self = Raise e ->
           exists r,
             dict_get (user_responses self) "q5.1.1" = Some r
             /\ (hashable (UserResponse.response r) = false /\ e = TypeError
                 \/ hashable (UserResponse.response r) = true
                    /\ roadmaps_of (config self) = Raise e)).
Proof.
  intros self. split; [|split].
  - apply plan_unhashable.
  - apply plan_config_error.
  - apply plan_raise_inv.
Qed.

Lemma generate_implementation_plan_errors_witness :
  generate_implementation_plan list_timeline_system = Raise TypeError
  /\ generate_implementation_plan
       (fst (submit_response "t" (init (Config.mk [] (fun _ => 0%Q)))
               "q5.1.1" (PStr "1일") PNone))
     = Raise IndexError.
Proof.
  split.
  - apply (proj1 (generate_implementation_plan_errors list_timeline_system)
             (UserResponse.mk "q5.1.1" (PList [PStr "1일"]) PNone
                "2024-01-01T00:00:00"));
      reflexivity.
  - apply (proj1 (proj2 (generate_implementation_plan_errors _))
             (UserResponse.mk "q5.1.1" (PStr "1일") PNone "t"));
      reflexivity.
Defined.

(** X18. The answer to the experience question [q5.1.2] reaches the plan as
    its experience label and nothing else: a submission for it changes the
    outcome of the plan call in that label only, and a failing call keeps
    failing with the same error. *)
Theorem generate_implementation_plan_experience :
  forall now self v det,
    generate_implementation_plan
      (fst (submit_response now self "q5.1.2" v det))
    = map_result (fun plan => with_experience_level plan v)
        (generate_implementation_plan self).
Proof.
  intros now self v det. unfold generate_implementation_plan.
  cbn [submit_response fst user_responses config].
  rewrite dict_get_set_same.
  rewrite (dict_get_set_other _ "q5.1.2" "q5.1.1") by discriminate.
  destruct (dict_get (user_responses self) "q5.1.1") as [r|];
    [|reflexivity].
  destruct (timeline_key_of (UserResponse.response r)); [|reflexivity].
  cbn [bind]. now destruct (roadmaps_of (config self)).
Qed.

(** ** More on progress *)

Lemma filter_length_le {A : Type} (p p' : A -> bool) (l : list A) :
  (forall x, In x l -> p x = true -> p' x = true) ->
  (List.length (filter p l) <= List.length (filter p' l))%nat.
Proof.
  induction l as [|x l IH]; intros H; simpl; auto.
  assert (IH' := IH (fun y Hy => H y (or_intror Hy))).
  destruct (p x) eqn:Ep.
  - rewrite (H x (or_introl eq_refl) Ep). simpl. lia.
  - destruct (p' x); simpl; lia.
Qed.

Lemma filter_length_lt {A : Type} (p p' : A -> bool) (l : list A) x :
  (forall y, In y l -> p y = true -> p' y = true) ->
  In x l -> p x = false -> p' x = true ->
  (List.length (filter p l) < List.length (filter p' l))%nat.
Proof.
  induction l as [|y l IH]; intros H Hin Hp Hp'; [destruct Hin|].
  simpl. assert (Hle := filter_length_le p p' l (fun z Hz => H z (or_intror Hz))).
  destruct Hin as [->|Hin].
  - rewrite Hp, Hp'. simpl. lia.
  - assert (IH' := IH (fun z Hz => H z (or_intror Hz)) Hin Hp Hp').
    destruct (p y) eqn:Ep.
    + rewrite (H y (or_introl eq_refl) Ep). simpl. lia.
    + destruct (p' y); simpl; lia.
Qed.

Lemma filter_length_all {A : Type} (r p : A -> bool) (l : list A) :
  List.length (filter (fun x => r x && p x) l) = List.length (filter r l) ->
  forall x, In x l -> r x = true -> p x = true.
Proof.
  induction l as [|y l IH]; intros H x Hin Hr; [destruct Hin|].
  assert (Hle : (List.length (filter (fun x => r x && p x) l)
                 <= List.length (filter r l))%nat).
  { apply filter_length_le. intros z _ Hz.
    now apply andb_true_iff in Hz. }
  simpl in H. destruct (r y) eqn:Er; simpl in H.
  - destruct (p y) eqn:Ep; simpl in H.
    + destruct Hin as [->|Hin]; auto.
    + lia.
  - destruct Hin as [->|Hin]; [congruence|]. now apply IH.
Qed.

Lemma required_answered_le self :
  (required_answered self <= required_total (config self))%nat.
Proof.
  unfold required_answered, required_total. apply filter_length_le.
  intros q _ H. now apply andb_true_iff in H.
Qed.

Lemma percentage_le (a b n : nat) :
  (a <= b)%nat ->
  (inject_Z (Z.of_nat a) / inject_Z (Z.of_nat (S n)) * 100
   <= inject_Z (Z.of_nat b) / inject_Z (Z.of_nat (S n)) * 100)%Q.
Proof.
  intros H. apply Qmult_le_compat_r; [|discriminate].
  unfold Qdiv. apply Qmult_le_compat_r.
  - rewrite <- Zle_Qle. lia.
  - apply Qinv_le_0_compat. unfold Qle. simpl. lia.
Qed.

Lemma percentage_lt (a b n : nat) :
  (a < b)%nat ->
  (inject_Z (Z.of_nat a) / inject_Z (Z.of_nat (S n)) * 100
   < inject_Z (Z.of_nat b) / inject_Z (Z.of_nat (S n)) * 100)%Q.
Proof.
  intros H. unfold Qlt, Qdiv, Qmult, Qinv, inject_Z. simpl.
  nia.
Qed.

Lemma percentage_full (n : nat) :
  (inject_Z (Z.of_nat (S n)) / inject_Z (Z.of_nat (S n)) * 100 == 100)%Q.
Proof.
  unfold Qdiv. rewrite Qmult_inv_r; [reflexivity|].
  unfold Qeq. simpl. lia.
Qed.

(** X19. The progress is a percentage: between 0 and 100. *)
Theorem get_progress_percentage_range :
  forall self,
    (0 <= get_progress_percentage self)%Q
    /\ (get_progress_percentage self <= 100)%Q.
Proof.
  intros self. rewrite progress_unfold.
  pose proof (required_answered_le self) as Hle.
  destruct (required_total (config self)) as [|n]; [split; discriminate|].
  split.
  - apply Qmult_le_0_compat; [|discriminate].
    unfold Qdiv. apply Qmult_le_0_compat.
    + unfold Qle. simpl. lia.
    + apply Qinv_le_0_compat. unfold Qle. simpl. lia.
  - eapply Qle_trans; [apply percentage_le, Hle|].
    rewrite percentage_full. apply Qle_refl.
Qed.

Lemma dict_mem_set {V : Type} (d : dict V) k v k' :
  dict_mem d k' = true -> dict_mem (dict_set d k v) k' = true.
Proof.
  unfold dict_mem. destruct (String.eqb_spec k k') as [->|Hne].
  - now rewrite dict_get_set_same.
  - now rewrite dict_get_set_other.
Qed.

(** X20. A submission never lowers the progress, and it raises it when it
    answers a required question that had no entry, even with a falsy
    value. *)
Theorem get_progress_percentage_monotone :
  forall now self qid v det,
    let self' := fst (submit_response now self qid v det) in
    (get_progress_percentage self <= get_progress_percentage self')%Q
    /\ (forall q,
           In q (get_all_questions (config self)) ->
           Question.required q = true ->
           Question.question_id q = qid ->
           dict_mem (user_responses self) qid = false ->
           (get_progress_percentage self < get_progress_percentage self')%Q).
Proof.
  intros now self qid v det self'.
  rewrite !progress_unfold. subst self'.
  cbn [submit_response fst config]. unfold required_answered.
  cbn [config user_responses].
  destruct (required_total (config self)) as [|n] eqn:En.
  - split; [apply Qle_refl|].
    intros q Hin Hr _ _. exfalso.
    unfold required_total in En.
    assert (Hq : In q (filter Question.required
                         (get_all_questions (config self))))
      by (apply filter_In; auto).
    destruct (filter _ _); [destruct Hq | discriminate].
  - split.
    + apply percentage_le, filter_length_le.
      intros q _ H. apply andb_true_iff in H. destruct H as [Hr Hm].
      rewrite Hr. simpl. now apply dict_mem_set.
    + intros q Hin Hr Hid Hm.
      apply percentage_lt, (filter_length_lt _ _ _ q); auto.
      * intros q' _ H. apply andb_true_iff in H. destruct H as [Hr' Hm'].
        rewrite Hr'. simpl. now apply dict_mem_set.
      * rewrite Hr, Hid, Hm. reflexivity.
      * rewrite Hr, Hid. unfold dict_mem. now rewrite dict_get_set_same.
Qed.

Lemma get_progress_percentage_monotone_witness :
  (get_progress_percentage (init demo_config)
   < get_progress_percentage
       (fst (submit_response "t" (init demo_config) "q2.1.1" (PBool false)
               PNone)))%Q.
Proof.
  apply (proj2 (get_progress_percentage_monotone "t" (init demo_config)
                  "q2.1.1" (PBool false) PNone)
           (demo_question "q2.1.1" true 9)).
  - simpl. auto.
  - reflexivity.
  - reflexivity.
  - reflexivity.
Defined.

(** X21. The progress is 100 only when every required question has an
    entry in the ledger. *)
Theorem get_progress_percentage_complete :
  forall self,
    (get_progress_percentage self == 100)%Q ->
    forall q,
      In q (get_all_questions (config self)) ->
      Question.required q = true ->
      dict_mem (user_responses self) (Question.question_id q) = true.
Proof.
  intros self H. rewrite progress_unfold in H.
  pose proof (required_answered_le self) as Hle.
  unfold required_answered, required_total in *.
  apply (filter_length_all Question.required
           (fun q => dict_mem (user_responses self) (Question.question_id q))).
  destruct (List.length (filter Question.required _)) as [|n] eqn:En.
  - lia.
  - apply Nat.le_antisymm; auto.
    apply Nat.nlt_ge. intros Hlt.
    apply (percentage_lt _ _ n) in Hlt.
    rewrite H, percentage_full in Hlt. now apply Qlt_irrefl in Hlt.
Qed.

Lemma get_progress_percentage_complete_witness :
  dict_mem
    (user_responses
       (submit_all demo_config
          [("q1.1.1", PStr "교육"); ("q2.1.1", PStr "minimal");
           ("q5.1.1", PBool false)])) "q5.1.1"
  = true.
Proof.
  apply (get_progress_percentage_complete
           (submit_all demo_config
              [("q1.1.1", PStr "교육"); ("q2.1.1", PStr "minimal");
               ("q5.1.1", PBool false)])
           (eq_refl : (300 * 1 = 100 * 3)%Z)
           (demo_question "q5.1.1" true 6)).
  - simpl. auto 6.
  - reflexivity.
Defined.

(** ** Identifiers and letter case *)

Lemma split_nonempty sep s : split sep s <> [].
Proof.
  destruct s as [|c s]; simpl; [discriminate|].
  destruct (Ascii.eqb c sep); [discriminate|].
  destruct (split sep s); discriminate.
Qed.

Lemma join_cons sep x l :
  l <> [] -> join sep (x :: l) = (x ++ sep ++ join sep l)%string.
Proof. destruct l; [contradiction | reflexivity]. Qed.

(** X22. Joining the pieces of a split with the separator gives the string
    back. *)
Theorem join_split :
  forall sep s, join (String sep EmptyString) (split sep s) = s.
Proof.
  intros sep s. induction s as [|c s IH]; [reflexivity|].
  cbn [split]. destruct (Ascii.eqb_spec c sep) as [->|_].
  - rewrite join_cons by apply split_nonempty. now rewrite IH.
  - pose proof (split_nonempty sep s) as Hne.
    destruct (split sep s) as [|h t]; [contradiction|].
    destruct t as [|h' t].
    + cbn [join] in *. now rewrite IH.
    + rewrite join_cons in IH |- * by discriminate.
      cbn [append] in IH |- *. now rewrite IH.
Qed.

Lemma split_no_dot a : has_dot a = false -> split "."%char a = [a].
Proof.
  induction a as [|c a IH]; cbn [has_dot split]; auto.
  intros H. apply orb_false_iff in H. destruct H as [Hc Ha].
  now rewrite Hc, (IH Ha).
Qed.

Lemma split_dot_app a s :
  has_dot a = false ->
  split "."%char (a ++ String "."%char s) = a :: split "."%char s.
Proof.
  induction a as [|c a IH]; cbn [has_dot split append].
  - intros _. reflexivity.
  - intros H. apply orb_false_iff in H. destruct H as [Hc Ha].
    now rewrite Hc, (IH Ha).
Qed.

(** X23. The prefix of an identifier is made of its first two dot-free
    segments: an identifier with fewer than three segments is its own prefix,
    and whatever follows the second segment is dropped, so that the category
    of a response depends on the first two segments of its identifier
    only. *)
Theorem prefix_of_segments :
  forall a b,
    has_dot a = false -> has_dot b = false ->
    prefix_of a = a
    /\ prefix_of (a ++ String "."%char b) = (a ++ String "."%char b)%string
    /\ forall rest,
         prefix_of (a ++ String "."%char (b ++ String "."%char rest))
         = (a ++ String "."%char b)%string.
Proof.
  intros a b Ha Hb. unfold prefix_of. split; [|split].
  - rewrite (split_no_dot a Ha). reflexivity.
  - rewrite (split_dot_app a b Ha), (split_no_dot b Hb). reflexivity.
  - intros rest.
    rewrite (split_dot_app a _ Ha), (split_dot_app b rest Hb). reflexivity.
Qed.

Lemma prefix_of_segments_witness :
  prefix_of "q4.2.17.a" = "q4.2".
Proof.
  exact (proj2 (proj2 (prefix_of_segments "q4" "2" eq_refl eq_refl)) "17.a").
Defined.

(** ** The recommendation route *)

Lemma generate_recommendations_mock system :
  generate_recommendations system MOCK_TEMPLATES
  = if style_answer_is_text (user_responses system)
    then Ok (mkSystem (config system) (user_responses system)
               (sort_desc (scored_catalog system MOCK_TEMPLATES)),
             firstn 10 (sort_desc (scored_catalog system MOCK_TEMPLATES)))
    else Raise AttributeError.
Proof.
  unfold generate_recommendations.
  destruct (style_answer_is_text (user_responses system)) eqn:E.
  - now rewrite (score_templates_ok _ _ (or_introl E)).
  - unfold MOCK_TEMPLATES. cbn [score_templates].
    now rewrite (match_score_raises _ _ E).
Qed.

Lemma route_get_recommendations_500 system :
  JsonReply.status (snd (route_get_recommendations system)) = 500%nat
  <-> style_answer_is_text (user_responses system) = false.
Proof.
  unfold route_get_recommendations. rewrite generate_recommendations_mock.
  destruct (style_answer_is_text (user_responses system));
    cbn [snd JsonReply.status]; split; auto; discriminate.
Qed.

Lemma route_get_recommendations_200 system :
  style_answer_is_text (user_responses system) = true ->
  JsonReply.status (snd (route_get_recommendations system)) = 200%nat.
Proof.
  intros H. unfold route_get_recommendations.
  rewrite generate_recommendations_mock, H. reflexivity.
Qed.



Lemma style_answer_after_submit now system v det :
  style_answer_is_text
    (user_responses (fst (submit_response now system "q2.1.1" v det)))
  = match v with PStr _ => true | _ => false end.
Proof.
  unfold style_answer_is_text, answer.
  cbn [submit_response fst user_responses].
  rewrite dict_get_set_same. reflexivity.
Qed.

Lemma route_submit_response_text now system qid v det :
  qid <> "" -> is_None v = false ->
  route_submit_response now system (submission (PStr qid) v det)
  = Submitted.mk (fst (submit_response now system qid v det)) None
      (Reply.mk 200 true "Response submitted successfully" None).
Proof.
  intros Hq Hv. unfold submission. rewrite route_submit_response_object.
  cbv zeta. change (field_value _ "question_id") with (PStr qid).
  change (field_value _ "response") with v.
  change (field_value _ "additional_details") with det.
  cbn [truthy]. destruct (String.eqb_spec qid ""); [contradiction|].
  rewrite Hv. reflexivity.
Qed.

(** X26. A style answer that is neither a string nor [None] is accepted by
    the submission route and makes the recommendation route answer 500 from
    then on; submitting a string for the style question makes it answer 200
    again. *)
Theorem style_answer_breaks_recommendations :
  forall now system v det,
    is_None v = false ->
    (forall s, v <> PStr s) ->
    let broken :=
      route_submit_response now system (submission (PStr "q2.1.1") v det) in
    Reply.status (Submitted.reply broken) = 200%nat
    /\ JsonReply.status
         (snd (route_get_recommendations (Submitted.system_after broken)))
       = 500%nat
    /\ forall now' s det',
         JsonReply.status
           (snd (route_get_recommendations
                   (Submitted.system_after
                      (route_submit_response now'
                         (Submitted.system_after broken)
                         (submission (PStr "q2.1.1") (PStr s) det')))))
         = 200%nat.
Proof.
  intros now system v det Hn Hs. cbv zeta.
  rewrite (route_submit_response_text now system "q2.1.1" v det)
    by (discriminate || assumption).
  cbn [Submitted.reply Submitted.system_after Reply.status].
  split; [reflexivity|]. split.
  - apply route_get_recommendations_500.
    rewrite style_answer_after_submit.
    destruct v; auto. now contradiction (Hs s).
  - intros now' s det'.
    rewrite route_submit_response_text by (discriminate || reflexivity).
    cbn [Submitted.system_after].
    apply route_get_recommendations_200.
    now rewrite style_answer_after_submit.
Qed.

Lemma style_answer_breaks_recommendations_witness :
  JsonReply.status (snd (route_get_recommendations false_style_system))
  = 500%nat.
Proof.
  pose proof (style_answer_breaks_recommendations "2024-01-01T00:00:00"
                (init demo_config) (PBool false) PNone eq_refl) as H.
  cbv zeta in H. destruct H as (_ & H & _); [intros s; discriminate|].
  exact H.
Defined.

(** ** The plan route *)

(** X27. The plan route answers 200 exactly when no timeline answer is
    recorded, or the recorded one is hashable and the configuration carries
    the roadmap table; in every other case it answers 500. A system without
    responses gets 200 whatever its configuration. *)
Theorem route_get_implementation_plan_status :
  forall system,
    let reply := route_get_implementation_plan system in
    (JsonReply.status reply = 200%nat
     <-> (dict_get (user_responses system) "q5.1.1" = None
          \/ exists r roadmaps,
               dict_get (user_responses system) "q5.1.1" = Some r
               /\ hashable (UserResponse.response r) = true
               /\ roadmaps_of (config system) = Ok roadmaps))
    /\ (JsonReply.status reply <> 200%nat ->
        JsonReply.status reply = 500%nat
        /\ JsonReply.success reply = false
        /\ JsonReply.payload reply = None)
    /\ (forall cfg,
           JsonReply.status (route_get_implementation_plan (init cfg))
           = 200%nat).
Proof.
  intros system. unfold route_get_implementation_plan.
  split; [|split].
  - destruct (generate_implementation_plan system) as [plan|e] eqn:E;
      cbn [JsonReply.status].
    + split; auto. intros _.
      destruct (dict_get (user_responses system) "q5.1.1") as [r|] eqn:Er;
        [|now left].
      right. destruct (hashable (UserResponse.response r)) eqn:Hh.
      * destruct (roadmaps_of (config system)) as [roadmaps|e] eqn:Hc.
        -- now exists r, roadmaps.
        -- rewrite (plan_config_error system r e Er Hh Hc) in E.
           discriminate.
      * rewrite (plan_unhashable system r Er Hh) in E. discriminate.
    + split; [discriminate|].
      apply plan_raise_inv in E.
      destruct E as (r & Er & Hcase).
      intros [Hnone|(r' & roadmaps & Er' & Hh & Hc)]; [congruence|].
      assert (r' = r) by congruence. subst r'.
      destruct Hcase as [[Hh' _]|[_ Hc']]; congruence.
  - destruct (generate_implementation_plan system);
      cbn [JsonReply.status JsonReply.success JsonReply.payload]; auto.
    intros H. now contradiction H.
  - intros cfg. reflexivity.
Qed.

Lemma route_get_implementation_plan_status_witness :
  JsonReply.status
    (route_get_implementation_plan
       (submit_all demo_config [("q5.1.1", PFloat 1.5)]))
  = 200%nat
  /\ JsonReply.status (route_get_implementation_plan list_timeline_system)
     = 500%nat.
Proof.
  split.
  - apply (proj1 (route_get_implementation_plan_status _)). right.
    exists (UserResponse.mk "q5.1.1" (PFloat 1.5) PNone "2024-01-01T00:00:00"),
      demo_roadmaps.
    repeat split.
  - apply (proj1 (proj2 (route_get_implementation_plan_status _))).
    discriminate.
Defined.
